(** * A shallow embedding of [scripts/raw_json_downloads/_common.py]

    The development follows the module top to bottom: the throttle, the
    retry wrapper, the URL rewriting helpers of the OECD and Census
    adapters, the response classifier and the per-dataset download loop.
    Python values are modelled as follows:

    - [int] is [Z]; time stamps and delays ([float] seconds) are
      rationals [Q], so the arithmetic of the throttle is the exact one;
    - [str] is [string], read as the UTF-8 bytes of the Python string;
    - decoded JSON ([Any]) is the inductive type [json];
    - a raising call is a value [Raises e] of the type [outcome];
    - module level mutable state and the outside world (clock, HTTP
      server, file system) are threaded explicitly through [world]. *)

From Stdlib Require Import ZArith QArith Qminmax String Ascii List Sorted Lia Lqa DecimalString Bool.
From stdpp Require Import gmap strings.
Import ListNotations.

Set Warnings "-register-all".

Local Open Scope string_scope.
Local Open Scope list_scope.
Local Open Scope Z_scope.

(** ** Constants of the module *)

Definition START_YEAR : Z := 1995.
Definition END_YEAR : Z := 2026.
Definition MAX_ATTEMPTS : nat := 6.
Definition RETRYABLE_STATUS_CODES : list Z := [429; 500; 502; 503; 504].

(** ** Python values *)

(** [str(n)] and [f"{n}"] for an [int]. *)
Definition str_of_int (n : Z) : string := NilZero.string_of_int (Z.to_int n).

(** Decoded JSON.  A [dict] keeps its insertion order; the first binding
    of a key is the one a lookup sees.  A [float] is carried as the
    rational it denotes: the code only ever tests it against zero. *)
Inductive json : Type :=
| JNull
| JBool (b : bool)
| JInt (n : Z)
| JFloat (x : Q)
| JStr (s : string)
| JList (items : list json)
| JDict (fields : list (string * json)).

Fixpoint assoc {A : Type} (k : string) (l : list (string * A)) : option A :=
  match l with
  | [] => None
  | (k', v) :: rest => if String.eqb k k' then Some v else assoc k rest
  end.

(** [bool(v)]: the truth value Python gives to a decoded JSON value. *)
Definition truthy (v : json) : bool :=
  match v with
  | JNull => false
  | JBool b => b
  | JInt n => negb (n =? 0)
  | JFloat x => negb (Qeq_bool x 0)
  | JStr s => negb (String.eqb s "")
  | JList items => match items with [] => false | _ => true end
  | JDict fields => match fields with [] => false | _ => true end
  end.

Definition type_name (v : json) : string :=
  match v with
  | JNull => "NoneType"
  | JBool _ => "bool"
  | JInt _ => "int"
  | JFloat _ => "float"
  | JStr _ => "str"
  | JList _ => "list"
  | JDict _ => "dict"
  end.

(** ** Exceptions and raising computations *)

Inductive exn : Type :=
| RetryableRequestError (message : string) (status_code : option Z)
| RequestException (message : string)
| AttributeError (message : string)
| TypeError (message : string)
| KeyError (message : string)
| ValueError (message : string)
| RuntimeError (message : string)
| OtherException (class_name message : string).

(** [str(exc)] *)
Definition str_exn (e : exn) : string :=
  match e with
  | RetryableRequestError m _ | RequestException m | AttributeError m
  | TypeError m | KeyError m | ValueError m | RuntimeError m
  | OtherException _ m => m
  end.

Inductive outcome (A : Type) : Type :=
| Returns (a : A)
| Raises (e : exn).
Arguments Returns {A} a.
Arguments Raises {A} e.

#[global] Instance outcome_ret : MRet outcome := fun A a => Returns a.
#[global] Instance outcome_bind : MBind outcome := fun A B k m =>
  match m with
  | Returns a => k a
  | Raises e => Raises e
  end.

(** [isinstance(v, dict)], [isinstance(v, list)] and [len(v)] *)
Definition is_dict (v : json) : bool :=
  match v with JDict _ => true | _ => false end.

Definition is_list (v : json) : bool :=
  match v with JList _ => true | _ => false end.

Definition py_len (v : json) : outcome Z :=
  match v with
  | JList items => Returns (Z.of_nat (length items))
  | JDict fields => Returns (Z.of_nat (length fields))
  | JStr s => Returns (Z.of_nat (String.length s))
  | _ => Raises (TypeError ("object of type '" +:+ type_name v +:+ "' has no len()"))
  end.

(** [v.get(key, default)]: among decoded JSON values only a [dict] has
    the method. *)
Definition py_get (v : json) (key : string) (default : json) : outcome json :=
  match v with
  | JDict fields =>
      Returns (match assoc key fields with Some x => x | None => default end)
  | _ => Raises (AttributeError
                   ("'" +:+ type_name v +:+ "' object has no attribute 'get'"))
  end.

(** [v[0]]: the first element of a list, the first character of a
    string; the keys of a decoded JSON object are strings, so the key [0]
    is never found in a [dict]; the other values are not subscriptable. *)
Definition py_index0 (v : json) : outcome json :=
  match v with
  | JList (first :: _) => Returns first
  | JList [] => Raises (OtherException "IndexError" "list index out of range")
  | JStr (String c _) => Returns (JStr (String c ""))
  | JStr "" => Raises (OtherException "IndexError" "string index out of range")
  | JDict _ => Raises (KeyError "0")
  | _ => Raises (TypeError ("'" +:+ type_name v +:+ "' object is not subscriptable"))
  end.

(** [isinstance(v, list) and len(v) == 0] *)
Definition is_empty_list (v : json) : outcome bool :=
  if is_list v then n ← py_len v; mret (n =? 0) else mret false.

(** ** The outside world

    What the code observes but does not decide is an [environment]: how
    much time passes during each primitive call in addition to what is
    slept, what the server answers to each request, and the random jitter
    of each back-off.  What the code changes is a [world]: the monotonic
    clock, the module level dictionary [_LAST_REQUEST_TS], and logs of the
    calls to [time.sleep] and [session.request]. *)

Record response : Type := Response {
  status_code : Z;
  url : string;
  body : json
}.

Record request : Type := Request {
  req_method : string;
  req_url : string
}.

Record environment : Type := Environment {
  drift : nat -> Q;
  server : nat -> outcome response;
  jitter : nat -> Q
}.

Record world : Type := World {
  clock : Q;
  ticks : nat;
  _LAST_REQUEST_TS : gmap string Q;
  slept : list Q;
  sent : list request
}.

Definition RATE_LIMIT_SECONDS : gmap string Q :=
  list_to_map
    [("fred", 0.6%Q); ("bls", 0.8%Q); ("coingecko", 1.6%Q); ("oecd", 1.2%Q);
     ("ecb", 0.8%Q); ("census", 0.8%Q); ("imf", 1.0%Q)].

(** [RATE_LIMIT_SECONDS.get(source_type, 0.6)] *)
Definition min_delay (source_type : string) : Q :=
  default 0.6%Q (RATE_LIMIT_SECONDS !! source_type).

Section Effects.

Variable env : environment.

(** Every primitive that takes time consumes one [drift] sample. *)
Definition elapse (extra : Q) (w : world) : world :=
  World (clock w + extra + drift env (ticks w))%Q (S (ticks w))
        (_LAST_REQUEST_TS w) (slept w) (sent w).

(** [time.monotonic()] *)
Definition time_monotonic (w : world) : Q * world :=
  let w' := elapse 0 w in (clock w', w').

(** [time.sleep(seconds)] *)
Definition time_sleep (seconds : Q) (w : world) : world :=
  let w' := elapse seconds w in
  World (clock w') (ticks w') (_LAST_REQUEST_TS w') (seconds :: slept w') (sent w').

(** [session.request(method=method, url=url, **kwargs)] *)
Definition session_request (method target : string) (w : world)
  : outcome response * world :=
  let reply := server env (length (sent w)) in
  let w' := elapse 0 w in
  (reply, World (clock w') (ticks w') (_LAST_REQUEST_TS w') (slept w')
                (Request method target :: sent w')).

(** *** The throttle *)

Definition _throttle (source_type : string) (w : world) : world :=
  let min_delay := min_delay source_type in
  let '(now, w) := time_monotonic w in
  let last := _LAST_REQUEST_TS w !! source_type in
  let w :=
    match last with
    | Some last =>
        let elapsed := (now - last)%Q in
        if Qlt_le_dec elapsed min_delay
        then time_sleep (min_delay - elapsed)%Q w
        else w
    | None => w
    end in
  let '(stamp, w) := time_monotonic w in
  World (clock w) (ticks w) (<[source_type := stamp]> (_LAST_REQUEST_TS w))
        (slept w) (sent w).

(** A run of throttle calls, one per listed source type. *)
Definition throttle_each (sources : list string) (w : world) : world :=
  fold_left (fun w source_type => _throttle source_type w) sources w.

(** *** The retry wrapper

    [tenacity.Retrying] with [stop_after_attempt(MAX_ATTEMPTS)],
    [wait_exponential_jitter(initial=1, max=30)],
    [retry_if_exception_type((RequestException, RetryableRequestError))]
    and [reraise=True]: the body of the [with attempt:] block runs; a
    value it returns is the result; an exception outside the two
    retried classes propagates at once; a retried exception is raised
    again when the attempt number has reached [MAX_ATTEMPTS], and is
    otherwise followed by a sleep and the next attempt. *)

Definition retry_if_exception_type (e : exn) : bool :=
  match e with
  | RequestException _ | RetryableRequestError _ _ => true
  | _ => false
  end.

Definition stop_after_attempt (max_attempt_number attempt_number : nat) : bool :=
  (max_attempt_number <=? attempt_number)%nat.

Definition wait_exponential_jitter (initial max : Q) (attempt_number : nat)
    (jitter : Q) : Q :=
  let exp := inject_Z (2 ^ Z.of_nat (attempt_number - 1)) in
  let result := (initial * exp + jitter)%Q in
  Qmax 0 (Qmin result max).

(** The body of the [with attempt:] block. *)
Definition attempt (source_type method target : string) (w : world)
  : outcome response * world :=
  let w := _throttle source_type w in
  let '(reply, w) := session_request method target w in
  match reply with
  | Returns response =>
      if existsb (Z.eqb (status_code response)) RETRYABLE_STATUS_CODES then
        (Raises (RetryableRequestError
                   ("retryable status code " +:+ str_of_int (status_code response))
                   (Some (status_code response))), w)
      else (Returns response, w)
  | Raises e => (Raises e, w)
  end.

(** The loop over the attempts.  [fuel] bounds the number of
    iterations; [None] means that the bound was too small. *)
Fixpoint retrying (fuel : nat) (source_type method target : string)
    (attempt_number : nat) (w : world) : option (outcome response * world) :=
  match fuel with
  | O => None
  | S fuel =>
      let '(result, w) := attempt source_type method target w in
      match result with
      | Returns response => Some (Returns response, w)
      | Raises e =>
          if negb (retry_if_exception_type e) then Some (Raises e, w)
          else if stop_after_attempt MAX_ATTEMPTS attempt_number
          then Some (Raises e, w)
          else
            let seconds :=
              wait_exponential_jitter 1 30 attempt_number
                (jitter env attempt_number) in
            retrying fuel source_type method target (S attempt_number)
                     (time_sleep seconds w)
      end
  end.

Definition _request_with_retries (source_type method target : string)
    (w : world) : option (outcome response * world) :=
  retrying MAX_ATTEMPTS source_type method target 1 w.

End Effects.

(** ** The response classifier *)

Definition _is_no_data_response (source_type : string) (payload : json)
  : outcome bool :=
  if String.eqb source_type "fred" && is_dict payload then
    obs ← py_get payload "observations" JNull;
    is_empty_list obs
  else if String.eqb source_type "bls" && is_dict payload then
    results ← py_get payload "Results" (JDict []);
    series ← py_get results "series" (JList []);
    if negb (truthy series) then mret true
    else
      first ← py_index0 series;
      data ← py_get first "data" (JList []);
      is_empty_list data
  else if String.eqb source_type "coingecko" && is_dict payload then
    prices ← py_get payload "prices" JNull;
    is_empty_list prices
  else if String.eqb source_type "census" && is_list payload then
    n ← py_len payload;
    mret (n <=? 1)
  else mret false.

Record classification : Type := Classification {
  status : string;
  error_type : string;
  recommended_action : string;
  message : string
}.

(** [exc.status_code == code] and [exc.status_code in codes] for the
    optional status an exception carries. *)
Definition status_is (sc : option Z) (code : Z) : bool :=
  match sc with Some c => c =? code | None => false end.

Definition status_in (sc : option Z) (codes : list Z) : bool :=
  existsb (status_is sc) codes.

Definition transient_retries_exhausted (exc : exn) : classification :=
  Classification "error" "transient_retries_exhausted" "retry_later" (str_exn exc).

Definition _classify_result (source_type : string) (status_code : option Z)
    (payload : json) (exception : option exn) : outcome classification :=
  match exception with
  | Some exc =>
      match exc with
      | RetryableRequestError _ sc =>
          if status_is sc 429 then
            mret (Classification "error" "rate_limited" "retry_later"
                    "Rate limit persisted after retries.")
          else if status_in sc [500; 502; 503; 504] then
            mret (Classification "error" "upstream_server_error" "retry_later"
                    "Upstream server errors persisted after retries.")
          else mret (transient_retries_exhausted exc)
      | _ => mret (transient_retries_exhausted exc)
      end
  | None =>
      match status_code with
      | None =>
          mret (Classification "error" "malformed_or_missing_config" "fix_request"
                  "Missing required dataset URL or configuration.")
      | Some code =>
          if (200 <=? code) && (code <? 300) then
            empty ← _is_no_data_response source_type payload;
            if empty : bool then
              mret (Classification "error" "no_data_in_range"
                      "accept_or_change_time_range"
                      "Request succeeded but the API returned no data for this year.")
            else mret (Classification "ok" "" "none" "Success")
          else if code =? 400 then
            mret (Classification "error" "malformed_request" "fix_request"
                    "API rejected request format or parameters.")
          else if (code =? 401) || (code =? 403) then
            mret (Classification "error" "auth_or_access"
                    "check_api_key_or_permissions"
                    "Authentication/authorization failed.")
          else if code =? 404 then
            mret (Classification "error" "dataset_not_found" "fix_request"
                    "Dataset endpoint or series was not found.")
          else if code =? 429 then
            mret (Classification "error" "rate_limited" "retry_later"
                    "Rate limit hit after retries.")
          else if (500 <=? code) && (code <? 600) then
            mret (Classification "error" "upstream_server_error" "retry_later"
                    "Upstream server error after retries.")
          else
            mret (Classification "error" "unexpected_status" "inspect_response"
                    ("Unexpected status code " +:+ str_of_int code))
      end
  end.


(** ** Artifacts on disk *)

(** [value.lower()] and [value.strip()] on the ASCII range. *)
Definition ascii_lower (c : ascii) : ascii :=
  let n := nat_of_ascii c in
  if ((65 <=? n) && (n <=? 90))%nat then ascii_of_nat (n + 32) else c.

Definition is_space (c : ascii) : bool :=
  let n := nat_of_ascii c in
  (((9 <=? n) && (n <=? 13)) || ((28 <=? n) && (n <=? 32)))%nat.

Definition is_lower_alnum (c : ascii) : bool :=
  let n := nat_of_ascii c in
  (((97 <=? n) && (n <=? 122)) || ((48 <=? n) && (n <=? 57)))%nat.

Fixpoint string_map (f : ascii -> ascii) (s : string) : string :=
  match s with
  | EmptyString => EmptyString
  | String c rest => String (f c) (string_map f rest)
  end.

Fixpoint lstrip (drop : ascii -> bool) (s : string) : string :=
  match s with
  | String c rest => if drop c then lstrip drop rest else s
  | EmptyString => EmptyString
  end.

Fixpoint string_rev_onto (s acc : string) : string :=
  match s with
  | EmptyString => acc
  | String c rest => string_rev_onto rest (String c acc)
  end.

Definition string_rev (s : string) : string := string_rev_onto s EmptyString.

Definition rstrip (drop : ascii -> bool) (s : string) : string :=
  string_rev (lstrip drop (string_rev s)).

Definition strip (drop : ascii -> bool) (s : string) : string :=
  rstrip drop (lstrip drop s).

(** [re.sub(r"[^a-z0-9]+", "_", value)]: [in_run] tells that the
    previous character already belonged to the run being replaced. *)
Fixpoint collapse_non_alnum (in_run : bool) (s : string) : string :=
  match s with
  | EmptyString => EmptyString
  | String c rest =>
      if is_lower_alnum c then String c (collapse_non_alnum false rest)
      else if in_run then collapse_non_alnum true rest
      else String "_" (collapse_non_alnum true rest)
  end.

Definition _slugify (value : string) : string :=
  let value := strip is_space (string_map ascii_lower value) in
  let value := collapse_non_alnum false value in
  strip (Ascii.eqb "_") value.

(** [Path(a) / b] for a relative component without separators. *)
Definition path_join (a b : string) : string :=
  if String.eqb b "" then a else a +:+ "/" +:+ b.

(** The file system is the log of the files written, oldest first;
    [_write_json] creates or replaces the file at [path]. *)
Definition file_system : Type := list (string * json).

Definition _write_json (path : string) (data : json) (fs : file_system)
  : file_system :=
  fs ++ [(path, data)].

(** ** The download loop *)

Record year_entry : Type := YearEntry {
  year_of : Z;
  year_status : string;
  year_error_type : string;
  year_recommended_action : string
}.

Record error_entry : Type := ErrorEntry {
  error_year : Z;
  error_error_type : string;
  error_recommended_action : string;
  error_message : string;
  error_request : json
}.

Record summary : Type := Summary {
  metadata : json;
  totals_ok : Z;
  totals_error : Z;
  errors : list error_entry;
  years : list year_entry
}.

Definition json_of_year_entry (e : year_entry) : json :=
  JDict [("year", JInt (year_of e)); ("status", JStr (year_status e));
         ("error_type", JStr (year_error_type e));
         ("recommended_action", JStr (year_recommended_action e))].

Definition json_of_error_entry (e : error_entry) : json :=
  JDict [("year", JInt (error_year e)); ("error_type", JStr (error_error_type e));
         ("recommended_action", JStr (error_recommended_action e));
         ("message", JStr (error_message e)); ("request", error_request e)].

Definition json_of_summary (s : summary) : json :=
  JDict [("metadata", metadata s);
         ("totals", JDict [("ok", JInt (totals_ok s)); ("error", JInt (totals_error s))]);
         ("errors", JList (map json_of_error_entry (errors s)));
         ("years", JList (map json_of_year_entry (years s)))].

(** [range(lo, hi)] *)
Definition py_range (lo hi : Z) : list Z :=
  map (fun i => lo + Z.of_nat i) (seq 0 (Z.to_nat (hi - lo))).

Definition supported_source_types : list string :=
  ["fred"; "bls"; "coingecko"; "oecd"; "ecb"; "census"; "imf"].

(** What an adapter hands back: payload, request metadata, status code. *)
Definition adapter_result : Type := json * json * option Z.

Section Download.

(** The seven adapters, as far as the loop can tell: for a source type,
    a dataset identifier and a year, either a result or an exception. *)
Variable adapter : string -> string -> Z -> outcome adapter_result.

(** [handlers.get(source_type)] *)
Definition handlers (source_type : string)
  : option (string -> Z -> outcome adapter_result) :=
  if existsb (String.eqb source_type) supported_source_types
  then Some (adapter source_type) else None.

Definition year_artifact (meta : json) (year : Z) (request_meta : json)
    (result : classification) (payload : json) : json :=
  JDict [("metadata", meta); ("year", JInt year); ("request", request_meta);
         ("status", JStr (status result));
         ("error_type", JStr (error_type result));
         ("recommended_action", JStr (recommended_action result));
         ("message", JStr (message result)); ("response", payload)].

(** One iteration of the [for year in range(...)] loop. *)
Definition download_year (handler : string -> Z -> outcome adapter_result)
    (base_dir : string) (meta : json) (source_type dataset_id : string)
    (year : Z) (acc : summary) (fs : file_system)
  : outcome summary * file_system :=
  let '(payload, request_meta, status_code, captured_error) :=
    match handler dataset_id year with
    | Returns (payload, request_meta, status_code) =>
        (payload, request_meta, status_code, None)
    | Raises exc => (JNull, JDict [], None, Some exc)
    end in
  match _classify_result source_type status_code payload captured_error with
  | Raises e => (Raises e, fs)
  | Returns result =>
      let year_path := path_join base_dir (str_of_int year +:+ ".json") in
      let fs :=
        _write_json year_path
          (year_artifact meta year request_meta result payload) fs in
      let acc :=
        if String.eqb (status result) "ok" then
          Summary (metadata acc) (totals_ok acc + 1) (totals_error acc)
                  (errors acc) (years acc)
        else
          Summary (metadata acc) (totals_ok acc) (totals_error acc + 1)
                  (errors acc ++
                     [ErrorEntry year (error_type result)
                        (recommended_action result) (message result)
                        request_meta])
                  (years acc) in
      let acc :=
        Summary (metadata acc) (totals_ok acc) (totals_error acc) (errors acc)
                (years acc ++
                   [YearEntry year (status result) (error_type result)
                      (recommended_action result)]) in
      (Returns acc, fs)
  end.

Fixpoint download_years (handler : string -> Z -> outcome adapter_result)
    (base_dir : string) (meta : json) (source_type dataset_id : string)
    (todo : list Z) (acc : summary) (fs : file_system)
  : outcome summary * file_system :=
  match todo with
  | [] => (Returns acc, fs)
  | year :: todo =>
      match download_year handler base_dir meta source_type dataset_id
              year acc fs with
      | (Returns acc, fs) =>
          download_years handler base_dir meta source_type dataset_id
            todo acc fs
      | (Raises e, fs) => (Raises e, fs)
      end
  end.

Definition download_dataset (group dataset_name source_type dataset_id : string)
    (fs : file_system) : outcome summary * file_system :=
  let slug := _slugify (group +:+ "_" +:+ dataset_name) in
  let base_dir := path_join (path_join "data" "raw_json") slug in
  let meta :=
    JDict [("group", JStr group); ("dataset_name", JStr dataset_name);
           ("source_type", JStr source_type); ("dataset_id", JStr dataset_id);
           ("start_year", JInt START_YEAR); ("end_year", JInt END_YEAR)] in
  match handlers source_type with
  | None =>
      (Raises (ValueError ("Unsupported source_type: " +:+ source_type)), fs)
  | Some handler =>
      let acc := Summary meta 0 0 [] [] in
      match download_years handler base_dir meta source_type dataset_id
              (py_range START_YEAR (END_YEAR + 1)) acc fs with
      | (Returns acc, fs) =>
          let summary_path := path_join base_dir "_summary.json" in
          (Returns acc, _write_json summary_path (json_of_summary acc) fs)
      | (Raises e, fs) => (Raises e, fs)
      end
  end.

End Download.

(** ** Vocabulary of the statements *)

(** [classified r st et ra]: the call returned a classification with
    these three fields, whatever its message. *)
Definition classified (r : outcome classification)
    (st et ra : string) : Prop :=
  exists msg, r = Returns (Classification st et ra msg).

(** The status a [RetryableRequestError] carries; no other exception
    carries one. *)
Definition carried_status (exc : exn) : option Z :=
  match exc with
  | RetryableRequestError _ sc => sc
  | _ => None
  end.

(** *** The empty-result heuristic, twice

    [spec_no_data] is the heuristic in the words of the specification:
    for [bls], "[Results.series] is missing or empty, or the first series
    element's [data] list is empty". *)
Definition spec_series (payload : json) : option json :=
  match payload with
  | JDict fields =>
      match assoc "Results" fields with
      | Some (JDict results) => assoc "series" results
      | _ => None
      end
  | _ => None
  end.

Definition spec_no_data (source_type : string) (payload : json) : bool :=
  if String.eqb source_type "fred" then
    match payload with
    | JDict fields =>
        match assoc "observations" fields with
        | Some (JList []) => true
        | _ => false
        end
    | _ => false
    end
  else if String.eqb source_type "bls" then
    match spec_series payload with
    | None => true
    | Some (JList []) => true
    | Some (JList (JDict first :: _)) =>
        match assoc "data" first with
        | Some (JList []) => true
        | _ => false
        end
    | Some _ => false
    end
  else if String.eqb source_type "coingecko" then
    match payload with
    | JDict fields =>
        match assoc "prices" fields with
        | Some (JList []) => true
        | _ => false
        end
    | _ => false
    end
  else if String.eqb source_type "census" then
    match payload with
    | JList items => (length items <=? 1)%nat
    | _ => false
    end
  else false.

(** [no_data] is the heuristic the code implements, as a relation.  For
    [bls] the series value is read with a missing [Results] taken as an
    empty object and a missing [series] as an empty list; it is not
    defined when [Results] is present without being an object. *)
Definition bls_series (fields : list (string * json)) : option json :=
  match assoc "Results" fields with
  | None => Some (JList [])
  | Some (JDict results) => Some (default (JList []) (assoc "series" results))
  | Some _ => None
  end.

Inductive no_data : string -> json -> Prop :=
| no_data_fred fields :
    assoc "observations" fields = Some (JList []) ->
    no_data "fred" (JDict fields)
| no_data_bls_series fields series :
    bls_series fields = Some series ->
    truthy series = false ->
    no_data "bls" (JDict fields)
| no_data_bls_data fields first rest :
    bls_series fields = Some (JList (JDict first :: rest)) ->
    assoc "data" first = None \/ assoc "data" first = Some (JList []) ->
    no_data "bls" (JDict fields)
| no_data_coingecko fields :
    assoc "prices" fields = Some (JList []) ->
    no_data "coingecko" (JDict fields)
| no_data_census items :
    (length items <= 1)%nat ->
    no_data "census" (JList items).

(** The [bls] payloads on which the heuristic is defined: every payload
    that is not an object, and the objects whose series value exists and
    is either falsy or a list that starts with an object. *)
Definition bls_regular (payload : json) : Prop :=
  forall fields, payload = JDict fields ->
    exists series, bls_series fields = Some series /\
      (truthy series = false \/
       exists first rest, series = JList (JDict first :: rest)).

Definition NO_DATA : classification :=
  Classification "error" "no_data_in_range" "accept_or_change_time_range"
    "Request succeeded but the API returned no data for this year.".

Definition OK : classification := Classification "ok" "" "none" "Success".

(** *** Reading a summary *)

Definition is_ok (e : year_entry) : bool := String.eqb (year_status e) "ok".

Definition not_ok (e : year_entry) : bool := negb (is_ok e).

(** The counters and the error list agree with the per-year entries. *)
Definition consistent (s : summary) : Prop :=
  totals_ok s = Z.of_nat (length (List.filter is_ok (years s)))
  /\ totals_error s = Z.of_nat (length (errors s))
  /\ map error_year (errors s) = map year_of (List.filter not_ok (years s)).

(** A [bls] adapter whose answer for 1997 has a null [Results]. *)
Definition bls_null_results (dataset_id : string) (year : Z)
  : outcome adapter_result :=
  let meta :=
    JDict [("url", JStr "https://api.bls.gov/publicAPI/v2/timeseries/data/");
           ("status_code", JInt 200)] in
  if year =? 1997 then
    Returns (JDict [("status", JStr "REQUEST_SUCCEEDED"); ("Results", JNull)],
             meta, Some 200)
  else
    Returns (JDict [("status", JStr "REQUEST_SUCCEEDED");
                    ("Results",
                     JDict [("series",
                             JList [JDict [("seriesID", JStr dataset_id);
                                           ("data", JList [JDict [("year", JInt year)]])]])])],
             meta, Some 200).

(** A Census adapter that fails for 1996, finds only the header row for
    1997 and two rows otherwise. *)
Definition census_sample (dataset_id : string) (year : Z)
  : outcome adapter_result :=
  let meta := JDict [("url", JStr dataset_id); ("status_code", JInt 200)] in
  if year =? 1996 then Raises (RequestException "connection reset")
  else if year =? 1997 then
    Returns (JList [JList [JStr "NAME"; JStr "P1_001N"; JStr "state"]], meta, Some 200)
  else
    Returns (JList [JList [JStr "NAME"; JStr "P1_001N"; JStr "state"];
                    JList [JStr "Ohio"; JStr "11799448"; JStr "39"]],
             meta, Some 200).

Definition sample_adapter (source_type : string)
  : string -> Z -> outcome adapter_result :=
  if String.eqb source_type "bls" then bls_null_results else census_sample.

(** *** Sample worlds *)

(** A server that always answers 503, a clock that drifts by 50 ms per
    primitive call, and a constant jitter of half a second. *)
Definition always_503 : environment :=
  Environment (fun _ => 0.05%Q)
    (fun _ => Returns (Response 503 "https://api.stlouisfed.org/fred/series/observations" JNull))
    (fun _ => 0.5%Q).

Definition fresh_world : world := World 0 0 ∅ [] [].

(** *** The taxonomy of outcomes

    The triples of status, error type and recommended action that occur
    in the [return] statements of [_classify_result]. *)
Definition taxonomy : list (string * string * string) :=
  [("ok", "", "none");
   ("error", "rate_limited", "retry_later");
   ("error", "upstream_server_error", "retry_later");
   ("error", "transient_retries_exhausted", "retry_later");
   ("error", "malformed_or_missing_config", "fix_request");
   ("error", "no_data_in_range", "accept_or_change_time_range");
   ("error", "malformed_request", "fix_request");
   ("error", "auth_or_access", "check_api_key_or_permissions");
   ("error", "dataset_not_found", "fix_request");
   ("error", "unexpected_status", "inspect_response")].

Definition triple_of (c : classification) : string * string * string :=
  (status c, error_type c, recommended_action c).

(** *** Reading a run of the retry wrapper *)

(** What one attempt makes of the answer of [session.request], and
    whether the retry predicate asks for another attempt after it. *)
Definition attempt_result (reply : outcome response) : outcome response :=
  match reply with
  | Returns resp =>
      if existsb (Z.eqb (status_code resp)) RETRYABLE_STATUS_CODES then
        Raises (RetryableRequestError
                  ("retryable status code " +:+ str_of_int (status_code resp))
                  (Some (status_code resp)))
      else Returns resp
  | Raises e => Raises e
  end.

Definition retried (reply : outcome response) : bool :=
  match attempt_result reply with
  | Returns _ => false
  | Raises e => retry_if_exception_type e
  end.

(** A server that fails twice, with a dropped connection and a 502, and
    then answers 200. *)
Definition flaky_server : environment :=
  Environment (fun _ => 0.01%Q)
    (fun n =>
       match n with
       | O => Raises (RequestException "connection aborted")
       | S O => Returns (Response 502 "https://api.bls.gov/publicAPI/v2/timeseries/data/" JNull)
       | _ => Returns (Response 200 "https://api.bls.gov/publicAPI/v2/timeseries/data/"
                         (JDict [("status", JStr "REQUEST_SUCCEEDED")]))
       end)
    (fun _ => 0.25%Q).

(** *** An invariant of the throttle state

    No stamp of [_LAST_REQUEST_TS] lies in the future of the clock. *)
Definition stamps_in_past (w : world) : Prop :=
  forall source_type stamp,
    _LAST_REQUEST_TS w !! source_type = Some stamp -> (stamp <= clock w)%Q.

(** The durations a computation added to the log of [time.sleep] calls. *)
Definition slept_since (before after : world) (durations : list Q) : Prop :=
  slept after = durations ++ slept before.

(** *** Reading a run of the download loop *)

(** The arguments the loop passes to the classifier for one year, and
    what it then records: after a raising adapter call the payload is
    [None], the request metadata an empty dict and the status code
    [None]. *)
Definition payload_of (r : outcome adapter_result) : json :=
  match r with
  | Returns (payload, _, _) => payload
  | Raises _ => JNull
  end.

Definition request_meta_of (r : outcome adapter_result) : json :=
  match r with
  | Returns (_, request_meta, _) => request_meta
  | Raises _ => JDict []
  end.

Definition year_outcome (source_type : string) (r : outcome adapter_result)
  : outcome classification :=
  match r with
  | Returns (payload, _, status_code) =>
      _classify_result source_type status_code payload None
  | Raises exc => _classify_result source_type None JNull (Some exc)
  end.

Definition year_entry_of (year : Z) (c : classification) : year_entry :=
  YearEntry year (status c) (error_type c) (recommended_action c).

Definition error_entry_of (year : Z) (c : classification) (request_meta : json)
  : error_entry :=
  ErrorEntry year (error_type c) (recommended_action c) (message c) request_meta.

Definition dataset_dir (group dataset_name : string) : string :=
  path_join (path_join "data" "raw_json") (_slugify (group +:+ "_" +:+ dataset_name)).

Definition dataset_metadata (group dataset_name source_type dataset_id : string)
  : json :=
  JDict [("group", JStr group); ("dataset_name", JStr dataset_name);
         ("source_type", JStr source_type); ("dataset_id", JStr dataset_id);
         ("start_year", JInt START_YEAR); ("end_year", JInt END_YEAR)].

(** *** The IMF adapter *)

Definition _imf_request (dataset_id : string) (year : Z) : adapter_result :=
  if String.eqb (strip is_space dataset_id) "" then
    (JDict [("error",
             JStr "Dataset URL is empty. Update DATASET_ID with a valid IMF API URL.");
            ("year", JInt year)],
     JDict [("url", JStr dataset_id); ("status_code", JNull)], None)
  else
    (JDict [("error",
             JStr "IMF raw downloader expects a concrete IMF URL in the dataset slot.");
            ("year", JInt year)],
     JDict [("url", JStr dataset_id); ("status_code", JNull)], None).

(** Adapters for the sample runs: the IMF stub, and one whose every call
    fails with a dropped connection. *)
Definition imf_adapter (source_type dataset_id : string) (year : Z)
  : outcome adapter_result :=
  Returns (_imf_request dataset_id year).

Definition failing_adapter (source_type dataset_id : string) (year : Z)
  : outcome adapter_result :=
  Raises (RequestException "connection aborted").

(** *** The shape of a slug *)

Fixpoint string_forallb (P : ascii -> bool) (s : string) : bool :=
  match s with
  | EmptyString => true
  | String c rest => P c && string_forallb P rest
  end.

Definition first_char (s : string) : option ascii :=
  match s with
  | EmptyString => None
  | String c _ => Some c
  end.

Fixpoint last_char (s : string) : option ascii :=
  match s with
  | EmptyString => None
  | String c EmptyString => Some c
  | String _ rest => last_char rest
  end.

Definition is_underscore (c : ascii) : bool := Ascii.eqb "_" c.

Definition is_slug_char (c : ascii) : bool := is_lower_alnum c || is_underscore c.

(** No two underscores in a row. *)
Fixpoint no_double_underscore (s : string) : bool :=
  match s with
  | String a (String b _ as rest) =>
      negb (is_underscore a && is_underscore b) && no_double_underscore rest
  | _ => true
  end.

Definition starts_with (P : ascii -> bool) (s : string) : bool :=
  match first_char s with Some c => P c | None => false end.

Definition ends_with (P : ascii -> bool) (s : string) : bool :=
  match last_char s with Some c => P c | None => false end.

(** Lower-case letters, digits and single underscores, with no
    underscore at either end. *)
Definition is_slug (s : string) : Prop :=
  string_forallb is_slug_char s = true
  /\ no_double_underscore s = true
  /\ starts_with is_underscore s = false
  /\ ends_with is_underscore s = false.

(** *** The ECB resource path *)

(** [c in s] for a single character. *)
Fixpoint has_char (c : ascii) (s : string) : bool :=
  match s with
  | EmptyString => false
  | String x rest => Ascii.eqb c x || has_char c rest
  end.

(** [s.split(c, 1)] when it has two parts: the text before and after the
    first [c]. *)
Fixpoint split_once (c : ascii) (s : string) : option (string * string) :=
  match s with
  | EmptyString => None
  | String x rest =>
      if Ascii.eqb c x then Some (EmptyString, rest)
      else match split_once c rest with
           | Some (before, after) => Some (String x before, after)
           | None => None
           end
  end.

Definition _ecb_resource_path (dataset_id : string) : string :=
  if has_char "." dataset_id && negb (has_char "/" dataset_id) then
    match split_once "." dataset_id with
    | Some (flow_ref, key) => flow_ref +:+ "/" +:+ key
    | None => dataset_id
    end
  else dataset_id.

(** ** Query strings and URL rewriting

    [_set_period_params] and [_census_url_for_year] call four functions of
    [urllib.parse] and [re.sub].  [parse_qs] and [urlencode] are modelled
    on the bytes of the strings; the splitting of a URL into its six
    components and the UTF-8 decoding inside [unquote] are not: they are
    parameters of the section below, so that what is proved holds for
    every behaviour of [urlparse], [urlunparse] and the decoder. *)

Definition is_ascii (c : ascii) : bool := (nat_of_ascii c <? 128)%nat.

Definition is_digit (c : ascii) : bool :=
  let n := nat_of_ascii c in ((48 <=? n) && (n <=? 57))%nat.

(** The characters [quote] never escapes: letters, digits and [_.-~]. *)
Definition is_always_safe (c : ascii) : bool :=
  let n := nat_of_ascii c in
  (((65 <=? n) && (n <=? 90)) || ((97 <=? n) && (n <=? 122))
   || ((48 <=? n) && (n <=? 57))
   || (n =? 95) || (n =? 46) || (n =? 45) || (n =? 126))%nat.

Definition hex_digit (n : nat) : ascii :=
  if (n <? 10)%nat then ascii_of_nat (48 + n) else ascii_of_nat (55 + n).

Definition hex_value (c : ascii) : option nat :=
  let n := nat_of_ascii c in
  if ((48 <=? n) && (n <=? 57))%nat then Some (n - 48)%nat
  else if ((65 <=? n) && (n <=? 70))%nat then Some (n - 55)%nat
  else if ((97 <=? n) && (n <=? 102))%nat then Some (n - 87)%nat
  else None.

(** [quote_plus(s, safe='')] on the UTF-8 bytes of [s]. *)
Definition quote_plus_char (c : ascii) : string :=
  if is_always_safe c then String c ""
  else if Ascii.eqb c " " then "+"
  else String "%" (String (hex_digit (nat_of_ascii c / 16))
                     (String (hex_digit (nat_of_ascii c mod 16)) "")).

Fixpoint quote_plus (s : string) : string :=
  match s with
  | EmptyString => EmptyString
  | String c rest => quote_plus_char c +:+ quote_plus rest
  end.

(** [unquote_to_bytes]: a percent sign followed by two hexadecimal
    digits is one byte; any other percent sign stands for itself. *)
Fixpoint percent_decode (s : string) : string :=
  match s with
  | EmptyString => EmptyString
  | String c rest =>
      if Ascii.eqb c "%" then
        match rest with
        | String h (String l rest') =>
            match hex_value h, hex_value l with
            | Some a, Some b =>
                String (ascii_of_nat (16 * a + b)) (percent_decode rest')
            | _, _ => String c (percent_decode rest)
            end
        | _ => String c (percent_decode rest)
        end
      else String c (percent_decode rest)
  end.

(** [s.replace('+', ' ')] *)
Definition plus_to_space (s : string) : string :=
  string_map (fun c => if Ascii.eqb c "+" then " "%char else c) s.

(** [s.split(sep)] for a one-character separator. *)
Fixpoint split_on (sep : ascii) (s : string) : list string :=
  match s with
  | EmptyString => [EmptyString]
  | String c rest =>
      if Ascii.eqb sep c then EmptyString :: split_on sep rest
      else match split_on sep rest with
           | piece :: pieces => String c piece :: pieces
           | [] => [String c EmptyString]
           end
  end.

(** [sep.join(pieces)] *)
Fixpoint join (sep : string) (pieces : list string) : string :=
  match pieces with
  | [] => EmptyString
  | [piece] => piece
  | piece :: pieces => piece +:+ sep +:+ join sep pieces
  end.

(** [sub in s] *)
Fixpoint contains (sub s : string) : bool :=
  String.prefix sub s
  || match s with
     | EmptyString => false
     | String _ rest => contains sub rest
     end.

(** The dictionary [parse_qs] builds: keys in the order of their first
    occurrence, each with the list of its values. *)
Definition query_dict : Type := list (string * list string).

(** [key in d] *)
Definition dict_mem (key : string) (d : query_dict) : bool :=
  match assoc key d with Some _ => true | None => false end.

(** [d[key] = values]: in place when the key is there, at the end
    otherwise. *)
Fixpoint dict_set (key : string) (values : list string) (d : query_dict)
  : query_dict :=
  match d with
  | [] => [(key, values)]
  | (k, vs) :: rest =>
      if String.eqb key k then (k, values) :: rest
      else (k, vs) :: dict_set key values rest
  end.

(** [d[key].append(value)] when the key is there, [d[key] = [value]]
    otherwise. *)
Fixpoint dict_add (key value : string) (d : query_dict) : query_dict :=
  match d with
  | [] => [(key, [value])]
  | (k, vs) :: rest =>
      if String.eqb key k then (k, vs ++ [value]) :: rest
      else (k, vs) :: dict_add key value rest
  end.

(** [values[0]] *)
Definition py_first (values : list string) : outcome string :=
  match values with
  | v :: _ => Returns v
  | [] => Raises (OtherException "IndexError" "list index out of range")
  end.

(** [urlencode(d, doseq=True)]: one field per value, keys and values
    escaped with [quote_plus], joined with [&]. *)
Definition urlencode_fields (d : query_dict) : list string :=
  flat_map (fun '(k, vs) =>
              map (fun v => quote_plus k +:+ "=" +:+ quote_plus v) vs) d.

Definition urlencode (d : query_dict) : string := join "&" (urlencode_fields d).

(** The six components of [urlparse]. *)
Record ParseResult : Type := MkParseResult {
  pr_scheme : string;
  pr_netloc : string;
  pr_path : string;
  pr_params : string;
  pr_query : string;
  pr_fragment : string
}.

(** [parsed._replace(query=q)] *)
Definition replace_query (parsed : ParseResult) (q : string) : ParseResult :=
  MkParseResult (pr_scheme parsed) (pr_netloc parsed) (pr_path parsed)
                (pr_params parsed) q (pr_fragment parsed).

(** [s[n:]] *)
Fixpoint string_drop (n : nat) (s : string) : string :=
  match n, s with
  | S n, String _ rest => string_drop n rest
  | _, _ => s
  end.

(** [re.sub(r"/data/\d{4}/", replacement, s)], with [\d] read as an
    ASCII digit: exact on ASCII strings.  [year_segment_at s] tells that
    [s] starts with a match; [skip] counts the characters of the last
    match that are still to be passed over. *)
Definition year_segment_at (s : string) : bool :=
  String.prefix "/data/" s
  && match string_drop 6 s with
     | String d1 (String d2 (String d3 (String d4 (String c _)))) =>
         is_digit d1 && is_digit d2 && is_digit d3 && is_digit d4
         && Ascii.eqb c "/"
     | _ => false
     end.

Fixpoint sub_year_segments (skip : nat) (replacement s : string) : string :=
  match s with
  | EmptyString => EmptyString
  | String c rest =>
      match skip with
      | S skip => sub_year_segments skip replacement rest
      | O =>
          if year_segment_at s
          then replacement +:+ sub_year_segments 10 replacement rest
          else String c (sub_year_segments 0 replacement rest)
      end
  end.

Section UrlRewriting.

(** [bytes.decode('utf-8', 'replace')], as UTF-8 bytes again. *)
Variable utf8_replace : string -> string.

(** [urlparse] may raise [ValueError]; [urlunparse] does not. *)
Variable urlparse : string -> outcome ParseResult.
Variable urlunparse : ParseResult -> string.

(** [unquote(s)]: every maximal run of ASCII characters is
    percent-decoded and then decoded as UTF-8; the characters outside
    ASCII stay.  [pending] is the ASCII run read so far. *)
Definition unquote_flush (pending : string) : string :=
  if String.eqb pending "" then "" else utf8_replace (percent_decode pending).

Fixpoint unquote_runs (pending s : string) : string :=
  match s with
  | EmptyString => unquote_flush pending
  | String c rest =>
      if is_ascii c then unquote_runs (pending +:+ String c "") rest
      else unquote_flush pending +:+ String c (unquote_runs "" rest)
  end.

Definition unquote (s : string) : string :=
  if has_char "%" s then unquote_runs "" s else s.

(** [parse_qsl(qs, keep_blank_values=True)] *)
Definition parse_field (name_value : string) : list (string * string) :=
  if String.eqb name_value "" then []
  else
    let '(name, value) :=
      match split_once "=" name_value with
      | Some (name, value) => (name, value)
      | None => (name_value, "")
      end in
    [(unquote (plus_to_space name), unquote (plus_to_space value))].

Definition parse_qsl (qs : string) : list (string * string) :=
  flat_map parse_field (split_on "&" qs).

(** [parse_qs(qs, keep_blank_values=True)] *)
Definition parse_qs (qs : string) : query_dict :=
  fold_left (fun d '(name, value) => dict_add name value d) (parse_qsl qs) [].

Definition _set_period_params (target : string) (year : Z) : outcome string :=
  parsed ← urlparse target;
  let query := parse_qs (pr_query parsed) in
  start_template ← py_first (default ["YYYY"] (assoc "startPeriod" query));
  let query :=
    if contains "-Q" start_template then
      dict_set "endPeriod" [str_of_int year +:+ "-Q4"]
        (dict_set "startPeriod" [str_of_int year +:+ "-Q1"] query)
    else if contains "-M" start_template then
      dict_set "endPeriod" [str_of_int year +:+ "-M12"]
        (dict_set "startPeriod" [str_of_int year +:+ "-M01"] query)
    else
      dict_set "endPeriod" [str_of_int year]
        (dict_set "startPeriod" [str_of_int year] query) in
  mret (urlunparse (replace_query parsed (urlencode query))).

Definition _census_url_for_year (dataset_id : string) (year : Z)
  : outcome string :=
  let target :=
    sub_year_segments 0 ("/data/" +:+ str_of_int year +:+ "/") dataset_id in
  parsed ← urlparse target;
  let query := parse_qs (pr_query parsed) in
  let query :=
    if dict_mem "time" query then dict_set "time" [str_of_int year] query
    else query in
  mret (urlunparse (replace_query parsed (urlencode query))).

End UrlRewriting.

(** *** A sample splitter

    For the sample runs: URLs of the plain shape
    [scheme://netloc/path?query#fragment] without parameters, and a
    decoder used on ASCII text only. *)
Definition sample_urlparse (target : string) : outcome ParseResult :=
  let '(rest, fragment) :=
    match split_once "#" target with
    | Some (rest, fragment) => (rest, fragment)
    | None => (target, "")
    end in
  let '(rest, query) :=
    match split_once "?" rest with
    | Some (rest, query) => (rest, query)
    | None => (rest, "")
    end in
  match split_once ":" rest with
  | Some (scheme, String "/" (String "/" after)) =>
      match split_once "/" after with
      | Some (netloc, path) =>
          Returns (MkParseResult scheme netloc (String "/" path) "" query fragment)
      | None => Returns (MkParseResult scheme after "" "" query fragment)
      end
  | _ => Raises (ValueError "not a plain URL")
  end.

Definition sample_urlunparse (p : ParseResult) : string :=
  pr_scheme p +:+ "://" +:+ pr_netloc p +:+ pr_path p
  +:+ (if String.eqb (pr_query p) "" then "" else "?" +:+ pr_query p)
  +:+ (if String.eqb (pr_fragment p) "" then "" else "#" +:+ pr_fragment p).

Definition ascii_decoder (s : string) : string := s.

(** *** Reading the rewritten query *)

(** The bounds of the period of one year, at the granularity of the
    template: quarterly, monthly or annual. *)
Definition period_bounds (template : string) (year : Z) : string * string :=
  if contains "-Q" template
  then (str_of_int year +:+ "-Q1", str_of_int year +:+ "-Q4")
  else if contains "-M" template
  then (str_of_int year +:+ "-M01", str_of_int year +:+ "-M12")
  else (str_of_int year, str_of_int year).

(** The first value of [startPeriod], or ["YYYY"] without one. *)
Definition start_template_of (query : query_dict) : string :=
  match assoc "startPeriod" query with
  | Some (v :: _) => v
  | _ => "YYYY"
  end.

(** The keys of a dictionary after [d[key] = ...]. *)
Definition keys_with (key : string) (keys : list string) : list string :=
  if existsb (String.eqb key) keys then keys else keys ++ [key].

(** Every key has at least one value, as in a result of [parse_qs]. *)
Definition values_nonempty (d : query_dict) : Prop :=
  Forall (fun kv => snd kv <> []) d.

(** The characters of an escaped key or value: the safe ones, [+] and
    [%]. *)
Definition is_escaped_char (c : ascii) : bool :=
  is_always_safe c || Ascii.eqb c "+" || Ascii.eqb c "%".

(** A dictionary without repeated keys. *)
Definition keys_unique (d : query_dict) : Prop := NoDup (map fst d).

(** The characters of a field of an encoded query: those of the escaped
    key and value, and the [=] between them. *)
Definition is_field_char (c : ascii) : bool :=
  is_escaped_char c || Ascii.eqb c "=".

(** Dataset identifiers of the repository, for the sample runs. *)
Definition oecd_gdp_quarterly_id : string :=
  "https://sdmx.oecd.org/public/rest/data/OECD.SDD.NAD,DSD_NAMAIN1@DF_QNA,1.1/Q.USA.B1GQ...?startPeriod=2015-Q1&dimensionAtObservation=AllDimensions".

Definition census_poverty_id : string :=
  "https://api.census.gov/data/timeseries/poverty/saipe?get=NAME,SAEPOVRTALL_PT&for=state:*&time=2021".

Definition census_population_id : string :=
  "https://api.census.gov/data/2020/dec/pl?get=NAME,P1_001N&for=state:*".

(** Some position of [s] starts a match of the pattern. *)
Fixpoint has_year_segment (s : string) : bool :=
  year_segment_at s
  || match s with
     | EmptyString => false
     | String _ rest => has_year_segment rest
     end.

(** Four ASCII digits. *)
Definition four_digits (s : string) : bool :=
  match s with
  | String d1 (String d2 (String d3 (String d4 EmptyString))) =>
      is_digit d1 && is_digit d2 && is_digit d3 && is_digit d4
  | _ => false
  end.

(** [s'] is [s] with some digits replaced by digits. *)
Fixpoint digit_variant (s s' : string) : bool :=
  match s, s' with
  | EmptyString, EmptyString => true
  | String c rest, String c' rest' =>
      (Ascii.eqb c c' || (is_digit c && is_digit c')) && digit_variant rest rest'
  | _, _ => false
  end.

(** *** The disk after a sequence of writes

    [_write_json] opens the file with mode ["w"]: a later write to a path
    replaces the earlier content. *)
Definition write_all (fs : file_system) (disk : gmap string json)
  : gmap string json :=
  fold_left (fun disk '(path, data) => <[path := data]> disk) fs disk.

Definition disk_of (fs : file_system) : gmap string json := write_all fs ∅.

(** ** The batch runner ([run_all.py])

    [DATA_CATALOG] comes from a module that is not part of the sources at
    hand: the catalogue is a parameter, a list of groups in the order of
    the dictionary, each with its optional ["type"] and its datasets.  The
    three readings of the wall clock are parameters too. *)
Record catalog_group : Type := CatalogGroup {
  group_type : option string;
  group_datasets : list (string * string)
}.

Record dataset_report : Type := DatasetReport {
  report_group : string;
  report_dataset_name : string;
  report_source_type : option string;
  report_summary_path : string;
  report_ok : Z;
  report_error : Z;
  report_errors : list error_entry
}.

Record run_report : Type := RunReport {
  run_started_at : string;
  run_datasets : Z;
  run_ok_years : Z;
  run_error_years : Z;
  run_entries : list dataset_report
}.

Definition json_of_option_string (s : option string) : json :=
  match s with Some s => JStr s | None => JNull end.

Definition json_of_dataset_report (r : dataset_report) : json :=
  JDict [("group", JStr (report_group r));
         ("dataset_name", JStr (report_dataset_name r));
         ("source_type", json_of_option_string (report_source_type r));
         ("summary_path", JStr (report_summary_path r));
         ("totals", JDict [("ok", JInt (report_ok r)); ("error", JInt (report_error r))]);
         ("errors", JList (map json_of_error_entry (report_errors r)))].

Definition json_of_run_report (r : run_report) (finished_at : string) : json :=
  JDict [("run_started_at", JStr (run_started_at r));
         ("totals", JDict [("datasets", JInt (run_datasets r));
                           ("ok_years", JInt (run_ok_years r));
                           ("error_years", JInt (run_error_years r))]);
         ("datasets", JList (map json_of_dataset_report (run_entries r)));
         ("run_finished_at", JStr finished_at)].

Section BatchRunner.

Variable adapter : string -> string -> Z -> outcome adapter_result.

(** [download_dataset] called with the value of [group_config.get("type")],
    which is [None] when the group has no type. *)
Definition download_dataset_typed (group dataset_name : string)
    (source_type : option string) (dataset_id : string) (fs : file_system)
  : outcome summary * file_system :=
  match source_type with
  | Some source_type =>
      download_dataset adapter group dataset_name source_type dataset_id fs
  | None => (Raises (ValueError "Unsupported source_type: None"), fs)
  end.

(** The inner loop, over the datasets of one group. *)
Fixpoint run_group (group : string) (source_type : option string)
    (datasets : list (string * string)) (report : run_report) (fs : file_system)
  : outcome run_report * file_system :=
  match datasets with
  | [] => (Returns report, fs)
  | (dataset_name, dataset_id) :: datasets =>
      match download_dataset_typed group dataset_name source_type dataset_id fs with
      | (Raises e, fs) => (Raises e, fs)
      | (Returns s, fs) =>
          let entry :=
            DatasetReport group dataset_name source_type
              (path_join (dataset_dir group dataset_name) "_summary.json")
              (totals_ok s) (totals_error s) (errors s) in
          let report :=
            RunReport (run_started_at report) (run_datasets report + 1)
              (run_ok_years report + totals_ok s)
              (run_error_years report + totals_error s)
              (run_entries report ++ [entry]) in
          run_group group source_type datasets report fs
      end
  end.

(** The outer loop, over the groups of the catalogue. *)
Fixpoint run_groups (catalog : list (string * catalog_group))
    (report : run_report) (fs : file_system)
  : outcome run_report * file_system :=
  match catalog with
  | [] => (Returns report, fs)
  | (group, config) :: catalog =>
      match run_group group (group_type config) (group_datasets config)
              report fs with
      | (Raises e, fs) => (Raises e, fs)
      | (Returns report, fs) => run_groups catalog report fs
      end
  end.

(** [main()]: the report is handed back here for the statements; the
    Python function returns [None]. *)
Definition main (catalog : list (string * catalog_group))
    (started_at finished_at run_id : string) (fs : file_system)
  : outcome run_report * file_system :=
  match run_groups catalog (RunReport started_at 0 0 0 []) fs with
  | (Raises e, fs) => (Raises e, fs)
  | (Returns report, fs) =>
      let run_dir := path_join (path_join "data" "raw_json") "_runs" in
      let run_path := path_join run_dir ("run_all_" +:+ run_id +:+ ".json") in
      (Returns report, _write_json run_path (json_of_run_report report finished_at) fs)
  end.

End BatchRunner.

(** All datasets of a catalogue, in the order of the two loops. *)
Definition catalog_datasets (catalog : list (string * catalog_group))
  : list (string * option string * string * string) :=
  flat_map (fun '(group, config) =>
              map (fun '(dataset_name, dataset_id) =>
                     (group, group_type config, dataset_name, dataset_id))
                (group_datasets config))
    catalog.

(** A catalogue of two groups for the sample runs. *)
Definition sample_catalog : list (string * catalog_group) :=
  [("ECB", CatalogGroup (Some "ecb")
             [("USD/EUR", "EXR.D.USD.EUR.SP00.A");
              ("HICP", "ICP.M.U2.N.000000.4.ANR")]);
   ("US Census", CatalogGroup (Some "census")
                   [("Poverty Rate by State", census_poverty_id)])].


(** The two loops of [main] as one loop over [catalog_datasets]; the
    statements about [main] are proved on this form. *)
Fixpoint run_each (adapter : string -> string -> Z -> outcome adapter_result)
    (todo : list (string * option string * string * string))
    (report : run_report) (fs : file_system)
  : outcome run_report * file_system :=
  match todo with
  | [] => (Returns report, fs)
  | (group, source_type, dataset_name, dataset_id) :: todo =>
      match run_group adapter group source_type [(dataset_name, dataset_id)]
              report fs with
      | (Raises e, fs) => (Raises e, fs)
      | (Returns report, fs) => run_each adapter todo report fs
      end
  end.

(** What one download does, whatever is on disk already. *)
Definition download_outcome
    (adapter : string -> string -> Z -> outcome adapter_result)
    (d : string * option string * string * string) : outcome summary :=
  let '(group, source_type, dataset_name, dataset_id) := d in
  fst (download_dataset_typed adapter group dataset_name source_type dataset_id []).

Definition completes
    (adapter : string -> string -> Z -> outcome adapter_result)
    (d : string * option string * string * string) : Prop :=
  exists s, download_outcome adapter d = Returns s.

Definition run_path (run_id : string) : string :=
  path_join (path_join (path_join "data" "raw_json") "_runs")
    ("run_all_" +:+ run_id +:+ ".json").

(** The sample catalogue with a [bls] group in second place; with
    [sample_adapter] its download stops at 1997. *)
Definition sample_catalog_bls : list (string * catalog_group) :=
  [("ECB", CatalogGroup (Some "ecb") [("USD/EUR", "EXR.D.USD.EUR.SP00.A")]);
   ("BLS", CatalogGroup (Some "bls") [("US CPI", "CUUR0000SA0")]);
   ("US Census", CatalogGroup (Some "census")
                   [("Poverty Rate by State", census_poverty_id)])].

(** What identifies a dataset in the catalogue and in the report. *)
Definition dataset_key (d : string * option string * string * string)
  : string * option string * string :=
  let '(group, source_type, dataset_name, _) := d in
  (group, source_type, dataset_name).

Definition report_key (r : dataset_report) : string * option string * string :=
  (report_group r, report_source_type r, report_dataset_name r).

(** * Properties *)

(** ** The classifier *)

Lemma status_is_true sc code : status_is sc code = true <-> sc = Some code.
Proof.
  destruct sc as [c|]; simpl; [|split; discriminate].
  rewrite Z.eqb_eq. split; congruence.
Qed.

Lemma status_in_true sc codes :
  status_in sc codes = true <-> exists code, sc = Some code /\ In code codes.
Proof.
  unfold status_in. rewrite existsb_exists. split.
  - intros (code & Hin & Hc). apply status_is_true in Hc. eauto.
  - intros (code & -> & Hin). exists code. split; [done|]. by apply status_is_true.
Qed.

(** C2: with a captured exception the classification is decided by the
    exception alone, for every source type, status code and payload: a
    [RetryableRequestError] carrying 429 is [rate_limited], one carrying
    500, 502, 503 or 504 is [upstream_server_error], and every other
    exception is [transient_retries_exhausted] with [str(exception)] as
    its message; the action is [retry_later] in all three cases. *)
Theorem classify_exception_first (source_type : string)
    (status_code : option Z) (payload : json) :
  (forall msg,
      classified
        (_classify_result source_type status_code payload
           (Some (RetryableRequestError msg (Some 429))))
        "error" "rate_limited" "retry_later")
  /\ (forall msg code,
         In code [500; 502; 503; 504] ->
         classified
           (_classify_result source_type status_code payload
              (Some (RetryableRequestError msg (Some code))))
           "error" "upstream_server_error" "retry_later")
  /\ (forall exc,
         ~ In (carried_status exc) (map Some [429; 500; 502; 503; 504]) ->
         _classify_result source_type status_code payload (Some exc)
         = Returns (Classification "error" "transient_retries_exhausted"
                      "retry_later" (str_exn exc))).
Proof.
  split; [|split].
  - intros msg. eexists. reflexivity.
  - intros msg code Hin. simpl in Hin.
    destruct Hin as [<-|[<-|[<-|[<-|[]]]]]; eexists; reflexivity.
  - intros exc Hother. destruct exc as [msg sc| | | | | | |]; try reflexivity.
    unfold _classify_result. cbn [carried_status] in Hother.
    destruct (status_is sc 429) eqn:H429.
    { apply status_is_true in H429. subst sc. simpl in Hother. tauto. }
    destruct (status_in sc [500; 502; 503; 504]) eqn:H5xx; [|reflexivity].
    apply status_in_true in H5xx. destruct H5xx as (code & -> & Hin).
    exfalso. apply Hother. right. apply (in_map Some) in Hin. exact Hin.
Qed.

Lemma classify_exception_first_witness :
  classified
    (_classify_result "census" (Some 200) (JList [])
       (Some (RetryableRequestError "retryable status code 503" (Some 503))))
    "error" "upstream_server_error" "retry_later"
  /\ _classify_result "census" (Some 200) (JList [])
       (Some (RequestException "connection reset"))
     = Returns (Classification "error" "transient_retries_exhausted"
                  "retry_later" "connection reset").
Proof.
  pose proof (classify_exception_first "census" (Some 200) (JList [])) as H.
  split.
  - apply (proj1 (proj2 H)). simpl. tauto.
  - apply (proj2 (proj2 H) (RequestException "connection reset")).
    simpl. intros [?|[?|[?|[?|[?|[]]]]]]; discriminate.
Defined.

(** C4: without a captured exception the status code decides, for every
    source type and payload: no status code, 400, 401 or 403, 404, 429,
    the range 500..599, and every remaining code outside 200..299. *)
Theorem classify_status_code (source_type : string) (payload : json) :
  classified (_classify_result source_type None payload None)
    "error" "malformed_or_missing_config" "fix_request"
  /\ classified (_classify_result source_type (Some 400) payload None)
       "error" "malformed_request" "fix_request"
  /\ (forall code, code = 401 \/ code = 403 ->
        classified (_classify_result source_type (Some code) payload None)
          "error" "auth_or_access" "check_api_key_or_permissions")
  /\ classified (_classify_result source_type (Some 404) payload None)
       "error" "dataset_not_found" "fix_request"
  /\ classified (_classify_result source_type (Some 429) payload None)
       "error" "rate_limited" "retry_later"
  /\ (forall code, 500 <= code < 600 ->
        classified (_classify_result source_type (Some code) payload None)
          "error" "upstream_server_error" "retry_later")
  /\ (forall code,
        ~ 200 <= code < 300 -> ~ In code [400; 401; 403; 404; 429] ->
        ~ 500 <= code < 600 ->
        classified (_classify_result source_type (Some code) payload None)
          "error" "unexpected_status" "inspect_response").
Proof.
  repeat split; try (eexists; reflexivity).
  - intros code [-> | ->]; eexists; reflexivity.
  - intros code Hcode. unfold _classify_result.
    replace ((200 <=? code) && (code <? 300)) with false by lia.
    replace (code =? 400) with false by lia.
    replace ((code =? 401) || (code =? 403)) with false by lia.
    replace (code =? 404) with false by lia.
    replace (code =? 429) with false by lia.
    replace ((500 <=? code) && (code <? 600)) with true by lia.
    eexists; reflexivity.
  - intros code H2xx Hlisted H5xx. simpl in Hlisted. unfold _classify_result.
    replace ((200 <=? code) && (code <? 300)) with false by lia.
    replace (code =? 400) with false by lia.
    replace ((code =? 401) || (code =? 403)) with false by lia.
    replace (code =? 404) with false by lia.
    replace (code =? 429) with false by lia.
    replace ((500 <=? code) && (code <? 600)) with false by lia.
    eexists; reflexivity.
Qed.

Lemma classify_status_code_witness :
  classified (_classify_result "ecb" (Some 403) JNull None)
    "error" "auth_or_access" "check_api_key_or_permissions"
  /\ classified (_classify_result "ecb" (Some 503) JNull None)
       "error" "upstream_server_error" "retry_later"
  /\ classified (_classify_result "ecb" (Some 302) JNull None)
       "error" "unexpected_status" "inspect_response".
Proof.
  pose proof (classify_status_code "ecb" JNull) as (_ & _ & H40x & _ & _ & H5xx & Hrest).
  split; [|split].
  - apply H40x. right. reflexivity.
  - apply H5xx. lia.
  - apply Hrest; [lia| |lia]. simpl. lia.
Defined.

(** C9: the classifier is not total.  For [bls] and a 2xx status it
    raises instead of returning a classification when [Results] is not an
    object, when the series value is truthy without being a list, and
    when the first element of the series list is not an object. *)
Theorem classify_raises_on_bls_payloads :
  _classify_result "bls" (Some 200) (JDict [("Results", JNull)]) None
  = Raises (AttributeError "'NoneType' object has no attribute 'get'")
  /\ _classify_result "bls" (Some 200)
       (JDict [("Results", JDict [("series", JInt 7)])]) None
     = Raises (TypeError "'int' object is not subscriptable")
  /\ _classify_result "bls" (Some 200)
       (JDict [("Results", JDict [("series", JList [JStr "LNS14000000"])])]) None
     = Raises (AttributeError "'str' object has no attribute 'get'").
Proof. repeat split. Qed.

(** Outside [bls] the heuristic always returns. *)
Lemma is_no_data_response_returns source_type payload :
  source_type <> "bls" ->
  exists b, _is_no_data_response source_type payload = Returns b.
Proof.
  intros Hbls. unfold _is_no_data_response.
  destruct (String.eqb_spec source_type "bls") as [|_]; [done|].
  destruct (String.eqb source_type "fred"), (String.eqb source_type "coingecko"),
    (String.eqb source_type "census");
    destruct payload as [| | | | |items|fields]; simpl; eauto;
    try (destruct (assoc _ fields) as [[| | | | |[]|]|]; simpl; eauto).
Qed.

Lemma classify_returns_unless_bls source_type status_code payload exception :
  source_type <> "bls" ->
  exists result,
    _classify_result source_type status_code payload exception = Returns result.
Proof.
  intros Hbls. unfold _classify_result.
  destruct exception as [exc|].
  { destruct exc; eauto.
    destruct (status_is _ _); eauto. destruct (status_in _ _); eauto. }
  destruct status_code as [code|]; eauto.
  destruct (_ && _).
  { destruct (is_no_data_response_returns source_type payload Hbls) as [[] ->];
      simpl; eauto. }
  repeat (match goal with |- context [if ?b then _ else _] => destruct b end);
    eauto.
Qed.

Lemma is_empty_list_returns v :
  is_empty_list v = Returns (match v with JList [] => true | _ => false end).
Proof. destruct v as [| | | | |[]|]; reflexivity. Qed.

(** What the heuristic returns on the payloads where it is defined. *)
Lemma is_no_data_response_spec source_type payload :
  (source_type = "bls" -> bls_regular payload) ->
  exists b, _is_no_data_response source_type payload = Returns b /\
            (b = true <-> no_data source_type payload).
Proof.
  intros Hreg. unfold _is_no_data_response.
  destruct (String.eqb_spec source_type "fred") as [->|Hfred].
  { destruct payload as [| | | | | |fields]; simpl;
      try (exists false; split; [done|split; [done|inversion 1]]).
    rewrite is_empty_list_returns. eexists; split; [done|].
    split.
    - intros H. constructor.
      destruct (assoc "observations" fields) as [[| | | | |[]|]|]; done.
    - inversion 1 as [? Hobs| | | |]; subst. by rewrite Hobs. }
  destruct (String.eqb_spec source_type "bls") as [->|Hbls].
  { destruct payload as [| | | | | |fields]; simpl;
      try (exists false; split; [done|split; [done|inversion 1]]).
    destruct (Hreg eq_refl fields eq_refl) as (series & Hseries & Hshape).
    unfold bls_series in Hseries.
    destruct (assoc "Results" fields) as [[| | | | | |results]|] eqn:HR;
      try discriminate; simpl.
    - injection Hseries as <-.
      change (default (JList []) (assoc "series" results))
        with (match assoc "series" results with
              | Some x => x
              | None => JList []
              end) in Hshape.
      set (series := match assoc "series" results with
                     | Some x => x
                     | None => JList []
                     end) in *.
      assert (Hdef : default (JList []) (assoc "series" results) = series)
        by reflexivity.
      destruct (truthy series) eqn:Ht; simpl.
      + destruct Hshape as [?|(first & rest & Hs)]; [congruence|].
        rewrite Hs. simpl. rewrite is_empty_list_returns.
        eexists; split; [done|]. split.
        * intros H. eapply no_data_bls_data.
          { unfold bls_series. rewrite HR, Hdef, Hs. done. }
          destruct (assoc "data" first) as [[| | | | |[]|]|]; auto; done.
        * inversion 1 as [|? ? Hb Hf|? ? ? Hb Hd| |]; subst;
            unfold bls_series in Hb; rewrite HR in Hb; injection Hb as Hb.
          { congruence. }
          rewrite Hdef, Hs in Hb. injection Hb as -> ->.
          destruct Hd as [-> | ->]; done.
      + exists true. split; [done|]. split; [|done]. intros _.
        eapply no_data_bls_series; [|exact Ht].
        unfold bls_series. by rewrite HR, Hdef.
    - injection Hseries as <-. exists true. split; [done|].
      split; [|done]. intros _. apply (no_data_bls_series fields (JList [])).
      + unfold bls_series. by rewrite HR.
      + reflexivity. }
  destruct (String.eqb_spec source_type "coingecko") as [->|Hcg].
  { destruct payload as [| | | | | |fields]; simpl;
      try (exists false; split; [done|split; [done|inversion 1]]).
    rewrite is_empty_list_returns. eexists; split; [done|].
    split.
    - intros H. constructor.
      destruct (assoc "prices" fields) as [[| | | | |[]|]|]; done.
    - inversion 1 as [| | |? Hp|]; subst. by rewrite Hp. }
  destruct (String.eqb_spec source_type "census") as [->|Hcensus].
  { destruct payload as [| | | | |items|]; simpl;
      try (exists false; split; [done|split; [done|inversion 1]]).
    eexists; split; [done|]. rewrite Z.leb_le. split.
    - intros H. constructor. lia.
    - inversion 1; subst. lia. }
  simpl. exists false. split; [done|]. split; [done|].
  inversion 1; subst; congruence.
Qed.

(** C3, as stated, fails for [bls].  A series value that is present but
    falsy counts as empty for the code; so does a first series element
    without any [data] entry; and a payload that is not an object is never
    empty for the code, although it has no [Results.series]. *)
Lemma classify_no_data_counterexample :
  (spec_no_data "bls" (JDict [("Results", JDict [("series", JInt 0)])]) = false
   /\ _classify_result "bls" (Some 200)
        (JDict [("Results", JDict [("series", JInt 0)])]) None
      = Returns NO_DATA)
  /\ (spec_no_data "bls"
        (JDict [("Results",
                 JDict [("series", JList [JDict [("seriesID", JStr "CUSR0000SA0")]])])])
      = false
      /\ _classify_result "bls" (Some 200)
           (JDict [("Results",
                    JDict [("series", JList [JDict [("seriesID", JStr "CUSR0000SA0")]])])])
           None
         = Returns NO_DATA)
  /\ (spec_no_data "bls" (JList []) = true
      /\ _classify_result "bls" (Some 200) (JList []) None = Returns OK).
Proof. repeat split. Qed.

(** C3, amended: without a captured exception and with a 2xx status the
    classification is [no_data_in_range] exactly when the heuristic
    [no_data] holds, and the "Success" classification otherwise, on every
    payload for the other source types and on the regular payloads for
    [bls]; for [oecd], [ecb] and [imf] it is always "Success". *)
Theorem classify_2xx_no_data (source_type : string) (payload : json) (code : Z) :
  200 <= code < 300 ->
  (source_type = "bls" -> bls_regular payload) ->
  (no_data source_type payload ->
   _classify_result source_type (Some code) payload None = Returns NO_DATA)
  /\ (~ no_data source_type payload ->
      _classify_result source_type (Some code) payload None = Returns OK)
  /\ (In source_type ["oecd"; "ecb"; "imf"] ->
      _classify_result source_type (Some code) payload None = Returns OK).
Proof.
  intros Hcode Hreg.
  destruct (is_no_data_response_spec source_type payload Hreg) as (b & Hb & Hiff).
  assert (Hcls : _classify_result source_type (Some code) payload None
                 = Returns (if b then NO_DATA else OK)).
  { unfold _classify_result.
    replace ((200 <=? code) && (code <? 300)) with true by lia.
    rewrite Hb. by destruct b. }
  assert (Hneg : ~ no_data source_type payload ->
                 _classify_result source_type (Some code) payload None = Returns OK).
  { intros Hno. rewrite Hcls. destruct b; [|done]. destruct Hno. by apply Hiff. }
  split; [|split]; [|exact Hneg|].
  - intros Hyes. apply Hiff in Hyes as ->. exact Hcls.
  - intros Hin. apply Hneg. simpl in Hin.
    destruct Hin as [<-|[<-|[<-|[]]]]; inversion 1.
Qed.

Lemma classify_2xx_no_data_witness :
  _classify_result "bls" (Some 200)
    (JDict [("Results", JDict [("series", JList [JDict [("data", JList [])]])])])
    None
  = Returns NO_DATA.
Proof.
  refine (proj1 (classify_2xx_no_data "bls"
                   (JDict [("Results",
                            JDict [("series", JList [JDict [("data", JList [])]])])])
                   200 _ _) _).
  - lia.
  - intros _ fields [= <-]. eexists. split; [reflexivity|].
    right. eexists _, _. reflexivity.
  - apply (no_data_bls_data _ [("data", JList [])] []); [reflexivity|].
    right. reflexivity.
Defined.

(** ** The download loop *)

Lemma py_range_years :
  py_range START_YEAR (END_YEAR + 1)
  = [1995; 1996; 1997; 1998; 1999; 2000; 2001; 2002; 2003; 2004; 2005;
     2006; 2007; 2008; 2009; 2010; 2011; 2012; 2013; 2014; 2015; 2016;
     2017; 2018; 2019; 2020; 2021; 2022; 2023; 2024; 2025; 2026].
Proof. reflexivity. Qed.

Section DownloadFacts.

Variable handler : string -> Z -> outcome adapter_result.
Variables base_dir source_type dataset_id : string.
Variable meta : json.

(** One iteration adds one entry for its year, keeps the counters in
    step and writes exactly one file. *)
Lemma download_year_returns year acc fs acc' fs' :
  download_year handler base_dir meta source_type dataset_id year acc fs
  = (Returns acc', fs') ->
  consistent acc ->
  consistent acc'
  /\ map year_of (years acc') = map year_of (years acc) ++ [year]
  /\ metadata acc' = metadata acc
  /\ exists artifact,
       fs' = fs ++ [(path_join base_dir (str_of_int year +:+ ".json"), artifact)].
Proof.
  unfold download_year. intros Hrun (Hok & Herr & Hyears).
  destruct (match handler dataset_id year with
            | Returns (payload, request_meta, status_code) =>
                (payload, request_meta, status_code, None)
            | Raises exc => (JNull, JDict [], None, Some exc)
            end) as [[[payload request_meta] status_code] captured_error].
  destruct (_classify_result source_type status_code payload captured_error)
    as [result|e]; [|discriminate].
  injection Hrun as <- <-.
  unfold consistent, _write_json.
  destruct (String.eqb (status result) "ok") eqn:Hst;
    cbn [years errors totals_ok totals_error metadata];
    rewrite !List.filter_app, !map_app, ?length_app;
    cbn [List.filter map length]; unfold not_ok, is_ok in *;
    cbn [year_status year_of error_year]; rewrite Hst;
    cbn [negb map length app]; rewrite ?app_nil_r.
  - repeat split; eauto; lia.
  - repeat split; eauto; try lia. by rewrite Hyears.
Qed.

Lemma download_years_returns todo : forall acc fs acc' fs',
  download_years handler base_dir meta source_type dataset_id todo acc fs
  = (Returns acc', fs') ->
  consistent acc ->
  consistent acc'
  /\ map year_of (years acc') = map year_of (years acc) ++ todo
  /\ metadata acc' = metadata acc
  /\ map fst fs'
     = map fst fs
       ++ map (fun year => path_join base_dir (str_of_int year +:+ ".json")) todo.
Proof.
  induction todo as [|year todo IH]; intros acc fs acc' fs' Hrun Hacc.
  - injection Hrun as <- <-. rewrite !app_nil_r. done.
  - cbn [download_years] in Hrun.
    destruct (download_year handler base_dir meta source_type dataset_id
                year acc fs) as [[acc1|e] fs1] eqn:Hyear; [|discriminate].
    destruct (download_year_returns _ _ _ _ _ Hyear Hacc)
      as (Hacc1 & Hyears1 & Hmeta1 & artifact & ->).
    destruct (IH _ _ _ _ Hrun Hacc1) as (Hacc' & Hyears' & Hmeta' & Hfs').
    split; [done|]. split; [|split].
    + rewrite Hyears', Hyears1, <- app_assoc. done.
    + congruence.
    + rewrite Hfs', map_app, <- app_assoc. done.
Qed.

(** The loop stops at the first year whose classification raises. *)
Lemma download_years_raises todo : forall acc fs e fs',
  download_years handler base_dir meta source_type dataset_id todo acc fs
  = (Raises e, fs') ->
  exists year payload request_meta status_code,
    In year todo
    /\ handler dataset_id year = Returns (payload, request_meta, status_code)
    /\ _classify_result source_type status_code payload None = Raises e.
Proof.
  induction todo as [|year todo IH]; intros acc fs e fs' Hrun; [discriminate|].
  cbn [download_years] in Hrun.
  destruct (download_year handler base_dir meta source_type dataset_id
              year acc fs) as [[acc1|e1] fs1] eqn:Hyear.
  - destruct (IH _ _ _ _ Hrun) as (y & p & m & s & Hin & Hh & Hc).
    exists y, p, m, s. split; [by right|done].
  - injection Hrun as <- <-. unfold download_year in Hyear.
    destruct (handler dataset_id year) as [[[payload request_meta] status_code]|exc]
      eqn:Hh.
    + destruct (_classify_result source_type status_code payload None) eqn:Hc;
        [discriminate|].
      injection Hyear as <- <-. exists year, payload, request_meta, status_code.
      split; [by left|done].
    + exfalso. unfold _classify_result in Hyear.
      destruct exc; try discriminate.
      destruct (status_is _ _); [discriminate|].
      destruct (status_in _ _); discriminate.
Qed.

End DownloadFacts.

(** The loop runs to the end whenever no classification raises; it then
    leaves one file per year, in year order, followed by the summary. *)
Lemma download_dataset_completes adapter group dataset_name source_type dataset_id fs :
  In source_type supported_source_types ->
  (forall year payload request_meta status_code,
      adapter source_type dataset_id year
      = Returns (payload, request_meta, status_code) ->
      exists result,
        _classify_result source_type status_code payload None = Returns result) ->
  let base_dir :=
    path_join (path_join "data" "raw_json")
      (_slugify (group +:+ "_" +:+ dataset_name)) in
  exists s fs',
    download_dataset adapter group dataset_name source_type dataset_id fs
    = (Returns s, fs')
    /\ map fst fs'
       = map fst fs
         ++ map (fun year => path_join base_dir (str_of_int year +:+ ".json"))
              (py_range START_YEAR (END_YEAR + 1))
         ++ [path_join base_dir "_summary.json"]
    /\ last fs' = Some (path_join base_dir "_summary.json", json_of_summary s).
Proof.
  intros Hsup Hcls base_dir. unfold download_dataset, handlers.
  replace (existsb (String.eqb source_type) supported_source_types) with true.
  2:{ symmetry. apply existsb_exists. exists source_type.
      split; [done|]. apply String.eqb_refl. }
  fold base_dir.
  destruct (download_years _ _ _ _ _ _ _ _) as [[s|e] fs1] eqn:Hrun.
  - exists s, (_write_json (path_join base_dir "_summary.json") (json_of_summary s) fs1).
    split; [done|].
    apply download_years_returns in Hrun as (_ & _ & _ & Hfs).
    2:{ by repeat split. }
    unfold _write_json. rewrite !map_app, Hfs, <- app_assoc. split; [done|].
    apply last_snoc.
  - apply download_years_raises in Hrun
      as (year & payload & request_meta & status_code & _ & Hh & Hc).
    apply Hcls in Hh as [result Hr]. congruence.
Qed.

Lemma ok_not_ok_length (entries : list year_entry) :
  (length (List.filter is_ok entries) + length (List.filter not_ok entries)
   = length entries)%nat.
Proof.
  unfold not_ok. induction entries as [|e l IH]; [done|].
  simpl. destruct (is_ok e); simpl; lia.
Qed.

(** C10: in every summary that [download_dataset] returns the two
    counters add up to the number of year entries, which is 32; the year
    entries are those of 1995 to 2026, in that order; the error list has
    as many entries as the error counter says, one for each year entry
    whose status is not "ok", in year order; and the ok counter is the
    number of year entries whose status is "ok". *)
Theorem download_dataset_summary adapter group dataset_name source_type
    dataset_id fs s fs' :
  download_dataset adapter group dataset_name source_type dataset_id fs
  = (Returns s, fs') ->
  totals_ok s + totals_error s = Z.of_nat (length (years s))
  /\ length (years s) = 32%nat
  /\ map year_of (years s) = py_range 1995 2027
  /\ StronglySorted Z.lt (map year_of (years s))
  /\ Z.of_nat (length (errors s)) = totals_error s
  /\ map error_year (errors s) = map year_of (List.filter not_ok (years s))
  /\ totals_ok s = Z.of_nat (length (List.filter is_ok (years s))).
Proof.
  unfold download_dataset. intros Hrun.
  destruct (handlers adapter source_type) as [handler|]; [|discriminate].
  destruct (download_years _ _ _ _ _ _ _ _) as [[acc|e] fs1] eqn:Hloop;
    [|discriminate].
  injection Hrun as -> <-.
  apply download_years_returns in Hloop as ((Hok & Herr & Herrs) & Hyears & _ & _).
  2:{ by repeat split. }
  cbn [years map app] in Hyears.
  assert (Hlen : length (years s) = 32%nat).
  { rewrite <- (length_map year_of), Hyears. reflexivity. }
  pose proof (ok_not_ok_length (years s)) as Hsplit.
  assert (Hcount : length (errors s) = length (List.filter not_ok (years s))).
  { rewrite <- (length_map error_year), Herrs. apply length_map. }
  repeat split; try done; try lia.
  rewrite Hyears. vm_compute py_range.
  repeat (constructor; [|repeat (constructor; [lia|]); constructor]).
  constructor.
Qed.

Lemma download_dataset_summary_witness :
  exists s fs',
    download_dataset sample_adapter "US Census" "Population by State (2020)"
      "census" "https://api.census.gov/data/2020/dec/pl?get=NAME,P1_001N&for=state:*" []
    = (Returns s, fs')
    /\ totals_ok s + totals_error s = 32
    /\ map year_of (years s) = py_range 1995 2027
    /\ map error_year (errors s) = map year_of (List.filter not_ok (years s)).
Proof.
  eexists _, _.
  match goal with
  | |- ?run = ?rhs /\ _ =>
      assert (Hrun : run = rhs) by (vm_compute; reflexivity)
  end.
  split; [exact Hrun|].
  destruct (download_dataset_summary _ _ _ _ _ _ _ _ Hrun)
    as (Hsum & Hlen & Hyears & _ & _ & Herrors & _).
  split; [|split]; [|exact Hyears|exact Herrors].
  rewrite Hsum, Hlen. reflexivity.
Defined.

(** C6: a year whose classification raises ends the run.  With the [bls]
    answer of 1997 carrying a null [Results], [download_dataset] raises
    after writing the files of 1995 and 1996 only: no file for 1997 to
    2026 and no summary. *)
Theorem download_dataset_aborts_on_bls_payload :
  exists fs',
    download_dataset sample_adapter "BLS" "US Unemployment" "bls" "LNS14000000" []
    = (Raises (AttributeError "'NoneType' object has no attribute 'get'"), fs')
    /\ map fst fs'
       = ["data/raw_json/bls_us_unemployment/1995.json";
          "data/raw_json/bls_us_unemployment/1996.json"].
Proof. eexists. split; vm_compute; reflexivity. Qed.

(** ** The throttle *)

Lemma min_delay_table :
  min_delay "fred" = 0.6%Q /\ min_delay "bls" = 0.8%Q
  /\ min_delay "coingecko" = 1.6%Q /\ min_delay "oecd" = 1.2%Q
  /\ min_delay "ecb" = 0.8%Q /\ min_delay "census" = 0.8%Q
  /\ min_delay "imf" = 1.0%Q.
Proof. repeat split. Qed.

Lemma min_delay_default source_type :
  ~ In source_type supported_source_types -> min_delay source_type = 0.6%Q.
Proof.
  intros Hno. unfold min_delay, RATE_LIMIT_SECONDS. cbn [list_to_map foldr].
  simpl in Hno.
  rewrite !lookup_insert_ne by (simpl; intros ?; apply Hno; tauto).
  by rewrite lookup_empty.
Qed.

Section ThrottleFacts.

Variable env : environment.
Hypothesis drift_nonneg : forall n, (0 <= drift env n)%Q.

Lemma elapse_clock extra w :
  (0 <= extra)%Q -> (clock w + extra <= clock (elapse env extra w))%Q.
Proof. intros Hextra. simpl. pose proof (drift_nonneg (ticks w)). lra. Qed.

(** The stamp a call leaves is the clock reading at its completion. *)
Lemma throttle_stamp source_type w :
  _LAST_REQUEST_TS (_throttle env source_type w)
  = <[source_type := clock (_throttle env source_type w)]> (_LAST_REQUEST_TS w).
Proof.
  unfold _throttle, time_monotonic.
  destruct (_LAST_REQUEST_TS (elapse env 0 w) !! source_type) as [last|];
    [destruct (Qlt_le_dec _ _)|]; reflexivity.
Qed.

Lemma throttle_sent source_type w :
  sent (_throttle env source_type w) = sent w.
Proof.
  unfold _throttle, time_monotonic.
  destruct (_LAST_REQUEST_TS (elapse env 0 w) !! source_type) as [last|];
    [destruct (Qlt_le_dec _ _)|]; reflexivity.
Qed.

Lemma throttle_clock source_type w :
  (clock w <= clock (_throttle env source_type w))%Q.
Proof.
  unfold _throttle, time_monotonic.
  destruct (_LAST_REQUEST_TS (elapse env 0 w) !! source_type) as [last|];
    [destruct (Qlt_le_dec _ _) as [Hlt|Hle]|]; simpl in *;
    pose proof (drift_nonneg (ticks w));
    pose proof (drift_nonneg (S (ticks w)));
    pose proof (drift_nonneg (S (S (ticks w)))); lra.
Qed.

(** A call completes no earlier than [min_delay] after the stamp it
    found for its own source type. *)
Lemma throttle_waits source_type w last :
  _LAST_REQUEST_TS w !! source_type = Some last ->
  (last + min_delay source_type <= clock (_throttle env source_type w))%Q.
Proof.
  intros Hlast. unfold _throttle, time_monotonic.
  change (_LAST_REQUEST_TS (elapse env 0 w)) with (_LAST_REQUEST_TS w).
  rewrite Hlast.
  destruct (Qlt_le_dec _ _) as [Hlt|Hle]; simpl in *;
    pose proof (drift_nonneg (ticks w));
    pose proof (drift_nonneg (S (ticks w)));
    pose proof (drift_nonneg (S (S (ticks w)))); lra.
Qed.

(** A call sleeps only on account of the stamp of its own source type. *)
Lemma throttle_no_sleep source_type w :
  (forall last, _LAST_REQUEST_TS w !! source_type = Some last ->
                (last + min_delay source_type <= clock w)%Q) ->
  slept (_throttle env source_type w) = slept w.
Proof.
  intros Hold. unfold _throttle, time_monotonic.
  change (_LAST_REQUEST_TS (elapse env 0 w)) with (_LAST_REQUEST_TS w).
  destruct (_LAST_REQUEST_TS w !! source_type) as [last|]; [|reflexivity].
  destruct (Qlt_le_dec _ _) as [Hlt|Hle]; [|reflexivity].
  exfalso. specialize (Hold last eq_refl). simpl in Hlt.
  pose proof (drift_nonneg (ticks w)). lra.
Qed.

(** Calls for other source types leave the stamp alone. *)
Lemma throttle_each_frame source_type others : forall w,
  Forall (fun s => s <> source_type) others ->
  _LAST_REQUEST_TS (throttle_each env others w) !! source_type
  = _LAST_REQUEST_TS w !! source_type.
Proof.
  induction others as [|s others IH]; intros w Hothers; [reflexivity|].
  inversion Hothers as [|? ? Hs Hrest]; subst.
  change (throttle_each env (s :: others) w)
    with (throttle_each env others (_throttle env s w)).
  rewrite IH by done. rewrite throttle_stamp. by apply lookup_insert_ne.
Qed.

End ThrottleFacts.

(** C5: a throttle call for a source type completes at least
    [min_delay] seconds of the monotonic clock after the previous call
    for the same source type completed, whatever calls for other source
    types ran in between; those calls leave the stamp of this source type
    untouched, and a call is never made to sleep by anything but the stamp
    of its own source type.  The delays are those of the table, and 0.6
    seconds for a source type the table does not list. *)
Theorem throttle_min_delay (env : environment) (w : world)
    (source_type : string) (others : list string) :
  (forall n, (0 <= drift env n)%Q) ->
  Forall (fun s => s <> source_type) others ->
  let w1 := _throttle env source_type w in
  let w2 := throttle_each env others w1 in
  let w3 := _throttle env source_type w2 in
  (clock w1 + min_delay source_type <= clock w3)%Q
  /\ _LAST_REQUEST_TS w1 !! source_type = Some (clock w1)
  /\ _LAST_REQUEST_TS w2 !! source_type = Some (clock w1)
  /\ _LAST_REQUEST_TS w3 !! source_type = Some (clock w3)
  /\ (forall s w',
        (forall last, _LAST_REQUEST_TS w' !! s = Some last ->
                      (last + min_delay s <= clock w')%Q) ->
        slept (_throttle env s w') = slept w')
  /\ (min_delay "fred" = 0.6%Q /\ min_delay "bls" = 0.8%Q
      /\ min_delay "coingecko" = 1.6%Q /\ min_delay "oecd" = 1.2%Q
      /\ min_delay "ecb" = 0.8%Q /\ min_delay "census" = 0.8%Q
      /\ min_delay "imf" = 1.0%Q)
  /\ (forall s, ~ In s supported_source_types -> min_delay s = 0.6%Q).
Proof.
  intros Hdrift Hothers w1 w2 w3.
  assert (H1 : _LAST_REQUEST_TS w1 !! source_type = Some (clock w1)).
  { unfold w1. rewrite throttle_stamp. apply lookup_insert_eq. }
  assert (H2 : _LAST_REQUEST_TS w2 !! source_type = Some (clock w1)).
  { unfold w2. by rewrite throttle_each_frame. }
  repeat split; try done.
  - by apply throttle_waits.
  - unfold w3. rewrite throttle_stamp. apply lookup_insert_eq.
  - intros s w'. by apply throttle_no_sleep.
  - apply min_delay_default.
Qed.

Lemma throttle_min_delay_witness :
  let w1 := _throttle always_503 "oecd" fresh_world in
  let w3 := _throttle always_503 "oecd"
              (throttle_each always_503 ["fred"; "bls"; "fred"] w1) in
  (clock w1 + 1.2 <= clock w3)%Q
  /\ slept (_throttle always_503 "ecb" w3) = slept w3
  /\ min_delay "unknown" = 0.6%Q.
Proof.
  pose proof (throttle_min_delay always_503 fresh_world "oecd" ["fred"; "bls"; "fred"])
    as H.
  destruct H as (Hgap & _ & _ & _ & Hsleep & _ & Hdefault).
  - intros n. simpl. lra.
  - repeat constructor; discriminate.
  - split; [exact Hgap|]. split.
    + apply Hsleep.
      match goal with
      | |- forall last, ?stamps !! "ecb" = Some last -> _ =>
          assert (Hnone : stamps !! "ecb" = None) by (vm_compute; reflexivity)
      end.
      intros last Hlast. rewrite Hnone in Hlast. discriminate.
    + apply Hdefault. simpl. intros [?|[?|[?|[?|[?|[?|[?|[]]]]]]]]; discriminate.
Defined.

(** ** The retry wrapper *)

Section RetryFacts.

Variable env : environment.
Variables source_type method target : string.

Lemma time_sleep_sent seconds w : sent (time_sleep env seconds w) = sent w.
Proof. reflexivity. Qed.

(** An attempt sends exactly one request, whatever its result. *)
Lemma attempt_sent w :
  sent (snd (attempt env source_type method target w))
  = Request method target :: sent w.
Proof.
  unfold attempt, session_request.
  destruct (server env (length (sent (_throttle env source_type w)))) as [resp|e];
    [destruct (existsb _ _)|];
    cbn [snd sent elapse]; f_equal; apply throttle_sent.
Qed.

(** An attempt answered with a retried status raises the error that
    carries this status. *)
Lemma attempt_retryable w resp :
  server env (length (sent w)) = Returns resp ->
  In (status_code resp) RETRYABLE_STATUS_CODES ->
  fst (attempt env source_type method target w)
  = Raises (RetryableRequestError
              ("retryable status code " +:+ str_of_int (status_code resp))
              (Some (status_code resp))).
Proof.
  intros Hreply Hcode. unfold attempt, session_request.
  rewrite throttle_sent, Hreply.
  replace (existsb _ _) with true; [reflexivity|].
  symmetry. apply existsb_exists. exists (status_code resp).
  split; [done|]. apply Z.eqb_refl.
Qed.

Lemma retrying_step fuel attempt_number w :
  retrying env (S fuel) source_type method target attempt_number w
  = let '(result, w) := attempt env source_type method target w in
    match result with
    | Returns response => Some (Returns response, w)
    | Raises e =>
        if negb (retry_if_exception_type e) then Some (Raises e, w)
        else if stop_after_attempt MAX_ATTEMPTS attempt_number
        then Some (Raises e, w)
        else
          retrying env fuel source_type method target (S attempt_number)
            (time_sleep env
               (wait_exponential_jitter 1 30 attempt_number
                  (jitter env attempt_number)) w)
    end.
Proof. reflexivity. Qed.

(** The bound on the iterations is never the reason to stop: fuel for
    the attempts that remain is enough. *)
Lemma retrying_fuel fuel : forall attempt_number w,
  (0 < fuel)%nat ->
  (MAX_ATTEMPTS < attempt_number + fuel)%nat ->
  exists result,
    retrying env fuel source_type method target attempt_number w = Some result.
Proof.
  induction fuel as [|fuel IH]; intros n w Hpos Hfuel; [lia|].
  cbn [retrying].
  destruct (attempt env source_type method target w) as [[resp|e] w1]; [eauto|].
  destruct (negb (retry_if_exception_type e)); [eauto|].
  unfold stop_after_attempt.
  destruct (Nat.leb_spec MAX_ATTEMPTS n) as [Hstop|Hgo]; [eauto|].
  apply IH; lia.
Qed.

Lemma request_with_retries_total w :
  exists result,
    _request_with_retries env source_type method target w = Some result.
Proof. apply retrying_fuel; unfold MAX_ATTEMPTS; lia. Qed.

Hypothesis always_retryable : forall n,
  exists resp, server env n = Returns resp
               /\ In (status_code resp) RETRYABLE_STATUS_CODES.

(** With [k] attempts left after the current one, [k + 1] requests are
    sent and the error of the last one is raised. *)
Lemma retrying_exhausts k : forall w,
  (k < MAX_ATTEMPTS)%nat ->
  exists resp w',
    retrying env (S k) source_type method target (MAX_ATTEMPTS - k) w
    = Some (Raises (RetryableRequestError
                      ("retryable status code " +:+ str_of_int (status_code resp))
                      (Some (status_code resp))), w')
    /\ server env (length (sent w) + k) = Returns resp
    /\ sent w' = repeat (Request method target) (S k) ++ sent w.
Proof.
  induction k as [|k IH]; intros w Hk.
  - destruct (always_retryable (length (sent w))) as (resp & Hreply & Hcode).
    pose proof (attempt_retryable w resp Hreply Hcode) as Hfst.
    pose proof (attempt_sent w) as Hsnd.
    rewrite retrying_step.
    destruct (attempt env source_type method target w) as [result w1].
    simpl in Hfst, Hsnd. subst result. cbn [retry_if_exception_type negb].
    exists resp, w1. rewrite Nat.add_0_r. done.
  - destruct (always_retryable (length (sent w))) as (resp & Hreply & Hcode).
    pose proof (attempt_retryable w resp Hreply Hcode) as Hfst.
    pose proof (attempt_sent w) as Hsnd.
    rewrite retrying_step.
    destruct (attempt env source_type method target w) as [result w1].
    simpl in Hfst, Hsnd. subst result. cbn [retry_if_exception_type negb].
    unfold stop_after_attempt.
    destruct (Nat.leb_spec MAX_ATTEMPTS (MAX_ATTEMPTS - S k)) as [Hstop|_];
      [unfold MAX_ATTEMPTS in *; lia|].
    replace (S (MAX_ATTEMPTS - S k)) with (MAX_ATTEMPTS - k)%nat by lia.
    destruct (IH (time_sleep env
                    (wait_exponential_jitter 1 30 (MAX_ATTEMPTS - S k)
                       (jitter env (MAX_ATTEMPTS - S k))) w1))
      as (last & w' & Hrun & Hlast & Hsent); [lia|].
    exists last, w'. rewrite Hrun. split; [done|].
    rewrite time_sleep_sent, Hsnd in Hlast, Hsent. split.
    + rewrite <- Hlast. f_equal. simpl. lia.
    + rewrite Hsent. change (Request method target :: sent w)
        with (repeat (Request method target) 1 ++ sent w).
      rewrite app_assoc, <- repeat_app. f_equal.
      replace (S k + 1)%nat with (S (S k)) by lia. done.
Qed.

End RetryFacts.

(** C1: when every attempt is answered with a retried status, the
    wrapper sends exactly [MAX_ATTEMPTS] = 6 requests and then raises the
    [RetryableRequestError] of the sixth one, which carries the status of
    that answer. *)
Theorem request_with_retries_budget (env : environment)
    (source_type method target : string) (w : world) :
  (forall n, exists resp, server env n = Returns resp
                          /\ In (status_code resp) RETRYABLE_STATUS_CODES) ->
  exists resp w',
    _request_with_retries env source_type method target w
    = Some (Raises (RetryableRequestError
                      ("retryable status code " +:+ str_of_int (status_code resp))
                      (Some (status_code resp))), w')
    /\ server env (length (sent w) + 5) = Returns resp
    /\ sent w' = repeat (Request method target) 6 ++ sent w.
Proof.
  intros Hall. unfold _request_with_retries.
  apply (retrying_exhausts env source_type method target Hall 5 w).
  unfold MAX_ATTEMPTS. lia.
Qed.

Lemma request_with_retries_budget_witness :
  exists w',
    _request_with_retries always_503 "fred" "GET"
      "https://api.stlouisfed.org/fred/series/observations" fresh_world
    = Some (Raises (RetryableRequestError "retryable status code 503" (Some 503)), w')
    /\ length (sent w') = 6%nat.
Proof.
  destruct (request_with_retries_budget always_503 "fred" "GET"
              "https://api.stlouisfed.org/fred/series/observations" fresh_world)
    as (resp & w' & Hrun & Hlast & Hsent).
  - intros n. eexists. split; [reflexivity|]. simpl. tauto.
  - exists w'. injection Hlast as <-. split; [exact Hrun|].
    rewrite Hsent. reflexivity.
Defined.

(** ** Further properties of the classifier *)

(** Every classification the classifier returns is one of the ten rows
    of the taxonomy: the status is "ok" exactly when the error type is
    empty, and the error type determines the recommended action. *)
Theorem classify_in_taxonomy source_type status_code payload exception result :
  _classify_result source_type status_code payload exception = Returns result ->
  In (triple_of result) taxonomy
  /\ (status result = "ok" <-> error_type result = "")
  /\ (forall st ra, In (st, error_type result, ra) taxonomy ->
                    st = status result /\ ra = recommended_action result).
Proof.
  intros Hrun.
  assert (Hin : In (triple_of result) taxonomy).
  { unfold _classify_result in Hrun.
    destruct exception as [exc|].
    { destruct exc;
        try (injection Hrun as <-; simpl; tauto).
      destruct (status_is _ _); [injection Hrun as <-; simpl; tauto|].
      destruct (status_in _ _); injection Hrun as <-; simpl; tauto. }
    destruct status_code as [code|]; [|injection Hrun as <-; simpl; tauto].
    destruct (_ && _).
    { destruct (_is_no_data_response source_type payload) as [[]|];
        [| |discriminate]; injection Hrun as <-; simpl; tauto. }
    repeat (match type of Hrun with
            | (if ?b then _ else _) = _ => destruct b
            end; [injection Hrun as <-; simpl; tauto|]).
    injection Hrun as <-; simpl; tauto. }
  split; [exact Hin|].
  unfold triple_of, taxonomy in *. cbn [In] in *.
  destruct Hin as [H|[H|[H|[H|[H|[H|[H|[H|[H|[H|[]]]]]]]]]]];
    injection H as <- <- <-;
    (split; [split; intros Heq; (discriminate Heq || reflexivity)|]);
    intros st ra Hrow;
    repeat (destruct Hrow as [Hrow|Hrow];
            [first [discriminate Hrow | by injection Hrow as <- <-]|]);
    destruct Hrow.
Qed.

Lemma classify_in_taxonomy_witness :
  In ("error", "dataset_not_found", "fix_request") taxonomy.
Proof.
  exact (proj1 (classify_in_taxonomy "fred" (Some 404) JNull None
                  (Classification "error" "dataset_not_found" "fix_request"
                     "Dataset endpoint or series was not found.") eq_refl)).
Defined.

(** The status is "ok" only for a call that completed with a 2xx status
    code, without exception, and whose payload the heuristic does not
    find empty. *)
Theorem classify_ok_only_2xx source_type status_code payload exception result :
  _classify_result source_type status_code payload exception = Returns result ->
  status result = "ok" ->
  exception = None
  /\ (exists code, status_code = Some code /\ 200 <= code < 300)
  /\ _is_no_data_response source_type payload = Returns false
  /\ result = OK.
Proof.
  unfold _classify_result. intros Hrun Hok.
  destruct exception as [exc|].
  { exfalso. destruct exc; try (injection Hrun as <-; discriminate).
    destruct (status_is _ _); [injection Hrun as <-; discriminate|].
    destruct (status_in _ _); injection Hrun as <-; discriminate. }
  destruct status_code as [code|]; [|injection Hrun as <-; discriminate].
  destruct ((200 <=? code) && (code <? 300)) eqn:H2xx.
  { destruct (_is_no_data_response source_type payload) as [[]|];
      [injection Hrun as <-; discriminate| |discriminate].
    injection Hrun as <-. repeat split; try done. exists code. split; [done|lia]. }
  exfalso.
  repeat (match type of Hrun with
          | (if ?b then _ else _) = _ => destruct b
          end; [injection Hrun as <-; discriminate|]).
  injection Hrun as <-; discriminate.
Qed.

Lemma classify_ok_only_2xx_witness :
  _is_no_data_response "oecd" (JDict []) = Returns false.
Proof.
  exact (proj1 (proj2 (proj2 (classify_ok_only_2xx "oecd" (Some 204) (JDict []) None
                                OK eq_refl eq_refl)))).
Defined.

(** ** Further properties of the retry wrapper *)

Section RetryTrace.

Variable env : environment.
Variables source_type method target : string.

Lemma attempt_fst w :
  fst (attempt env source_type method target w)
  = attempt_result (server env (length (sent w))).
Proof.
  unfold attempt, session_request, attempt_result. rewrite throttle_sent.
  destruct (server env (length (sent w))) as [resp|e]; [|reflexivity].
  by destruct (existsb _ _).
Qed.

(** The shape of every run: some attempts whose answers are retried,
    then one attempt that decides the result; the retried ones fit in the
    budget, and a retried answer decides only when the budget is used up. *)
Lemma retrying_trace fuel : forall attempt_number w result w',
  retrying env fuel source_type method target attempt_number w
  = Some (result, w') ->
  exists k,
    sent w' = repeat (Request method target) (S k) ++ sent w
    /\ (forall i, (i < k)%nat -> retried (server env (length (sent w) + i)) = true)
    /\ result = attempt_result (server env (length (sent w) + k))
    /\ (k = 0 \/ attempt_number + k <= MAX_ATTEMPTS)%nat
    /\ (retried (server env (length (sent w) + k)) = true ->
        (MAX_ATTEMPTS <= attempt_number + k)%nat).
Proof.
  induction fuel as [|fuel IH]; intros n w result w' Hrun; [discriminate|].
  rewrite retrying_step in Hrun.
  pose proof (attempt_fst w) as Hfst. pose proof (attempt_sent env source_type method target w) as Hsnd.
  destruct (attempt env source_type method target w) as [r1 w1].
  cbn [fst snd] in Hfst, Hsnd.
  assert (Hnow : forall r, Some (r1, w1) = Some (r, w') ->
            (retried (server env (length (sent w))) = true ->
             (MAX_ATTEMPTS <= n)%nat) ->
            exists k,
              sent w' = repeat (Request method target) (S k) ++ sent w
              /\ (forall i, (i < k)%nat ->
                    retried (server env (length (sent w) + i)) = true)
              /\ r = attempt_result (server env (length (sent w) + k))
              /\ (k = 0 \/ n + k <= MAX_ATTEMPTS)%nat
              /\ (retried (server env (length (sent w) + k)) = true ->
                  (MAX_ATTEMPTS <= n + k)%nat)).
  { intros r [= <- <-] Hbudget. exists 0%nat. rewrite !Nat.add_0_r.
    repeat split; try done; [lia|tauto]. }
  destruct r1 as [resp|e].
  { injection Hrun as <- <-. apply (Hnow _ eq_refl).
    unfold retried. by rewrite <- Hfst. }
  destruct (retry_if_exception_type e) eqn:Hretry; cbn [negb] in Hrun.
  2:{ injection Hrun as <- <-. apply (Hnow _ eq_refl).
      unfold retried. rewrite <- Hfst. congruence. }
  unfold stop_after_attempt in Hrun.
  destruct (Nat.leb_spec MAX_ATTEMPTS n) as [Hstop|Hgo].
  { injection Hrun as <- <-. apply (Hnow _ eq_refl). done. }
  apply IH in Hrun as (k & Hsent & Hbefore & Hres & Hfit & Hlast).
  rewrite time_sleep_sent, Hsnd in Hsent, Hbefore, Hres, Hlast.
  cbn [length] in Hbefore, Hres, Hlast.
  exists (S k). repeat split.
  - rewrite Hsent.
    change (Request method target :: sent w)
      with (repeat (Request method target) 1 ++ sent w).
    rewrite app_assoc, <- repeat_app. do 2 f_equal. lia.
  - intros [|i] Hi.
    + rewrite Nat.add_0_r. unfold retried. by rewrite <- Hfst.
    + replace (length (sent w) + S i)%nat with (S (length (sent w)) + i)%nat by lia.
      apply Hbefore. lia.
  - rewrite Hres. do 2 f_equal. lia.
  - right. destruct Hfit as [->|Hfit]; lia.
  - intros Hr. replace (length (sent w) + S k)%nat
      with (S (length (sent w)) + k)%nat in Hr by lia.
    apply Hlast in Hr. lia.
Qed.

End RetryTrace.

(** The wrapper always finishes, and it sends at least one and at most
    [MAX_ATTEMPTS] = 6 requests, whatever the server answers. *)
Theorem request_with_retries_bounded (env : environment)
    (source_type method target : string) (w : world) :
  exists result w' k,
    _request_with_retries env source_type method target w = Some (result, w')
    /\ sent w' = repeat (Request method target) k ++ sent w
    /\ (1 <= k <= 6)%nat.
Proof.
  destruct (request_with_retries_total env source_type method target w)
    as [[result w'] Hrun].
  exists result, w'.
  destruct (retrying_trace _ _ _ _ _ _ _ _ _ Hrun) as (k & Hsent & _ & _ & Hfit & _).
  exists (S k). unfold MAX_ATTEMPTS in Hfit. repeat split; [done|done|lia|lia].
Qed.

(** A response the wrapper returns is the last answer of the server, and
    its status is never one of the retried codes 429, 500, 502, 503, 504. *)
Theorem request_with_retries_returns_final (env : environment)
    (source_type method target : string) (w : world) resp w' :
  _request_with_retries env source_type method target w = Some (Returns resp, w') ->
  ~ In (status_code resp) RETRYABLE_STATUS_CODES
  /\ exists k,
       sent w' = repeat (Request method target) (S k) ++ sent w
       /\ server env (length (sent w) + k) = Returns resp.
Proof.
  intros Hrun.
  destruct (retrying_trace _ _ _ _ _ _ _ _ _ Hrun) as (k & Hsent & _ & Hres & _ & _).
  unfold attempt_result in Hres.
  destruct (server env (length (sent w) + k)) as [r|e] eqn:Hreply; [|discriminate].
  destruct (existsb (Z.eqb (status_code r)) RETRYABLE_STATUS_CODES) eqn:Hcode;
    [discriminate|].
  injection Hres as ->. split; [|exists k; split; [exact Hsent|exact Hreply]].
  intros Hin. apply not_true_iff_false in Hcode. apply Hcode.
  apply existsb_exists. exists (status_code r). split; [done|apply Z.eqb_refl].
Qed.

(** An error of one of the two retried classes reaches the caller only
    after all six requests were sent; an error of any other class is the
    one [session.request] raised for the last request sent. *)
Theorem request_with_retries_raises (env : environment)
    (source_type method target : string) (w : world) e w' :
  _request_with_retries env source_type method target w = Some (Raises e, w') ->
  (retry_if_exception_type e = true ->
   sent w' = repeat (Request method target) 6 ++ sent w)
  /\ (retry_if_exception_type e = false ->
      exists k, sent w' = repeat (Request method target) (S k) ++ sent w
                /\ server env (length (sent w) + k) = Raises e).
Proof.
  intros Hrun.
  destruct (retrying_trace _ _ _ _ _ _ _ _ _ Hrun)
    as (k & Hsent & _ & Hres & Hfit & Hlast).
  unfold retried in Hlast. rewrite <- Hres in Hlast. unfold MAX_ATTEMPTS in *.
  split.
  - intros Hretry. specialize (Hlast Hretry).
    replace k with 5%nat in Hsent by lia. exact Hsent.
  - intros Hother. exists k. split; [done|].
    unfold attempt_result in Hres.
    destruct (server env (length (sent w) + k)) as [r|e0]; [|congruence].
    destruct (existsb _ _); [|discriminate].
    injection Hres as ->. discriminate.
Qed.

(** The first answer that is not retried decides the result, provided
    it comes within the budget: the wrapper sends exactly the requests up
    to it.  In particular a first answer with a status such as 200, 400,
    401, 403 or 404 is returned after a single request. *)
Theorem request_with_retries_first_final (env : environment)
    (source_type method target : string) (w : world) (k : nat) :
  (k < 6)%nat ->
  (forall i, (i < k)%nat -> retried (server env (length (sent w) + i)) = true) ->
  retried (server env (length (sent w) + k)) = false ->
  exists w',
    _request_with_retries env source_type method target w
    = Some (attempt_result (server env (length (sent w) + k)), w')
    /\ sent w' = repeat (Request method target) (S k) ++ sent w.
Proof.
  intros Hk Hbefore Hfinal.
  destruct (request_with_retries_total env source_type method target w)
    as [[result w'] Hrun].
  destruct (retrying_trace _ _ _ _ _ _ _ _ _ Hrun)
    as (k' & Hsent & Hbefore' & Hres & Hfit & Hlast).
  unfold MAX_ATTEMPTS in *.
  assert (k' = k) as ->.
  { destruct (Nat.lt_trichotomy k' k) as [Hlt|[->|Hgt]]; [|done|].
    - specialize (Hlast (Hbefore _ Hlt)). lia.
    - rewrite (Hbefore' _ Hgt) in Hfinal. discriminate. }
  exists w'. by rewrite Hrun, Hres.
Qed.

Lemma request_with_retries_returns_final_witness :
  exists w',
    _request_with_retries flaky_server "bls" "POST"
      "https://api.bls.gov/publicAPI/v2/timeseries/data/" fresh_world
    = Some (Returns (Response 200 "https://api.bls.gov/publicAPI/v2/timeseries/data/"
                       (JDict [("status", JStr "REQUEST_SUCCEEDED")])), w')
    /\ ~ In 200 RETRYABLE_STATUS_CODES.
Proof.
  eexists.
  match goal with
  | |- ?run = ?rhs /\ _ => assert (Hrun : run = rhs) by (vm_compute; reflexivity)
  end.
  split; [exact Hrun|].
  exact (proj1 (request_with_retries_returns_final _ _ _ _ _ _ _ Hrun)).
Defined.

Lemma request_with_retries_raises_witness :
  exists w',
    _request_with_retries always_503 "fred" "GET"
      "https://api.stlouisfed.org/fred/series/observations" fresh_world
    = Some (Raises (RetryableRequestError "retryable status code 503" (Some 503)), w')
    /\ sent w'
       = repeat (Request "GET" "https://api.stlouisfed.org/fred/series/observations") 6.
Proof.
  eexists.
  match goal with
  | |- ?run = ?rhs /\ _ => assert (Hrun : run = rhs) by (vm_compute; reflexivity)
  end.
  split; [exact Hrun|].
  rewrite (proj1 (request_with_retries_raises _ _ _ _ _ _ _ Hrun) eq_refl).
  reflexivity.
Defined.

Lemma request_with_retries_first_final_witness :
  exists w',
    _request_with_retries flaky_server "bls" "POST"
      "https://api.bls.gov/publicAPI/v2/timeseries/data/" fresh_world
    = Some (Returns (Response 200 "https://api.bls.gov/publicAPI/v2/timeseries/data/"
                       (JDict [("status", JStr "REQUEST_SUCCEEDED")])), w')
    /\ length (sent w') = 3%nat.
Proof.
  destruct (request_with_retries_first_final flaky_server "bls" "POST"
              "https://api.bls.gov/publicAPI/v2/timeseries/data/" fresh_world 2)
    as (w' & Hrun & Hsent).
  - lia.
  - intros [|[|i]] Hi; [reflexivity|reflexivity|lia].
  - reflexivity.
  - exists w'. split; [exact Hrun|]. rewrite Hsent. reflexivity.
Defined.

(** ** Further properties of the throttle *)

Lemma min_delay_range source_type :
  (0 < min_delay source_type /\ min_delay source_type <= 1.6)%Q.
Proof.
  destruct (in_dec string_dec source_type supported_source_types) as [Hin|Hout].
  - simpl in Hin.
    destruct Hin as [<-|[<-|[<-|[<-|[<-|[<-|[<-|[]]]]]]]]; vm_compute; split; congruence.
  - rewrite (min_delay_default _ Hout). vm_compute; split; congruence.
Qed.

Section ThrottleInvariant.

Variable env : environment.
Hypothesis drift_nonneg : forall n, (0 <= drift env n)%Q.

Lemma elapse_stamps_in_past extra w :
  (0 <= extra)%Q -> stamps_in_past w -> stamps_in_past (elapse env extra w).
Proof.
  intros Hextra Hinv s t Hst. specialize (Hinv s t Hst).
  pose proof (elapse_clock env drift_nonneg extra w Hextra). lra.
Qed.

Lemma time_sleep_stamps_in_past seconds w :
  (0 <= seconds)%Q -> stamps_in_past w -> stamps_in_past (time_sleep env seconds w).
Proof. intros Hs Hinv. by apply (elapse_stamps_in_past seconds w). Qed.

Lemma session_request_stamps_in_past method target w :
  stamps_in_past w -> stamps_in_past (snd (session_request env method target w)).
Proof. intros Hinv. by apply (elapse_stamps_in_past 0 w). Qed.

Lemma throttle_stamps_in_past source_type w :
  stamps_in_past w -> stamps_in_past (_throttle env source_type w).
Proof.
  intros Hinv s t. rewrite throttle_stamp.
  destruct (decide (source_type = s)) as [->|Hne].
  - rewrite lookup_insert_eq. intros [= <-]. apply Qle_refl.
  - rewrite lookup_insert_ne by done. intros Hst.
    specialize (Hinv s t Hst).
    pose proof (throttle_clock env drift_nonneg source_type w) as Hclock.
    exact (Qle_trans _ _ _ Hinv Hclock).
Qed.

(** What a throttle call sleeps: nothing, or once, for a positive time
    of at most [min_delay]. *)
Lemma throttle_slept source_type w :
  stamps_in_past w ->
  slept_since w (_throttle env source_type w) []
  \/ exists d, slept_since w (_throttle env source_type w) [d]
               /\ (0 < d <= min_delay source_type)%Q.
Proof.
  intros Hinv. unfold slept_since, _throttle, time_monotonic.
  change (_LAST_REQUEST_TS (elapse env 0 w)) with (_LAST_REQUEST_TS w).
  destruct (_LAST_REQUEST_TS w !! source_type) as [last|] eqn:Hlast; [|by left].
  destruct (Qlt_le_dec _ _) as [Hlt|Hle]; [|by left].
  right. eexists. split; [reflexivity|].
  specialize (Hinv _ _ Hlast). simpl in *.
  pose proof (drift_nonneg (ticks w)). split; lra.
Qed.

End ThrottleInvariant.

(** The throttle keeps every stamp in the past of the clock, and under
    this invariant a call sleeps at most once, for a positive time that
    does not exceed the minimum delay of its source type (itself at most
    1.6 seconds). *)
Theorem throttle_sleep_bounded (env : environment) (source_type : string)
    (w : world) :
  (forall n, (0 <= drift env n)%Q) ->
  stamps_in_past w ->
  stamps_in_past (_throttle env source_type w)
  /\ (slept (_throttle env source_type w) = slept w
      \/ exists d, slept (_throttle env source_type w) = d :: slept w
                   /\ (0 < d <= min_delay source_type)%Q
                   /\ (d <= 1.6)%Q).
Proof.
  intros Hdrift Hinv. split; [by apply throttle_stamps_in_past|].
  destruct (throttle_slept env Hdrift source_type w Hinv) as [H|(d & H & Hd)].
  - by left.
  - right. exists d. split; [exact H|]. split; [exact Hd|].
    pose proof (min_delay_range source_type). lra.
Qed.

Lemma throttle_sleep_bounded_witness :
  let w := _throttle always_503 "coingecko" fresh_world in
  stamps_in_past (_throttle always_503 "coingecko" w)
  /\ (slept (_throttle always_503 "coingecko" w) = slept w
      \/ exists d, slept (_throttle always_503 "coingecko" w) = d :: slept w
                   /\ (0 < d <= min_delay "coingecko")%Q
                   /\ (d <= 1.6)%Q).
Proof.
  intros w. apply (throttle_sleep_bounded always_503 "coingecko" w).
  - intros n. simpl. lra.
  - intros s t. unfold w. rewrite throttle_stamp.
    destruct (decide ("coingecko" = s)) as [<-|Hne].
    + rewrite lookup_insert_eq. intros [= <-]. apply Qle_refl.
    + rewrite lookup_insert_ne by done. intros Hs.
      change ((∅ : gmap string Q) !! s = Some t) in Hs.
      rewrite lookup_empty in Hs. discriminate.
Defined.

Lemma wait_exponential_jitter_range attempt_number j :
  (0 <= wait_exponential_jitter 1 30 attempt_number j <= 30)%Q.
Proof.
  unfold wait_exponential_jitter. split.
  - apply Q.le_max_l.
  - apply Q.max_lub; [lra|]. apply Q.le_min_r.
Qed.

Section RetrySleeps.

Variable env : environment.
Hypothesis drift_nonneg : forall n, (0 <= drift env n)%Q.
Variables source_type method target : string.

Lemma attempt_slept w :
  stamps_in_past w ->
  stamps_in_past (snd (attempt env source_type method target w))
  /\ exists ds,
       slept_since w (snd (attempt env source_type method target w)) ds
       /\ Forall (fun d => (0 <= d <= 30)%Q) ds.
Proof.
  intros Hinv.
  pose proof (throttle_stamps_in_past env drift_nonneg source_type w Hinv) as Hinv1.
  pose proof (session_request_stamps_in_past env drift_nonneg method target _ Hinv1)
    as Hinv2.
  assert (Hsl : exists ds,
             slept_since w (_throttle env source_type w) ds
             /\ Forall (fun d => (0 <= d <= 30)%Q) ds).
  { destruct (throttle_slept env drift_nonneg source_type w Hinv) as [H|(d & H & Hd)].
    - exists []. split; [done|constructor].
    - exists [d]. split; [done|]. repeat constructor; try lra.
      pose proof (min_delay_range source_type). lra. }
  unfold attempt. unfold session_request in *. cbn [snd] in Hinv2.
  destruct (server env (length (sent (_throttle env source_type w)))) as [resp|e];
    [destruct (existsb _ _)|]; cbn [snd]; (split; [exact Hinv2|exact Hsl]).
Qed.

Lemma retrying_slept fuel : forall attempt_number w result w',
  stamps_in_past w ->
  retrying env fuel source_type method target attempt_number w
  = Some (result, w') ->
  stamps_in_past w'
  /\ exists ds, slept_since w w' ds /\ Forall (fun d => (0 <= d <= 30)%Q) ds.
Proof.
  induction fuel as [|fuel IH]; intros n w result w' Hinv Hrun; [discriminate|].
  rewrite retrying_step in Hrun.
  destruct (attempt_slept w Hinv) as (Hinv1 & ds1 & Hsl1 & Hds1).
  destruct (attempt env source_type method target w) as [r1 w1].
  cbn [snd] in Hinv1, Hsl1.
  destruct r1 as [resp|e]; [injection Hrun as <- <-; eauto|].
  destruct (negb (retry_if_exception_type e)); [injection Hrun as <- <-; eauto|].
  destruct (stop_after_attempt MAX_ATTEMPTS n); [injection Hrun as <- <-; eauto|].
  pose proof (wait_exponential_jitter_range n (jitter env n)) as Hwait.
  apply IH in Hrun as (Hinv' & ds & Hsl & Hds).
  2:{ apply time_sleep_stamps_in_past; [done|tauto|done]. }
  split; [done|].
  exists (ds ++ wait_exponential_jitter 1 30 n (jitter env n) :: ds1).
  split.
  - unfold slept_since in *. rewrite Hsl. cbn [slept time_sleep elapse].
    rewrite Hsl1, <- app_assoc. reflexivity.
  - apply Forall_app. split; [done|]. by constructor.
Qed.

End RetrySleeps.

(** Whatever the server and the jitter, every single sleep the wrapper
    asks for, throttle pause or back-off, lasts between 0 and 30 seconds;
    and the wrapper keeps the stamps in the past of the clock. *)
Theorem request_with_retries_sleeps (env : environment)
    (source_type method target : string) (w : world) result w' :
  (forall n, (0 <= drift env n)%Q) ->
  stamps_in_past w ->
  _request_with_retries env source_type method target w = Some (result, w') ->
  stamps_in_past w'
  /\ exists ds, slept w' = ds ++ slept w
                /\ Forall (fun d => (0 <= d <= 30)%Q) ds.
Proof. intros Hdrift Hinv Hrun. exact (retrying_slept env Hdrift _ _ _ _ _ _ _ _ Hinv Hrun). Qed.

Lemma request_with_retries_sleeps_witness :
  exists result w',
    _request_with_retries flaky_server "bls" "POST"
      "https://api.bls.gov/publicAPI/v2/timeseries/data/" fresh_world
    = Some (result, w')
    /\ stamps_in_past w'
    /\ exists ds, slept w' = ds ++ slept fresh_world
                  /\ Forall (fun d => (0 <= d <= 30)%Q) ds.
Proof.
  destruct (request_with_retries_total flaky_server "bls" "POST"
              "https://api.bls.gov/publicAPI/v2/timeseries/data/" fresh_world)
    as [[result w'] Hrun].
  exists result, w'. split; [exact Hrun|].
  apply (request_with_retries_sleeps flaky_server "bls" "POST"
           "https://api.bls.gov/publicAPI/v2/timeseries/data/" fresh_world result w').
  - intros n. simpl. lra.
  - intros s t Hs. change ((∅ : gmap string Q) !! s = Some t) in Hs.
    rewrite lookup_empty in Hs. discriminate.
  - exact Hrun.
Defined.

(** ** Further properties of the download loop *)

Section DownloadRecords.

Variable handler : string -> Z -> outcome adapter_result.
Variables base_dir source_type dataset_id : string.
Variable meta : json.

(** What one iteration records, read off the adapter's outcome. *)
Lemma download_year_spec year acc fs :
  download_year handler base_dir meta source_type dataset_id year acc fs
  = match year_outcome source_type (handler dataset_id year) with
    | Raises e => (Raises e, fs)
    | Returns c =>
        let r := handler dataset_id year in
        (Returns
           (Summary (metadata acc)
              (if String.eqb (status c) "ok" then totals_ok acc + 1 else totals_ok acc)
              (if String.eqb (status c) "ok" then totals_error acc
               else totals_error acc + 1)
              (if String.eqb (status c) "ok" then errors acc
               else errors acc ++ [error_entry_of year c (request_meta_of r)])
              (years acc ++ [year_entry_of year c])),
         fs ++ [(path_join base_dir (str_of_int year +:+ ".json"),
                 year_artifact meta year (request_meta_of r) c (payload_of r))])
    end.
Proof.
  unfold download_year, year_outcome, payload_of, request_meta_of.
  destruct (handler dataset_id year) as [[[payload request_meta] status_code]|exc].
  - destruct (_classify_result _ _ _ _) as [c|e]; [|reflexivity].
    by destruct (String.eqb (status c) "ok").
  - destruct (_classify_result _ _ _ _) as [c|e]; [|reflexivity].
    by destruct (String.eqb (status c) "ok").
Qed.

(** The loop appends to the file system and does not read it. *)
Lemma download_years_frame todo : forall acc fs,
  download_years handler base_dir meta source_type dataset_id todo acc fs
  = (fst (download_years handler base_dir meta source_type dataset_id todo acc []),
     fs ++ snd (download_years handler base_dir meta source_type dataset_id
                  todo acc [])).
Proof.
  induction todo as [|year todo IH]; intros acc fs.
  - simpl. by rewrite app_nil_r.
  - cbn [download_years]. rewrite !download_year_spec.
    destruct (year_outcome _ _) as [c|e]; cbn beta iota zeta.
    + rewrite IH. rewrite (IH _ ([] ++ _)). cbn [fst snd app].
      by rewrite <- app_assoc.
    + cbn [fst snd]. by rewrite app_nil_r.
Qed.

(** The entries and files of a finished loop, year by year. *)
Lemma download_years_records todo : forall acc fs acc' fs',
  download_years handler base_dir meta source_type dataset_id todo acc fs
  = (Returns acc', fs') ->
  exists cs,
    Forall2 (fun year c =>
               year_outcome source_type (handler dataset_id year) = Returns c)
      todo cs
    /\ years acc' = years acc ++ zip_with year_entry_of todo cs
    /\ fs' = fs ++ zip_with
                     (fun year c =>
                        (path_join base_dir (str_of_int year +:+ ".json"),
                         year_artifact meta year
                           (request_meta_of (handler dataset_id year)) c
                           (payload_of (handler dataset_id year))))
                     todo cs
    /\ (forall year c, In (year, c) (zip todo cs) ->
                       status c <> "ok" ->
                       In (error_entry_of year c
                             (request_meta_of (handler dataset_id year)))
                          (errors acc'))
    /\ incl (errors acc) (errors acc').
Proof.
  induction todo as [|year todo IH]; intros acc fs acc' fs' Hrun.
  - injection Hrun as <- <-. exists []. rewrite !app_nil_r.
    split; [constructor|]. split; [done|]. split; [done|].
    split; [intros ? ? []|apply incl_refl].
  - cbn [download_years] in Hrun. rewrite download_year_spec in Hrun.
    destruct (year_outcome source_type (handler dataset_id year)) as [c|e] eqn:Hc;
      [|discriminate].
    cbn beta iota zeta in Hrun.
    apply IH in Hrun as (cs & Hcs & Hyears & Hfs & Herrs & Hincl).
    cbn [years errors] in *.
    exists (c :: cs). split; [by constructor|].
    split; [by rewrite Hyears, <- app_assoc|].
    split; [by rewrite Hfs, <- app_assoc|].
    split.
    + intros y c' [[= <- <-]|Hin] Hbad.
      * apply Hincl. destruct (String.eqb_spec (status c) "ok") as [|_]; [done|].
        apply in_or_app. right. by left.
      * by apply Herrs.
    + intros e He. apply Hincl.
      destruct (String.eqb (status c) "ok"); [done|]. apply in_or_app. by left.
Qed.

End DownloadRecords.

Lemma handlers_supported adapter source_type :
  In source_type supported_source_types ->
  handlers adapter source_type = Some (adapter source_type).
Proof.
  intros Hin. unfold handlers.
  replace (existsb (String.eqb source_type) supported_source_types) with true; [done|].
  symmetry. apply existsb_exists. exists source_type.
  split; [done|apply String.eqb_refl].
Qed.

Lemma handlers_unsupported adapter source_type :
  ~ In source_type supported_source_types ->
  handlers adapter source_type = None.
Proof.
  intros Hout. unfold handlers.
  destruct (existsb (String.eqb source_type) supported_source_types) eqn:Hex; [|done].
  apply existsb_exists in Hex as (s & Hin & Heq).
  apply String.eqb_eq in Heq as <-. done.
Qed.

Lemma classify_exception_error source_type status_code payload exc :
  exists c,
    _classify_result source_type status_code payload (Some exc) = Returns c
    /\ status c = "error" /\ recommended_action c = "retry_later".
Proof.
  unfold _classify_result. destruct exc; try (eexists; split; [reflexivity|done]).
  destruct (status_is _ _); [eexists; split; [reflexivity|done]|].
  destruct (status_in _ _); eexists; split; try reflexivity; done.
Qed.

(** A finished run, in full: one classification per year, the year
    entries and the year files built from them in year order, the summary
    file last, and an error entry for every year that is not "ok". *)
Lemma download_dataset_records adapter group dataset_name source_type dataset_id
    fs s fs' :
  download_dataset adapter group dataset_name source_type dataset_id fs
  = (Returns s, fs') ->
  let r := adapter source_type dataset_id in
  let base_dir := dataset_dir group dataset_name in
  let meta := dataset_metadata group dataset_name source_type dataset_id in
  exists cs,
    Forall2 (fun year c => year_outcome source_type (r year) = Returns c)
      (py_range START_YEAR (END_YEAR + 1)) cs
    /\ consistent s
    /\ metadata s = meta
    /\ years s = zip_with year_entry_of (py_range START_YEAR (END_YEAR + 1)) cs
    /\ fs' = fs
             ++ zip_with
                  (fun year c =>
                     (path_join base_dir (str_of_int year +:+ ".json"),
                      year_artifact meta year (request_meta_of (r year)) c
                        (payload_of (r year))))
                  (py_range START_YEAR (END_YEAR + 1)) cs
             ++ [(path_join base_dir "_summary.json", json_of_summary s)]
    /\ (forall year c,
          In (year, c) (zip (py_range START_YEAR (END_YEAR + 1)) cs) ->
          status c <> "ok" ->
          In (error_entry_of year c (request_meta_of (r year))) (errors s)).
Proof.
  intros Hrun r base_dir meta. unfold download_dataset in Hrun.
  fold (dataset_dir group dataset_name) in Hrun. fold base_dir in Hrun.
  fold (dataset_metadata group dataset_name source_type dataset_id) in Hrun.
  fold meta in Hrun.
  destruct (handlers adapter source_type) as [handler|] eqn:Hh; [|discriminate].
  assert (handler = adapter source_type) as ->.
  { unfold handlers in Hh. destruct (existsb _ _); congruence. }
  destruct (download_years _ _ _ _ _ _ _ _) as [[acc|e] fs1] eqn:Hloop;
    [|discriminate].
  injection Hrun as -> <-.
  pose proof (download_years_returns _ _ _ _ _ _ _ _ _ _ Hloop) as (Hcons & _ & Hmeta & _).
  { by repeat split. }
  apply download_years_records in Hloop as (cs & Hcs & Hyears & Hfs & Herrs & _).
  exists cs. unfold _write_json. rewrite Hfs, <- app_assoc.
  cbn [metadata years errors] in *.
  split; [exact Hcs|]. split; [exact Hcons|]. split; [exact Hmeta|].
  split; [exact Hyears|]. split; [reflexivity|exact Herrs].
Qed.

(** An unsupported source type is refused before anything is written:
    [ValueError], and the file system is untouched. *)
Theorem download_dataset_unsupported adapter group dataset_name source_type
    dataset_id fs :
  ~ In source_type supported_source_types ->
  download_dataset adapter group dataset_name source_type dataset_id fs
  = (Raises (ValueError ("Unsupported source_type: " +:+ source_type)), fs).
Proof.
  intros Hout. unfold download_dataset. by rewrite handlers_unsupported.
Qed.

Lemma download_dataset_unsupported_witness :
  download_dataset sample_adapter "World Bank" "GDP" "worldbank" "NY.GDP.MKTP.CD" []
  = (Raises (ValueError "Unsupported source_type: worldbank"), []).
Proof.
  apply (download_dataset_unsupported sample_adapter "World Bank" "GDP" "worldbank").
  simpl. intros [?|[?|[?|[?|[?|[?|[?|[]]]]]]]]; discriminate.
Defined.


Lemma all_error_entries (ys : list Z) : forall cs,
  Forall (fun c => status c <> "ok") cs ->
  length ys = length cs ->
  List.filter is_ok (zip_with year_entry_of ys cs) = []
  /\ List.filter not_ok (zip_with year_entry_of ys cs) = zip_with year_entry_of ys cs
  /\ length (zip_with year_entry_of ys cs) = length cs.
Proof.
  induction ys as [|y ys IH]; intros [|c cs] Hall Hlen; try done.
  inversion Hall as [|? ? Hc Hcs]; subst.
  destruct (IH cs Hcs) as (Hok & Hbad & Hlen'); [simpl in Hlen; lia|].
  assert (Hbadc : is_ok (year_entry_of y c) = false).
  { unfold is_ok. cbn [year_entry_of year_status].
    by destruct (String.eqb_spec (status c) "ok"). }
  cbn [zip_with List.filter length]. unfold not_ok at 1.
  rewrite Hbadc, Hok, Hbad, Hlen'. done.
Qed.

Lemma all_error_totals s ys cs :
  consistent s ->
  years s = zip_with year_entry_of ys cs ->
  length ys = length cs ->
  Forall (fun c => status c <> "ok") cs ->
  totals_ok s = 0 /\ totals_error s = Z.of_nat (length cs).
Proof.
  intros (Hok & Herr & Herrs) Hyears Hlen Hall.
  destruct (all_error_entries ys cs Hall Hlen) as (Hfok & Hfbad & Hflen).
  rewrite Hyears, Hfok in Hok. rewrite Hyears, Hfbad in Herrs.
  split; [done|]. rewrite Herr. f_equal.
  rewrite <- (length_map error_year), Herrs, length_map. done.
Qed.

(** The per-year record of a finished run: for every year the year
    entry, the error entry when the status is not "ok", and the year file
    carry the classification of that year's adapter outcome, together
    with the payload and request metadata the adapter handed back (null
    and an empty object after an exception); the files are appended in
    year order and the summary file comes last. *)
Theorem download_dataset_year_files adapter group dataset_name source_type
    dataset_id fs s fs' :
  download_dataset adapter group dataset_name source_type dataset_id fs
  = (Returns s, fs') ->
  let r := adapter source_type dataset_id in
  let base_dir := dataset_dir group dataset_name in
  let meta := dataset_metadata group dataset_name source_type dataset_id in
  exists cs,
    Forall2 (fun year c => year_outcome source_type (r year) = Returns c)
      (py_range 1995 2027) cs
    /\ years s = zip_with year_entry_of (py_range 1995 2027) cs
    /\ fs' = fs
             ++ zip_with
                  (fun year c =>
                     (path_join base_dir (str_of_int year +:+ ".json"),
                      year_artifact meta year (request_meta_of (r year)) c
                        (payload_of (r year))))
                  (py_range 1995 2027) cs
             ++ [(path_join base_dir "_summary.json", json_of_summary s)]
    /\ (forall year c,
          In (year, c) (zip (py_range 1995 2027) cs) ->
          status c <> "ok" ->
          In (error_entry_of year c (request_meta_of (r year))) (errors s)).
Proof.
  intros Hrun r base_dir meta.
  destruct (download_dataset_records _ _ _ _ _ _ _ _ Hrun)
    as (cs & Hcs & _ & _ & Hyears & Hfs & Herrs).
  exists cs. done.
Qed.

Lemma download_dataset_year_files_witness :
  exists s fs' cs,
    download_dataset sample_adapter "US Census" "Population by State (2020)"
      "census" "https://api.census.gov/data/2020/dec/pl?get=NAME,P1_001N&for=state:*" []
    = (Returns s, fs')
    /\ years s = zip_with year_entry_of (py_range 1995 2027) cs
    /\ length fs' = 33%nat.
Proof.
  eexists _, _.
  match goal with
  | |- exists cs, ?run = ?rhs /\ _ =>
      assert (Hrun : run = rhs) by (vm_compute; reflexivity)
  end.
  destruct (download_dataset_year_files _ _ _ _ _ _ _ _ Hrun)
    as (cs & _ & Hyears & _ & _).
  exists cs. split; [exact Hrun|]. split; [exact Hyears|reflexivity].
Defined.

(** For every supported source type other than [bls], and for every
    behaviour of the adapter, the run completes: it returns a summary
    after writing the 32 year files in ascending year order and then the
    summary file. *)
Theorem download_dataset_completes_unless_bls adapter group dataset_name
    source_type dataset_id fs :
  In source_type supported_source_types ->
  source_type <> "bls" ->
  exists s fs',
    download_dataset adapter group dataset_name source_type dataset_id fs
    = (Returns s, fs')
    /\ map fst fs'
       = map fst fs
         ++ map (fun year =>
                   path_join (dataset_dir group dataset_name)
                     (str_of_int year +:+ ".json"))
              (py_range 1995 2027)
         ++ [path_join (dataset_dir group dataset_name) "_summary.json"]
    /\ last fs'
       = Some (path_join (dataset_dir group dataset_name) "_summary.json",
               json_of_summary s).
Proof.
  intros Hsup Hbls.
  apply (download_dataset_completes adapter group dataset_name source_type
           dataset_id fs Hsup).
  intros year payload request_meta status_code _.
  by apply classify_returns_unless_bls.
Qed.

Lemma download_dataset_completes_unless_bls_witness :
  exists s fs',
    download_dataset failing_adapter "ECB" "USD/EUR" "ecb" "EXR.D.USD.EUR.SP00.A" []
    = (Returns s, fs')
    /\ last fs' = Some ("data/raw_json/ecb_usd_eur/_summary.json", json_of_summary s).
Proof.
  destruct (download_dataset_completes_unless_bls failing_adapter "ECB" "USD/EUR"
              "ecb" "EXR.D.USD.EUR.SP00.A" []) as (s & fs' & Hrun & _ & Hlast).
  - simpl. tauto.
  - discriminate.
  - exists s, fs'. split; [exact Hrun|exact Hlast].
Defined.

(** Exceptions of the adapter never end the run, for any supported
    source type, [bls] included: if every call raises, all 32 years are
    recorded as errors with the action [retry_later], none as "ok". *)
Theorem download_dataset_survives_exceptions adapter group dataset_name
    source_type dataset_id fs :
  In source_type supported_source_types ->
  (forall year, exists exc, adapter source_type dataset_id year = Raises exc) ->
  exists s fs',
    download_dataset adapter group dataset_name source_type dataset_id fs
    = (Returns s, fs')
    /\ totals_ok s = 0 /\ totals_error s = 32
    /\ length (errors s) = 32%nat
    /\ Forall (fun e => year_status e = "error"
                        /\ year_recommended_action e = "retry_later") (years s).
Proof.
  intros Hsup Hraises.
  destruct (download_dataset_completes adapter group dataset_name source_type
              dataset_id fs Hsup) as (s & fs' & Hrun & _).
  { intros year payload request_meta status_code Hret.
    destruct (Hraises year) as [exc Hexc]. congruence. }
  exists s, fs'. split; [exact Hrun|].
  destruct (download_dataset_records _ _ _ _ _ _ _ _ Hrun)
    as (cs & Hcs & Hcons & _ & Hyears & _ & _).
  assert (Hall : Forall (fun c => status c = "error"
                                  /\ recommended_action c = "retry_later") cs).
  { clear Hyears. induction Hcs as [|year c ys cs Hc _ IH]; constructor; [|exact IH].
    destruct (Hraises year) as [exc Hexc]. rewrite Hexc in Hc.
    cbn [year_outcome] in Hc.
    destruct (classify_exception_error source_type None JNull exc) as (c' & Hc' & H).
    rewrite Hc' in Hc. injection Hc as <-. exact H. }
  assert (Hlen : length (py_range START_YEAR (END_YEAR + 1)) = length cs)
    by (eapply Forall2_length; exact Hcs).
  destruct (all_error_totals s _ cs Hcons Hyears Hlen) as (Hok & Herr).
  { eapply Forall_impl; [exact Hall|]. intros c [-> _]. discriminate. }
  assert (H32 : length cs = 32%nat) by (rewrite <- Hlen; reflexivity).
  split; [exact Hok|]. split; [by rewrite Herr, H32|].
  split.
  { destruct Hcons as (_ & Hcount & _). rewrite Herr in Hcount. lia. }
  rewrite Hyears. clear -Hall.
  revert Hall. generalize (py_range START_YEAR (END_YEAR + 1)) as ys.
  induction cs as [|c cs IH]; intros [|y ys] Hall; cbn [zip_with];
    try (by constructor).
  inversion Hall as [|? ? Hc Hrest]; subst. constructor; [exact Hc|by apply IH].
Qed.

Lemma download_dataset_survives_exceptions_witness :
  exists s fs',
    download_dataset failing_adapter "BLS" "US Unemployment" "bls" "LNS14000000" []
    = (Returns s, fs')
    /\ totals_ok s = 0 /\ totals_error s = 32.
Proof.
  destruct (download_dataset_survives_exceptions failing_adapter "BLS"
              "US Unemployment" "bls" "LNS14000000" [])
    as (s & fs' & Hrun & Hok & Herr & _).
  - simpl. tauto.
  - intros year. eexists. reflexivity.
  - exists s, fs'. split; [exact Hrun|]. split; [exact Hok|exact Herr].
Defined.

Lemma zip_with_entries_Forall (P : classification -> Prop) (Q : year_entry -> Prop) :
  (forall y c, P c -> Q (year_entry_of y c)) ->
  forall cs ys, Forall P cs -> Forall Q (zip_with year_entry_of ys cs).
Proof.
  intros HPQ. induction cs as [|c cs IH]; intros [|y ys] Hall; cbn [zip_with];
    try (by constructor).
  inversion Hall as [|? ? Hc Hrest]; subst. constructor; [by apply HPQ|by apply IH].
Qed.

Lemma imf_year_outcome source_type dataset_id year :
  year_outcome source_type (Returns (_imf_request dataset_id year))
  = Returns (Classification "error" "malformed_or_missing_config" "fix_request"
               "Missing required dataset URL or configuration.").
Proof.
  unfold _imf_request. by destruct (String.eqb (strip is_space dataset_id) "").
Qed.

(** The IMF stub makes every year of an [imf] dataset an error of type
    [malformed_or_missing_config] with the action [fix_request], whatever
    the dataset identifier: the run completes with 32 errors and no "ok". *)
Theorem download_dataset_imf adapter group dataset_name dataset_id fs :
  (forall year,
      adapter "imf" dataset_id year = Returns (_imf_request dataset_id year)) ->
  exists s fs',
    download_dataset adapter group dataset_name "imf" dataset_id fs
    = (Returns s, fs')
    /\ totals_ok s = 0 /\ totals_error s = 32
    /\ Forall (fun e => year_status e = "error"
                        /\ year_error_type e = "malformed_or_missing_config"
                        /\ year_recommended_action e = "fix_request") (years s).
Proof.
  intros Himf.
  destruct (download_dataset_completes adapter group dataset_name "imf"
              dataset_id fs) as (s & fs' & Hrun & _).
  { simpl. tauto. }
  { intros year payload request_meta status_code Hret.
    by apply classify_returns_unless_bls. }
  exists s, fs'. split; [exact Hrun|].
  destruct (download_dataset_records _ _ _ _ _ _ _ _ Hrun)
    as (cs & Hcs & Hcons & _ & Hyears & _ & _).
  assert (Hall : Forall (fun c => c = Classification "error"
                                       "malformed_or_missing_config" "fix_request"
                                       "Missing required dataset URL or configuration.")
                   cs).
  { clear Hyears. induction Hcs as [|year c ys cs Hc _ IH]; constructor; [|exact IH].
    rewrite Himf, imf_year_outcome in Hc. by injection Hc as <-. }
  assert (Hlen : length (py_range START_YEAR (END_YEAR + 1)) = length cs)
    by (eapply Forall2_length; exact Hcs).
  destruct (all_error_totals s _ cs Hcons Hyears Hlen) as (Hok & Herr).
  { eapply Forall_impl; [exact Hall|]. intros c ->. discriminate. }
  assert (H32 : length cs = 32%nat) by (rewrite <- Hlen; reflexivity).
  split; [exact Hok|]. split; [by rewrite Herr, H32|].
  rewrite Hyears. eapply zip_with_entries_Forall; [|exact Hall].
  intros y c ->. done.
Qed.

Lemma download_dataset_imf_witness :
  exists s fs',
    download_dataset imf_adapter "IMF" "World GDP" "imf" "   " []
    = (Returns s, fs')
    /\ totals_ok s = 0 /\ totals_error s = 32.
Proof.
  destruct (download_dataset_imf imf_adapter "IMF" "World GDP" "   " [])
    as (s & fs' & Hrun & Hok & Herr & _).
  - intros year. reflexivity.
  - exists s, fs'. split; [exact Hrun|]. split; [exact Hok|exact Herr].
Defined.

(** ** Slugs *)

Lemma append_cons c s t : String c s +:+ t = String c (s +:+ t).
Proof. reflexivity. Qed.

Lemma append_nil_l t : "" +:+ t = t.
Proof. reflexivity. Qed.

Lemma append_nil_r s : s +:+ "" = s.
Proof. induction s as [|c s IH]; [done|]. by rewrite append_cons, IH. Qed.

Lemma append_assoc a b c : (a +:+ b) +:+ c = a +:+ (b +:+ c).
Proof. induction a as [|x a IH]; [done|]. by rewrite !append_cons, IH. Qed.

Lemma string_rev_onto_app s : forall acc,
  string_rev_onto s acc = string_rev s +:+ acc.
Proof.
  unfold string_rev. induction s as [|c s IH]; intros acc; [reflexivity|].
  cbn [string_rev_onto]. rewrite IH, (IH (String c "")), append_assoc. reflexivity.
Qed.

Lemma string_rev_cons c s : string_rev (String c s) = string_rev s +:+ String c "".
Proof. unfold string_rev at 1. cbn [string_rev_onto]. apply string_rev_onto_app. Qed.

Lemma string_rev_app a b : string_rev (a +:+ b) = string_rev b +:+ string_rev a.
Proof.
  induction a as [|c a IH].
  - by rewrite append_nil_l, append_nil_r.
  - by rewrite append_cons, !string_rev_cons, IH, append_assoc.
Qed.

Lemma string_rev_empty s : string_rev s = "" -> s = "".
Proof.
  destruct s as [|c s]; [done|]. rewrite string_rev_cons.
  destruct (string_rev s); discriminate.
Qed.

Lemma lstrip_empty P s : lstrip P s = "" <-> string_forallb P s = true.
Proof.
  induction s as [|c s IH]; [done|]. cbn [lstrip string_forallb].
  destruct (P c); cbn [andb]; [exact IH|]. split; discriminate.
Qed.

Lemma lstrip_app_char P s c :
  lstrip P (s +:+ String c "")
  = if string_forallb P s then (if P c then "" else String c "")
    else lstrip P s +:+ String c "".
Proof.
  induction s as [|x s IH]; [reflexivity|].
  rewrite append_cons. cbn [lstrip string_forallb].
  destruct (P x); cbn [andb]; [exact IH|reflexivity].
Qed.

(** [rstrip] from left to right: a character is dropped when it is to
    be stripped and everything after it was. *)
Lemma rstrip_cons P c s :
  rstrip P (String c s)
  = if String.eqb (rstrip P s) "" && P c then "" else String c (rstrip P s).
Proof.
  unfold rstrip. rewrite string_rev_cons, lstrip_app_char.
  destruct (string_forallb P (string_rev s)) eqn:Hall.
  - apply lstrip_empty in Hall. rewrite Hall. by destruct (P c).
  - rewrite string_rev_app.
    destruct (String.eqb_spec (string_rev (lstrip P (string_rev s))) "") as [He|_];
      [|reflexivity].
    apply string_rev_empty, lstrip_empty in He. congruence.
Qed.

Lemma rstrip_nil P : rstrip P "" = "".
Proof. reflexivity. Qed.

Section StripFacts.

Variable drop : ascii -> bool.

Lemma lstrip_forallb P s :
  string_forallb P s = true -> string_forallb P (lstrip drop s) = true.
Proof.
  induction s as [|c s IH]; [done|]. cbn [lstrip]. intros Hall.
  destruct (drop c); [|exact Hall].
  cbn [string_forallb] in Hall. apply andb_prop in Hall as [_ Hall]. by apply IH.
Qed.

Lemma rstrip_forallb P s :
  string_forallb P s = true -> string_forallb P (rstrip drop s) = true.
Proof.
  induction s as [|c s IH]; [done|]. rewrite rstrip_cons. intros Hall.
  cbn [string_forallb] in Hall. apply andb_prop in Hall as [Hc Hall].
  destruct (_ && _); [done|]. cbn [string_forallb]. by rewrite Hc, IH.
Qed.

Lemma no_double_tail c s :
  no_double_underscore (String c s) = true -> no_double_underscore s = true.
Proof.
  destruct s as [|b s]; [done|]. cbn [no_double_underscore].
  intros H. by apply andb_prop in H as [_ H].
Qed.

Lemma lstrip_no_double s :
  no_double_underscore s = true -> no_double_underscore (lstrip drop s) = true.
Proof.
  induction s as [|c s IH]; [done|]. cbn [lstrip]. intros Hno.
  destruct (drop c); [|exact Hno]. apply IH. by apply no_double_tail in Hno.
Qed.

Lemma rstrip_first s :
  rstrip drop s = "" \/ first_char (rstrip drop s) = first_char s.
Proof.
  destruct s as [|c s]; [by left|]. rewrite rstrip_cons.
  destruct (_ && _); [by left|by right].
Qed.

Lemma rstrip_no_double s :
  no_double_underscore s = true -> no_double_underscore (rstrip drop s) = true.
Proof.
  induction s as [|c s IH]; [done|]. rewrite rstrip_cons. intros Hno.
  destruct (_ && _); [done|].
  pose proof (IH (no_double_tail _ _ Hno)) as IH'.
  destruct (rstrip_first s) as [->|Hfirst]; [done|].
  destruct s as [|b s]; [by rewrite rstrip_nil|].
  destruct (rstrip drop (String b s)) as [|b' s'] eqn:Hr; [done|].
  cbn [first_char] in Hfirst. injection Hfirst as ->.
  cbn [no_double_underscore] in *. apply andb_prop in Hno as [Hab _].
  by rewrite Hab, IH'.
Qed.

Lemma lstrip_starts s : starts_with drop (lstrip drop s) = false.
Proof.
  induction s as [|c s IH]; [done|]. cbn [lstrip].
  destruct (drop c) eqn:Hc; [exact IH|]. unfold starts_with. cbn. exact Hc.
Qed.

Lemma rstrip_starts s :
  starts_with drop s = false -> starts_with drop (rstrip drop s) = false.
Proof.
  intros Hs. destruct (rstrip_first s) as [->|Hfirst]; [done|].
  unfold starts_with in *. by rewrite Hfirst.
Qed.

Lemma rstrip_ends s : ends_with drop (rstrip drop s) = false.
Proof.
  induction s as [|c s IH]; [done|]. rewrite rstrip_cons.
  destruct (String.eqb_spec (rstrip drop s) "") as [He|Hne]; cbn [andb].
  - rewrite He. destruct (drop c) eqn:Hc; [done|]. unfold ends_with. cbn. exact Hc.
  - destruct (rstrip drop s) as [|b r] eqn:Hr; [done|].
    unfold ends_with in *. exact IH.
Qed.

(** Stripping leaves alone a string that neither starts nor ends with a
    character to be stripped. *)
Lemma lstrip_id s : starts_with drop s = false -> lstrip drop s = s.
Proof.
  destruct s as [|c s]; [done|]. unfold starts_with. cbn. by intros ->.
Qed.

Lemma rstrip_id s : ends_with drop s = false -> rstrip drop s = s.
Proof.
  induction s as [|c s IH]; [done|]. rewrite rstrip_cons. intros Hend.
  destruct s as [|b s].
  - rewrite rstrip_nil. unfold ends_with in Hend. cbn in Hend. by rewrite Hend.
  - rewrite IH by exact Hend. done.
Qed.

Lemma strip_id s :
  starts_with drop s = false -> ends_with drop s = false -> strip drop s = s.
Proof. intros Hs He. unfold strip. by rewrite lstrip_id, rstrip_id. Qed.

End StripFacts.

Lemma slug_char_facts c :
  is_slug_char c = true ->
  ascii_lower c = c /\ is_space c = false
  /\ (is_lower_alnum c = true -> is_underscore c = false)
  /\ (is_lower_alnum c = false -> c = "_"%char).
Proof.
  destruct c as [[] [] [] [] [] [] [] []]; vm_compute;
    intros H; try discriminate H; repeat split; intros; congruence.
Qed.

Lemma underscore_is_slug_char : is_slug_char "_" = true.
Proof. reflexivity. Qed.

Lemma no_double_cons a s :
  no_double_underscore (String a s)
  = negb (is_underscore a && starts_with is_underscore s) && no_double_underscore s.
Proof.
  destruct s as [|b s]; [|reflexivity].
  unfold starts_with. cbn. by rewrite andb_false_r.
Qed.

Lemma collapse_slug_chars s : forall in_run,
  string_forallb is_slug_char (collapse_non_alnum in_run s) = true.
Proof.
  induction s as [|c s IH]; intros in_run; [done|]. cbn [collapse_non_alnum].
  destruct (is_lower_alnum c) eqn:Hc.
  - cbn [string_forallb]. unfold is_slug_char at 1. by rewrite Hc, IH.
  - destruct in_run; [apply IH|]. cbn [string_forallb]. by rewrite IH.
Qed.

Lemma collapse_single_underscores s : forall in_run,
  no_double_underscore (collapse_non_alnum in_run s) = true
  /\ (in_run = true ->
      starts_with is_underscore (collapse_non_alnum in_run s) = false).
Proof.
  induction s as [|c s IH]; intros in_run; [done|]. cbn [collapse_non_alnum].
  destruct (is_lower_alnum c) eqn:Hc.
  - destruct (IH false) as [Hno _].
    assert (Hu : is_underscore c = false).
    { apply slug_char_facts; [|done]. unfold is_slug_char. by rewrite Hc. }
    rewrite no_double_cons, Hu, Hno. split; [done|]. intros _.
    unfold starts_with. cbn. exact Hu.
  - destruct (IH true) as [Hno Hstart]. destruct in_run; [by split|].
    rewrite no_double_cons, (Hstart eq_refl), Hno, andb_false_r. by split.
Qed.

(** A slug is made of lower-case letters, digits and underscores only,
    with no two underscores in a row and none at either end. *)
Theorem slugify_is_slug value : is_slug (_slugify value).
Proof.
  unfold _slugify, is_slug.
  set (s := collapse_non_alnum false _).
  change (Ascii.eqb "_") with is_underscore. unfold strip.
  repeat split.
  - apply rstrip_forallb, lstrip_forallb, collapse_slug_chars.
  - apply rstrip_no_double, lstrip_no_double, collapse_single_underscores.
  - apply rstrip_starts, lstrip_starts.
  - apply rstrip_ends.
Qed.

Lemma forallb_ends (P Q : ascii -> bool) s :
  string_forallb P s = true ->
  (forall c, P c = true -> Q c = false) ->
  starts_with Q s = false /\ ends_with Q s = false.
Proof.
  intros Hall HPQ. split.
  - destruct s as [|c s]; [done|]. unfold starts_with. cbn.
    cbn [string_forallb] in Hall. apply andb_prop in Hall as [Hc _]. by apply HPQ.
  - induction s as [|c s IH]; [done|].
    cbn [string_forallb] in Hall. apply andb_prop in Hall as [Hc Hall].
    destruct s as [|b s]; [unfold ends_with; cbn; by apply HPQ|].
    exact (IH Hall).
Qed.

Lemma string_map_id (f : ascii -> ascii) (P : ascii -> bool) s :
  string_forallb P s = true ->
  (forall c, P c = true -> f c = c) ->
  string_map f s = s.
Proof.
  intros Hall Hf. induction s as [|c s IH]; [done|].
  cbn [string_forallb] in Hall. apply andb_prop in Hall as [Hc Hall].
  cbn [string_map]. by rewrite Hf, IH.
Qed.

Lemma collapse_id s : forall in_run,
  string_forallb is_slug_char s = true ->
  no_double_underscore s = true ->
  (in_run = true -> starts_with is_underscore s = false) ->
  collapse_non_alnum in_run s = s.
Proof.
  induction s as [|c s IH]; intros in_run Hall Hno Hstart; [done|].
  cbn [string_forallb] in Hall. apply andb_prop in Hall as [Hc Hall].
  rewrite no_double_cons in Hno. apply andb_prop in Hno as [Hcs Hno].
  destruct (slug_char_facts c Hc) as (_ & _ & Halnum & Hunder).
  cbn [collapse_non_alnum]. destruct (is_lower_alnum c) eqn:Hal.
  - rewrite IH; done.
  - specialize (Hunder eq_refl). subst c.
    destruct in_run.
    + specialize (Hstart eq_refl). discriminate Hstart.
    + rewrite IH; try done. intros _.
      change (is_underscore "_") with true in Hcs. cbn [andb] in Hcs.
      by apply negb_true_iff in Hcs.
Qed.

(** A string that already has the shape of a slug is its own slug. *)
Theorem slugify_fixpoint value : is_slug value -> _slugify value = value.
Proof.
  intros (Hall & Hno & Hstart & Hend). unfold _slugify.
  rewrite (string_map_id ascii_lower is_slug_char value Hall)
    by (intros c Hc; by apply slug_char_facts).
  destruct (forallb_ends is_slug_char is_space value Hall) as [Hs He].
  { intros c Hc. by apply slug_char_facts. }
  rewrite (strip_id is_space value Hs He).
  rewrite (collapse_id value false Hall Hno) by discriminate.
  change (Ascii.eqb "_") with is_underscore. by apply strip_id.
Qed.

Lemma slugify_fixpoint_witness :
  _slugify "us_census_population_by_state_2020" = "us_census_population_by_state_2020".
Proof.
  apply (slugify_fixpoint "us_census_population_by_state_2020").
  repeat split; reflexivity.
Defined.

(** Slugifying is idempotent on every string. *)
Theorem slugify_idempotent value : _slugify (_slugify value) = _slugify value.
Proof.
  assert (Hslug : is_slug (_slugify value)).
  { unfold _slugify, is_slug.
    change (Ascii.eqb "_") with is_underscore. unfold strip.
    repeat split.
    - apply rstrip_forallb, lstrip_forallb, collapse_slug_chars.
    - apply rstrip_no_double, lstrip_no_double, collapse_single_underscores.
    - apply rstrip_starts, lstrip_starts.
    - apply rstrip_ends. }
  destruct Hslug as (Hall & Hno & Hstart & Hend).
  set (s := _slugify value) in *. unfold _slugify at 1.
  rewrite (string_map_id ascii_lower is_slug_char s Hall)
    by (intros c Hc; by apply slug_char_facts).
  destruct (forallb_ends is_slug_char is_space s Hall) as [Hs He].
  { intros c Hc. by apply slug_char_facts. }
  rewrite (strip_id is_space s Hs He).
  rewrite (collapse_id s false Hall Hno) by discriminate.
  change (Ascii.eqb "_") with is_underscore. by apply strip_id.
Qed.

(** ** The ECB resource path *)

Lemma has_char_app c a b : has_char c (a +:+ b) = has_char c a || has_char c b.
Proof.
  induction a as [|x a IH]; [done|].
  rewrite append_cons. cbn [has_char]. by rewrite IH, orb_assoc.
Qed.

Lemma split_once_first c a b :
  has_char c a = false -> split_once c (a +:+ String c b) = Some (a, b).
Proof.
  induction a as [|x a IH]; intros Hno.
  - rewrite append_nil_l. cbn [split_once]. by rewrite Ascii.eqb_refl.
  - cbn [has_char] in Hno. apply orb_false_elim in Hno as [Hx Ha].
    rewrite append_cons. cbn [split_once]. by rewrite Hx, IH.
Qed.

Lemma split_once_some c s before after :
  split_once c s = Some (before, after) ->
  s = before +:+ String c after /\ has_char c before = false.
Proof.
  revert before. induction s as [|x s IH]; intros before Hs; [discriminate|].
  cbn [split_once] in Hs. destruct (Ascii.eqb_spec c x) as [<-|Hne].
  - by injection Hs as <- <-.
  - destruct (split_once c s) as [[b a]|]; [|discriminate].
    injection Hs as <- <-. destruct (IH b eq_refl) as [-> Hb].
    split; [done|]. cbn [has_char]. rewrite Hb.
    by destruct (Ascii.eqb_spec c x).
Qed.

Lemma split_once_none c s : split_once c s = None <-> has_char c s = false.
Proof.
  induction s as [|x s IH]; [done|]. cbn [split_once has_char].
  destruct (Ascii.eqb c x); cbn [orb]; [split; discriminate|].
  destruct (split_once c s) as [[b a]|].
  - split; [discriminate|]. intros H. apply IH in H. discriminate.
  - split; [|done]. intros _. by apply IH.
Qed.

Lemma length_append a b :
  String.length (a +:+ b) = (String.length a + String.length b)%nat.
Proof. induction a as [|x a IH]; [done|]. rewrite append_cons. simpl. by rewrite IH. Qed.

(** An identifier without a slash has its first dot, and only that one,
    replaced by a slash: the flow reference is what precedes the first
    dot. *)
Theorem ecb_resource_path_first_dot (flow_ref key : string) :
  has_char "." flow_ref = false ->
  has_char "/" flow_ref = false ->
  has_char "/" key = false ->
  _ecb_resource_path (flow_ref +:+ "." +:+ key) = flow_ref +:+ "/" +:+ key.
Proof.
  intros Hdot Hslash1 Hslash2. unfold _ecb_resource_path.
  change (flow_ref +:+ "." +:+ key) with (flow_ref +:+ String "."%char key).
  rewrite !has_char_app, Hdot, Hslash1. cbn [has_char].
  rewrite Hslash2, Ascii.eqb_refl. cbn [orb andb negb].
  change (Ascii.eqb "/" ".") with false. cbn [orb andb negb].
  by rewrite (split_once_first "." flow_ref key Hdot).
Qed.

Lemma ecb_resource_path_first_dot_witness :
  _ecb_resource_path "EXR.D.USD.EUR.SP00.A" = "EXR/D.USD.EUR.SP00.A".
Proof.
  apply (ecb_resource_path_first_dot "EXR" "D.USD.EUR.SP00.A"); reflexivity.
Defined.

(** An identifier that has a slash, or no dot, is used as it is; the
    result always has the length of the identifier, and applying the
    function to its own result changes nothing. *)
Theorem ecb_resource_path_stable (dataset_id : string) :
  (has_char "/" dataset_id = true \/ has_char "." dataset_id = false ->
   _ecb_resource_path dataset_id = dataset_id)
  /\ String.length (_ecb_resource_path dataset_id) = String.length dataset_id
  /\ _ecb_resource_path (_ecb_resource_path dataset_id)
     = _ecb_resource_path dataset_id.
Proof.
  assert (Hsame : has_char "/" dataset_id = true \/ has_char "." dataset_id = false ->
                  _ecb_resource_path dataset_id = dataset_id).
  { unfold _ecb_resource_path. intros [-> | ->]; [|done]. by rewrite andb_false_r. }
  split; [exact Hsame|].
  destruct (has_char "." dataset_id && negb (has_char "/" dataset_id)) eqn:Hguard.
  2:{ assert (Hid : _ecb_resource_path dataset_id = dataset_id)
        by (unfold _ecb_resource_path; by rewrite Hguard).
      by rewrite !Hid. }
  destruct (split_once "." dataset_id) as [[flow_ref key]|] eqn:Hsplit.
  2:{ assert (Hid : _ecb_resource_path dataset_id = dataset_id)
        by (unfold _ecb_resource_path; by rewrite Hguard, Hsplit).
      by rewrite !Hid. }
  assert (Hval : _ecb_resource_path dataset_id = flow_ref +:+ "/" +:+ key)
    by (unfold _ecb_resource_path; by rewrite Hguard, Hsplit).
  apply split_once_some in Hsplit as [Hid Hdot]. rewrite !Hval. split.
  - rewrite Hid, !length_append. reflexivity.
  - assert (Hslash : has_char "/" (flow_ref +:+ "/" +:+ key) = true).
    { change (flow_ref +:+ "/" +:+ key) with (flow_ref +:+ String "/"%char key).
      rewrite has_char_app. cbn [has_char]. rewrite Ascii.eqb_refl.
      apply orb_true_r. }
    unfold _ecb_resource_path. rewrite Hslash. cbn [negb].
    by rewrite andb_false_r.
Qed.

(** ** Query dictionaries *)

Lemma assoc_dict_set_eq key values (d : query_dict) :
  assoc key (dict_set key values d) = Some values.
Proof.
  induction d as [|[k vs] d IH]; cbn [dict_set assoc].
  - by rewrite String.eqb_refl.
  - destruct (String.eqb key k) eqn:Hk; cbn [assoc]; by rewrite Hk.
Qed.

Lemma assoc_dict_set_ne key key' values (d : query_dict) :
  key <> key' -> assoc key' (dict_set key values d) = assoc key' d.
Proof.
  intros Hne. induction d as [|[k vs] d IH]; cbn [dict_set assoc].
  - destruct (String.eqb_spec key' key) as [->|_]; done.
  - destruct (String.eqb_spec key k) as [<-|Hk]; cbn [assoc].
    + destruct (String.eqb_spec key' key) as [->|_]; done.
    + by rewrite IH.
Qed.

Lemma keys_dict_set key values (d : query_dict) :
  map fst (dict_set key values d) = keys_with key (map fst d).
Proof.
  unfold keys_with. induction d as [|[k vs] d IH]; [done|].
  cbn [dict_set map fst existsb].
  destruct (String.eqb key k); cbn [orb map fst]; [done|].
  rewrite IH. by destruct (existsb _ _).
Qed.

Lemma dict_mem_keys key (d : query_dict) :
  dict_mem key d = existsb (String.eqb key) (map fst d).
Proof.
  unfold dict_mem. induction d as [|[k vs] d IH]; [done|].
  cbn [assoc map fst existsb]. by destruct (String.eqb key k).
Qed.

Lemma values_nonempty_dict_add key value (d : query_dict) :
  values_nonempty d -> values_nonempty (dict_add key value d).
Proof.
  unfold values_nonempty. induction d as [|[k vs] d IH]; intros Hd; cbn [dict_add].
  - by repeat constructor.
  - inversion Hd as [|? ? Hk Hrest]; subst.
    destruct (String.eqb key k); constructor; try done; [|by apply IH].
    cbn. by destruct vs.
Qed.

Lemma values_nonempty_assoc key values (d : query_dict) :
  values_nonempty d -> assoc key d = Some values -> values <> [].
Proof.
  unfold values_nonempty. induction d as [|[k vs] d IH]; [done|].
  intros Hd. inversion Hd as [|? ? Hk Hrest]; subst. cbn [assoc].
  destruct (String.eqb key k); [|by apply IH]. by intros [= <-].
Qed.

Section UrlRewritingFacts.

Variable utf8_replace : string -> string.
Variable urlparse : string -> outcome ParseResult.
Variable urlunparse : ParseResult -> string.

Lemma parse_qs_values_nonempty qs : values_nonempty (parse_qs utf8_replace qs).
Proof.
  unfold parse_qs.
  assert (Hgen : forall fields d, values_nonempty d ->
                   values_nonempty
                     (fold_left (fun d '(name, value) => dict_add name value d)
                        fields d)).
  { induction fields as [|[n v] fields IH]; intros d Hd; [done|].
    cbn [fold_left]. by apply IH, values_nonempty_dict_add. }
  apply Hgen. constructor.
Qed.

Lemma start_template_first (query : query_dict) :
  values_nonempty query ->
  py_first (default ["YYYY"] (assoc "startPeriod" query))
  = Returns (start_template_of query).
Proof.
  intros Hq. unfold start_template_of.
  destruct (assoc "startPeriod" query) as [[|v vs]|] eqn:Ha; try done.
  by destruct (values_nonempty_assoc _ _ _ Hq Ha).
Qed.

Lemma set_period_params_eq target year parsed :
  urlparse target = Returns parsed ->
  let query := parse_qs utf8_replace (pr_query parsed) in
  let bounds := period_bounds (start_template_of query) year in
  _set_period_params utf8_replace urlparse urlunparse target year
  = Returns (urlunparse
               (replace_query parsed
                  (urlencode
                     (dict_set "endPeriod" [snd bounds]
                        (dict_set "startPeriod" [fst bounds] query))))).
Proof.
  intros Hparsed query bounds.
  unfold _set_period_params. rewrite Hparsed. cbn [mbind outcome_bind].
  fold query. rewrite (start_template_first query)
    by apply parse_qs_values_nonempty.
  cbn [mbind outcome_bind mret outcome_ret]. unfold bounds, period_bounds.
  destruct (contains "-Q" (start_template_of query)); [done|].
  by destruct (contains "-M" (start_template_of query)).
Qed.

Lemma census_url_for_year_eq dataset_id year parsed :
  urlparse (sub_year_segments 0 ("/data/" +:+ str_of_int year +:+ "/") dataset_id)
  = Returns parsed ->
  let query := parse_qs utf8_replace (pr_query parsed) in
  _census_url_for_year utf8_replace urlparse urlunparse dataset_id year
  = Returns (urlunparse
               (replace_query parsed
                  (urlencode
                     (if dict_mem "time" query
                      then dict_set "time" [str_of_int year] query
                      else query)))).
Proof. intros Hparsed query. unfold _census_url_for_year. by rewrite Hparsed. Qed.

(** What [_set_period_params] does to the query of a URL that
    [urlparse] accepts: the other five components go back into
    [urlunparse] as they are, and in the re-encoded query [startPeriod]
    and [endPeriod] each have the one value that the year and the
    granularity of the first [startPeriod] value ask for ([-Q1]/[-Q4] when
    it has [-Q], else [-M01]/[-M12] when it has [-M], else the bare year;
    annual without any [startPeriod]); every other key keeps its values;
    the keys keep their order, a missing [startPeriod] or [endPeriod]
    being appended.  A [ValueError] of [urlparse] is passed on. *)
Theorem set_period_params_query target year :
  (forall parsed,
      urlparse target = Returns parsed ->
      let query := parse_qs utf8_replace (pr_query parsed) in
      let bounds := period_bounds (start_template_of query) year in
      exists query',
        _set_period_params utf8_replace urlparse urlunparse target year
        = Returns (urlunparse (replace_query parsed (urlencode query')))
        /\ assoc "startPeriod" query' = Some [fst bounds]
        /\ assoc "endPeriod" query' = Some [snd bounds]
        /\ (forall key, key <> "startPeriod" -> key <> "endPeriod" ->
                        assoc key query' = assoc key query)
        /\ map fst query'
           = keys_with "endPeriod" (keys_with "startPeriod" (map fst query)))
  /\ (forall e,
        urlparse target = Raises e ->
        _set_period_params utf8_replace urlparse urlunparse target year = Raises e).
Proof.
  split.
  - intros parsed Hparsed query bounds.
    exists (dict_set "endPeriod" [snd bounds]
              (dict_set "startPeriod" [fst bounds] query)).
    split; [|split; [|split; [|split]]].
    + by apply set_period_params_eq.
    + rewrite assoc_dict_set_ne by discriminate. apply assoc_dict_set_eq.
    + apply assoc_dict_set_eq.
    + intros key Hs He. by rewrite !assoc_dict_set_ne.
    + by rewrite !keys_dict_set.
  - intros e He. unfold _set_period_params. by rewrite He.
Qed.

(** What [_census_url_for_year] does after the substitution of the year
    segments: a [time] key, when there is one, gets the year as its only
    value and nothing else changes in the dictionary; without a [time] key
    the dictionary is re-encoded as it is, so no [time] is added.  The
    other five components go back into [urlunparse] as [urlparse] gave
    them, and a [ValueError] of [urlparse] is passed on. *)
Theorem census_url_for_year_query dataset_id year :
  let target :=
    sub_year_segments 0 ("/data/" +:+ str_of_int year +:+ "/") dataset_id in
  (forall parsed,
      urlparse target = Returns parsed ->
      let query := parse_qs utf8_replace (pr_query parsed) in
      exists query',
        _census_url_for_year utf8_replace urlparse urlunparse dataset_id year
        = Returns (urlunparse (replace_query parsed (urlencode query')))
        /\ map fst query' = map fst query
        /\ (forall key, key <> "time" -> assoc key query' = assoc key query)
        /\ (dict_mem "time" query = true ->
            assoc "time" query' = Some [str_of_int year])
        /\ (dict_mem "time" query = false -> query' = query))
  /\ (forall e,
        urlparse target = Raises e ->
        _census_url_for_year utf8_replace urlparse urlunparse dataset_id year
        = Raises e).
Proof.
  intros target. split.
  - intros parsed Hparsed query.
    exists (if dict_mem "time" query
            then dict_set "time" [str_of_int year] query else query).
    split; [|split; [|split; [|split]]].
    + by apply census_url_for_year_eq.
    + destruct (dict_mem "time" query) eqn:Hmem; [|done].
      rewrite keys_dict_set. unfold keys_with.
      by rewrite <- dict_mem_keys, Hmem.
    + intros key Hkey. destruct (dict_mem "time" query); [|done].
      by rewrite assoc_dict_set_ne.
    + intros ->. apply assoc_dict_set_eq.
    + by intros ->.
  - intros e He. unfold _census_url_for_year. fold target. by rewrite He.
Qed.

End UrlRewritingFacts.

(** ** Escaping *)

Lemma string_forallb_app P a b :
  string_forallb P (a +:+ b) = string_forallb P a && string_forallb P b.
Proof.
  induction a as [|x a IH]; [done|].
  rewrite append_cons. cbn [string_forallb]. by rewrite IH, andb_assoc.
Qed.

Lemma string_map_app f a b : string_map f (a +:+ b) = string_map f a +:+ string_map f b.
Proof.
  induction a as [|x a IH]; [done|].
  rewrite append_cons. cbn [string_map]. by rewrite IH.
Qed.

Lemma quote_plus_char_escaped c :
  string_forallb is_escaped_char (quote_plus_char c) = true.
Proof. destruct c as [[] [] [] [] [] [] [] []]; reflexivity. Qed.

Lemma quote_plus_escaped s : string_forallb is_escaped_char (quote_plus s) = true.
Proof.
  induction s as [|c s IH]; [done|]. cbn [quote_plus].
  by rewrite string_forallb_app, quote_plus_char_escaped, IH.
Qed.

(** Unescaping undoes escaping, byte for byte. *)
Lemma percent_decode_quote_plus_char c rest :
  percent_decode (plus_to_space (quote_plus_char c) +:+ rest)
  = String c (percent_decode rest).
Proof. destruct c as [[] [] [] [] [] [] [] []]; reflexivity. Qed.

Lemma percent_decode_quote_plus s :
  percent_decode (plus_to_space (quote_plus s)) = s.
Proof.
  induction s as [|c s IH]; [done|]. cbn [quote_plus]. unfold plus_to_space in *.
  rewrite string_map_app. fold (plus_to_space (quote_plus_char c)).
  by rewrite percent_decode_quote_plus_char, IH.
Qed.

Lemma quote_plus_inj a b : quote_plus a = quote_plus b -> a = b.
Proof.
  intros H. rewrite <- (percent_decode_quote_plus a), H.
  apply percent_decode_quote_plus.
Qed.

Lemma quote_plus_safe s :
  string_forallb is_always_safe s = true -> quote_plus s = s.
Proof.
  induction s as [|c s IH]; [done|]. cbn [string_forallb quote_plus].
  intros H. apply andb_prop in H as [Hc Hs].
  unfold quote_plus_char. rewrite Hc, IH by done. reflexivity.
Qed.

Lemma str_of_int_safe n : string_forallb is_always_safe (str_of_int n) = true.
Proof.
  unfold str_of_int.
  assert (Hu : forall d, string_forallb is_always_safe (NilEmpty.string_of_uint d) = true).
  { induction d; cbn [NilEmpty.string_of_uint string_forallb]; try done;
      rewrite IHd; reflexivity. }
  assert (Hz : forall d, string_forallb is_always_safe (NilZero.string_of_uint d) = true).
  { intros d. destruct d; try apply Hu. reflexivity. }
  destruct (Z.to_int n) as [d|d]; cbn [NilZero.string_of_int string_forallb].
  - apply Hz.
  - by rewrite Hz.
Qed.

Lemma escaped_no_equals s :
  string_forallb is_escaped_char s = true -> has_char "=" s = false.
Proof.
  induction s as [|c s IH]; [done|]. cbn [string_forallb has_char].
  intros H. apply andb_prop in H as [Hc Hs]. rewrite (IH Hs), orb_false_r.
  destruct (Ascii.eqb_spec "=" c) as [<-|]; [discriminate Hc|done].
Qed.

(** Two texts without [=], each followed by [=]: one is a prefix of the
    other only if they are the same text. *)
Lemma prefix_name a : forall b rest,
  has_char "=" a = false -> has_char "=" b = false ->
  String.prefix (a +:+ "=") (b +:+ "=" +:+ rest) = true -> a = b.
Proof.
  induction a as [|x a IH]; intros [|y b] rest Ha Hb Hpre.
  - done.
  - exfalso. rewrite append_nil_l, append_cons in Hpre.
    cbn [String.prefix] in Hpre. cbn [has_char] in Hb.
    apply orb_false_elim in Hb as [Hy _].
    destruct (ascii_dec "=" y) as [<-|Hne]; [|done].
    by rewrite Ascii.eqb_refl in Hy.
  - exfalso. rewrite append_nil_l, append_cons in Hpre.
    change ("=" +:+ rest) with (String "="%char rest) in Hpre.
    cbn [String.prefix] in Hpre. cbn [has_char] in Ha.
    apply orb_false_elim in Ha as [Hx _].
    destruct (ascii_dec x "=") as [->|Hne]; [|done].
    by rewrite Ascii.eqb_refl in Hx.
  - cbn [has_char] in Ha, Hb.
    apply orb_false_elim in Ha as [_ Ha]. apply orb_false_elim in Hb as [_ Hb].
    rewrite !append_cons in Hpre. cbn [String.prefix] in Hpre.
    destruct (ascii_dec x y) as [->|]; [|done].
    f_equal. by apply (IH b rest).
Qed.

Lemma prefix_app a b : String.prefix a (a +:+ b) = true.
Proof.
  induction a as [|x a IH]; [by destruct b|].
  rewrite append_cons. cbn [String.prefix]. by destruct (ascii_dec x x).
Qed.

(** ** The fields of an encoded query *)

Lemma keys_with_NoDup key keys : NoDup keys -> NoDup (keys_with key keys).
Proof.
  intros Hk. unfold keys_with.
  destruct (existsb (String.eqb key) keys) eqn:Hex; [done|].
  apply NoDup_app. split; [done|]. split; [|apply NoDup_singleton].
  intros k Hin Hk'. apply list_elem_of_In in Hin.
  apply list_elem_of_singleton in Hk' as ->.
  apply not_true_iff_false in Hex. apply Hex, existsb_exists.
  exists key. split; [done|apply String.eqb_refl].
Qed.

Lemma keys_dict_add key value (d : query_dict) :
  map fst (dict_add key value d) = keys_with key (map fst d).
Proof.
  unfold keys_with. induction d as [|[k vs] d IH]; [done|].
  cbn [dict_add map fst existsb].
  destruct (String.eqb key k); cbn [orb map fst]; [done|].
  rewrite IH. by destruct (existsb _ _).
Qed.

Lemma keys_unique_dict_set key values d :
  keys_unique d -> keys_unique (dict_set key values d).
Proof. unfold keys_unique. rewrite keys_dict_set. apply keys_with_NoDup. Qed.

Lemma parse_qs_keys_unique utf8_replace qs : keys_unique (parse_qs utf8_replace qs).
Proof.
  unfold parse_qs.
  assert (Hgen : forall fields d, keys_unique d ->
                   keys_unique
                     (fold_left (fun d '(name, value) => dict_add name value d)
                        fields d)).
  { induction fields as [|[n v] fields IH]; intros d Hd; [done|].
    cbn [fold_left]. apply IH. unfold keys_unique.
    rewrite keys_dict_add. by apply keys_with_NoDup. }
  apply Hgen. constructor.
Qed.

Lemma filter_fields_entry key k vs :
  List.filter (String.prefix (quote_plus key +:+ "="))
    (map (fun v => quote_plus k +:+ "=" +:+ quote_plus v) vs)
  = if String.eqb key k
    then map (fun v => quote_plus k +:+ "=" +:+ quote_plus v) vs else [].
Proof.
  destruct (String.eqb_spec key k) as [->|Hne].
  - induction vs as [|v vs IH]; [done|]. cbn [map List.filter].
    rewrite <- append_assoc, prefix_app, IH. done.
  - induction vs as [|v vs IH]; [done|]. cbn [map List.filter]. rewrite IH.
    destruct (String.prefix _ _) eqn:Hpre; [|done].
    apply prefix_name in Hpre; try (apply escaped_no_equals, quote_plus_escaped).
    by apply quote_plus_inj in Hpre.
Qed.

Lemma filter_fields_absent key (d : query_dict) :
  assoc key d = None ->
  List.filter (String.prefix (quote_plus key +:+ "=")) (urlencode_fields d) = [].
Proof.
  unfold urlencode_fields. induction d as [|[k vs] d IH]; [done|].
  cbn [assoc flat_map]. rewrite List.filter_app, filter_fields_entry.
  destruct (String.eqb key k); [done|]. exact IH.
Qed.

Lemma assoc_None_keys {A} key (d : list (string * A)) :
  ~ In key (map fst d) -> assoc key d = None.
Proof.
  induction d as [|[k v] d IH]; [done|]. cbn [map fst In assoc]. intros Hno.
  destruct (String.eqb_spec key k) as [->|_]; [tauto|]. apply IH. tauto.
Qed.

(** In the encoded form of a dictionary without repeated keys, the
    fields that start with an escaped key and [=] are those of the values
    of this key, in order. *)
Lemma filter_fields_key key values (d : query_dict) :
  keys_unique d ->
  assoc key d = Some values ->
  List.filter (String.prefix (quote_plus key +:+ "=")) (urlencode_fields d)
  = map (fun v => quote_plus key +:+ "=" +:+ quote_plus v) values.
Proof.
  unfold keys_unique, urlencode_fields.
  induction d as [|[k vs] d IH]; [done|].
  cbn [map fst assoc flat_map]. intros Hnd Ha.
  apply NoDup_cons in Hnd as [Hk Hnd].
  rewrite List.filter_app, filter_fields_entry.
  destruct (String.eqb_spec key k) as [->|Hne].
  - injection Ha as ->.
    fold (urlencode_fields d). rewrite filter_fields_absent, app_nil_r; [done|].
    apply assoc_None_keys. by rewrite <- list_elem_of_In.
  - by apply IH.
Qed.

Lemma urlencode_fields_chars (d : query_dict) :
  Forall (fun field => string_forallb is_field_char field = true)
    (urlencode_fields d).
Proof.
  assert (Hesc : forall s, string_forallb is_field_char (quote_plus s) = true).
  { intros s. pose proof (quote_plus_escaped s) as H.
    induction (quote_plus s) as [|c q IH]; [done|]. cbn [string_forallb] in *.
    apply andb_prop in H as [Hc Hq]. unfold is_field_char at 1.
    by rewrite Hc, IH. }
  unfold urlencode_fields. induction d as [|[k vs] d IH]; [constructor|].
  cbn [flat_map]. apply Forall_app. split; [|exact IH].
  induction vs as [|v vs IHv]; constructor; [|exact IHv].
  by rewrite !string_forallb_app, !Hesc.
Qed.

Lemma period_bounds_safe template year :
  string_forallb is_always_safe (fst (period_bounds template year)) = true
  /\ string_forallb is_always_safe (snd (period_bounds template year)) = true.
Proof.
  unfold period_bounds.
  destruct (contains "-Q" template); [|destruct (contains "-M" template)];
    cbn [fst snd]; rewrite ?string_forallb_app, !str_of_int_safe; done.
Qed.

Section UrlRewritingFields.

Variable utf8_replace : string -> string.
Variable urlparse : string -> outcome ParseResult.
Variable urlunparse : ParseResult -> string.

(** The query that [_set_period_params] hands to [urlunparse] is a list
    of fields joined with [&].  Exactly one field starts with
    [startPeriod=] and exactly one with [endPeriod=]: they read
    [startPeriod=] and [endPeriod=] followed by the bounds of the year at
    the granularity of the template, unescaped.  No field contains a
    character other than letters, digits, [_.-~], [+], [%] and [=]. *)
Theorem set_period_params_fields target year parsed :
  urlparse target = Returns parsed ->
  let query := parse_qs utf8_replace (pr_query parsed) in
  let bounds := period_bounds (start_template_of query) year in
  exists fields,
    _set_period_params utf8_replace urlparse urlunparse target year
    = Returns (urlunparse (replace_query parsed (join "&" fields)))
    /\ List.filter (String.prefix "startPeriod=") fields
       = ["startPeriod=" +:+ fst bounds]
    /\ List.filter (String.prefix "endPeriod=") fields
       = ["endPeriod=" +:+ snd bounds]
    /\ Forall (fun field => string_forallb is_field_char field = true) fields.
Proof.
  intros Hparsed query bounds.
  set (query' := dict_set "endPeriod" [snd bounds]
                   (dict_set "startPeriod" [fst bounds] query)).
  assert (Hunique : keys_unique query').
  { apply keys_unique_dict_set, keys_unique_dict_set, parse_qs_keys_unique. }
  destruct (period_bounds_safe (start_template_of query) year) as [Hfst Hsnd].
  fold bounds in Hfst, Hsnd.
  exists (urlencode_fields query'). split; [|split; [|split]].
  - by apply set_period_params_eq.
  - change "startPeriod=" with (quote_plus "startPeriod" +:+ "=").
    rewrite (filter_fields_key "startPeriod" [fst bounds] query' Hunique).
    + cbn [map]. by rewrite (quote_plus_safe _ Hfst).
    + unfold query'. rewrite assoc_dict_set_ne by discriminate.
      apply assoc_dict_set_eq.
  - change "endPeriod=" with (quote_plus "endPeriod" +:+ "=").
    rewrite (filter_fields_key "endPeriod" [snd bounds] query' Hunique).
    + cbn [map]. by rewrite (quote_plus_safe _ Hsnd).
    + apply assoc_dict_set_eq.
  - apply urlencode_fields_chars.
Qed.

(** The query that [_census_url_for_year] hands to [urlunparse]: when
    the parsed query has a [time] key, exactly one field starts with
    [time=], and it reads [time=] followed by the year; when it has none,
    no field does. *)
Theorem census_url_for_year_fields dataset_id year parsed :
  urlparse (sub_year_segments 0 ("/data/" +:+ str_of_int year +:+ "/") dataset_id)
  = Returns parsed ->
  let query := parse_qs utf8_replace (pr_query parsed) in
  exists fields,
    _census_url_for_year utf8_replace urlparse urlunparse dataset_id year
    = Returns (urlunparse (replace_query parsed (join "&" fields)))
    /\ List.filter (String.prefix "time=") fields
       = (if dict_mem "time" query then ["time=" +:+ str_of_int year] else [])
    /\ Forall (fun field => string_forallb is_field_char field = true) fields.
Proof.
  intros Hparsed query.
  set (query' := if dict_mem "time" query
                 then dict_set "time" [str_of_int year] query else query).
  exists (urlencode_fields query'). split; [|split].
  - by apply census_url_for_year_eq.
  - change "time=" with (quote_plus "time" +:+ "=").
    unfold query'. destruct (dict_mem "time" query) eqn:Hmem.
    + rewrite (filter_fields_key "time" [str_of_int year]).
      * cbn [map]. by rewrite (quote_plus_safe _ (str_of_int_safe year)).
      * apply keys_unique_dict_set, parse_qs_keys_unique.
      * apply assoc_dict_set_eq.
    + apply filter_fields_absent. unfold dict_mem in Hmem.
      by destruct (assoc "time" query).
  - apply urlencode_fields_chars.
Qed.

End UrlRewritingFields.

Lemma set_period_params_query_witness :
  exists parsed query',
    _set_period_params ascii_decoder sample_urlparse sample_urlunparse
      oecd_gdp_quarterly_id 2021
    = Returns (sample_urlunparse (replace_query parsed (urlencode query')))
    /\ assoc "startPeriod" query' = Some ["2021-Q1"]
    /\ assoc "endPeriod" query' = Some ["2021-Q4"]
    /\ assoc "dimensionAtObservation" query' = Some ["AllDimensions"].
Proof.
  eexists.
  assert (Hparsed : sample_urlparse oecd_gdp_quarterly_id = Returns ?[parsed])
    by (vm_compute; reflexivity).
  destruct (proj1 (set_period_params_query ascii_decoder sample_urlparse
                     sample_urlunparse oecd_gdp_quarterly_id 2021) _ Hparsed)
    as (query' & Hrun & Hstart & Hend & Hother & _).
  exists query'. split; [exact Hrun|].
  match type of Hstart with
  | _ = Some [fst ?b] =>
      assert (Hb : b = ("2021-Q1", "2021-Q4")) by (vm_compute; reflexivity);
      rewrite Hb in Hstart, Hend
  end.
  split; [exact Hstart|]. split; [exact Hend|].
  rewrite Hother by discriminate. vm_compute. reflexivity.
Defined.

Lemma set_period_params_fields_witness :
  exists parsed fields,
    _set_period_params ascii_decoder sample_urlparse sample_urlunparse
      oecd_gdp_quarterly_id 2021
    = Returns (sample_urlunparse (replace_query parsed (join "&" fields)))
    /\ List.filter (String.prefix "startPeriod=") fields = ["startPeriod=2021-Q1"]
    /\ List.filter (String.prefix "endPeriod=") fields = ["endPeriod=2021-Q4"].
Proof.
  eexists.
  assert (Hparsed : sample_urlparse oecd_gdp_quarterly_id = Returns ?[parsed])
    by (vm_compute; reflexivity).
  destruct (set_period_params_fields ascii_decoder sample_urlparse
              sample_urlunparse oecd_gdp_quarterly_id 2021 _ Hparsed)
    as (fields & Hrun & Hstart & Hend & _).
  exists fields. split; [exact Hrun|].
  match type of Hstart with
  | _ = [_ +:+ fst ?b] =>
      assert (Hb : b = ("2021-Q1", "2021-Q4")) by (vm_compute; reflexivity);
      rewrite Hb in Hstart, Hend
  end.
  split; [exact Hstart|exact Hend].
Defined.

Lemma census_url_for_year_query_witness :
  exists parsed query',
    _census_url_for_year ascii_decoder sample_urlparse sample_urlunparse
      census_poverty_id 2023
    = Returns (sample_urlunparse (replace_query parsed (urlencode query')))
    /\ assoc "time" query' = Some ["2023"].
Proof.
  eexists.
  assert (Hparsed :
            sample_urlparse
              (sub_year_segments 0 ("/data/" +:+ str_of_int 2023 +:+ "/")
                 census_poverty_id)
            = Returns ?[parsed]) by (vm_compute; reflexivity).
  destruct (proj1 (census_url_for_year_query ascii_decoder sample_urlparse
                     sample_urlunparse census_poverty_id 2023) _ Hparsed)
    as (query' & Hrun & _ & _ & Htime & _).
  exists query'. split; [exact Hrun|].
  apply Htime. vm_compute. reflexivity.
Defined.

Lemma census_url_for_year_fields_witness :
  exists parsed fields,
    _census_url_for_year ascii_decoder sample_urlparse sample_urlunparse
      census_population_id 2023
    = Returns (sample_urlunparse (replace_query parsed (join "&" fields)))
    /\ List.filter (String.prefix "time=") fields = [].
Proof.
  eexists.
  assert (Hparsed :
            sample_urlparse
              (sub_year_segments 0 ("/data/" +:+ str_of_int 2023 +:+ "/")
                 census_population_id)
            = Returns ?[parsed]) by (vm_compute; reflexivity).
  destruct (census_url_for_year_fields ascii_decoder sample_urlparse
              sample_urlunparse census_population_id 2023 _ Hparsed)
    as (fields & Hrun & Htime & _).
  exists fields. split; [exact Hrun|].
  rewrite Htime. vm_compute. reflexivity.
Defined.

(** ** Substituting the year segments *)

Section YearSegments.

Variable replacement : string.

Lemma sub_year_segments_skip n : forall s,
  sub_year_segments n replacement s
  = sub_year_segments 0 replacement (string_drop n s).
Proof.
  induction n as [|n IH]; intros [|c s]; try reflexivity.
  cbn [sub_year_segments string_drop]. apply IH.
Qed.

Lemma sub_year_segments_match c rest :
  year_segment_at (String c rest) = true ->
  sub_year_segments 0 replacement (String c rest)
  = replacement +:+ sub_year_segments 0 replacement (string_drop 11 (String c rest)).
Proof.
  intros Hm. cbn [sub_year_segments]. rewrite Hm.
  by rewrite sub_year_segments_skip.
Qed.

Lemma sub_year_segments_other c rest :
  year_segment_at (String c rest) = false ->
  sub_year_segments 0 replacement (String c rest)
  = String c (sub_year_segments 0 replacement rest).
Proof. intros Hm. cbn [sub_year_segments]. by rewrite Hm. Qed.

(** A text without a year segment is left as it is. *)
Lemma sub_year_segments_id s :
  has_year_segment s = false -> sub_year_segments 0 replacement s = s.
Proof.
  induction s as [|c s IH]; [done|]. cbn [has_year_segment].
  intros H. apply orb_false_elim in H as [Hm Hs].
  rewrite sub_year_segments_other by done. by rewrite IH.
Qed.

End YearSegments.

Lemma prefix_app_long a : forall p rest,
  (String.length a <= String.length p)%nat ->
  String.prefix a (p +:+ rest) = String.prefix a p.
Proof.
  induction a as [|x a IH]; intros p rest Hlen.
  { by destruct (p +:+ rest), p. }
  destruct p as [|y p]; [simpl in Hlen; lia|].
  rewrite append_cons. cbn [String.prefix].
  destruct (ascii_dec x y); [|done]. apply IH. simpl in Hlen. lia.
Qed.

Lemma contains_cons sub c s :
  contains sub (String c s) = false ->
  String.prefix sub (String c s) = false /\ contains sub s = false.
Proof. cbn [contains]. intros H. by apply orb_false_elim in H. Qed.

(** No match starts inside a text that does not contain [/data/], when
    this text is followed by a year segment. *)
Lemma no_segment_before p rest :
  contains "/data/" p = false ->
  p <> "" ->
  year_segment_at (p +:+ "/data/" +:+ rest) = false.
Proof.
  intros Hp Hne. unfold year_segment_at.
  destruct p as [|c1 [|c2 [|c3 [|c4 [|c5 [|c6 p]]]]]]; try done;
    try (destruct (String.prefix _ _); [|reflexivity];
         by destruct rest as [|r1 [|r2 [|r3 [|r4 rest]]]]).
  apply contains_cons in Hp as [Hpre _].
  rewrite prefix_app_long by (simpl; lia). by rewrite Hpre.
Qed.

(** The first year segment of a text is replaced where it stands: what
    precedes it, if it does not contain [/data/], is kept, and the
    substitution goes on behind the segment. *)
Theorem sub_year_segments_first replacement before d1 d2 d3 d4 after :
  contains "/data/" before = false ->
  is_digit d1 && is_digit d2 && is_digit d3 && is_digit d4 = true ->
  sub_year_segments 0 replacement
    (before +:+ "/data/" +:+ String d1 (String d2 (String d3 (String d4 "/")))
     +:+ after)
  = before +:+ replacement +:+ sub_year_segments 0 replacement after.
Proof.
  intros Hbefore Hdigits. induction before as [|c before IH].
  - rewrite !append_nil_l.
    change ("/data/" +:+ String d1 (String d2 (String d3 (String d4 "/"))) +:+ after)
      with (String "/" (String "d" (String "a" (String "t" (String "a" (String "/"
              (String d1 (String d2 (String d3 (String d4 (String "/" after))))))))))).
    rewrite sub_year_segments_match; [reflexivity|].
    unfold year_segment_at. cbn [string_drop String.prefix].
    cbn. by rewrite Hdigits.
  - pose proof (contains_cons _ _ _ Hbefore) as [_ Hrest].
    rewrite append_cons, sub_year_segments_other.
    + by rewrite IH, append_cons.
    + rewrite <- append_cons. by apply no_segment_before.
Qed.

Lemma sub_year_segments_first_witness :
  sub_year_segments 0 "/data/2023/"
    ("https://api.census.gov" +:+ "/data/" +:+ "2020/" +:+ "dec/pl?get=NAME,P1_001N&for=state:*")
  = "https://api.census.gov" +:+ "/data/2023/"
    +:+ sub_year_segments 0 "/data/2023/" "dec/pl?get=NAME,P1_001N&for=state:*".
Proof.
  apply (sub_year_segments_first "/data/2023/" "https://api.census.gov"
           "2" "0" "2" "0" "dec/pl?get=NAME,P1_001N&for=state:*"); reflexivity.
Defined.

(** A text in which no position starts a match of [/data/dddd/] is
    returned unchanged, whatever the replacement. *)
Theorem sub_year_segments_none replacement s :
  has_year_segment s = false -> sub_year_segments 0 replacement s = s.
Proof. apply sub_year_segments_id. Qed.

Lemma sub_year_segments_none_witness :
  sub_year_segments 0 "/data/2023/" census_poverty_id = census_poverty_id.
Proof. apply sub_year_segments_none. vm_compute. reflexivity. Defined.

Lemma digit_not_slash c : is_digit c = true -> Ascii.eqb c "/" = false.
Proof. destruct c as [[] [] [] [] [] [] [] []]; vm_compute; congruence. Qed.

Lemma digit_variant_char c c' :
  Ascii.eqb c c' || (is_digit c && is_digit c') = true ->
  is_digit c = is_digit c' /\ Ascii.eqb c "/" = Ascii.eqb c' "/".
Proof.
  destruct (Ascii.eqb_spec c c') as [->|_]; [done|]. cbn [orb].
  intros H. apply andb_prop in H as [Hc Hc'].
  by rewrite Hc, Hc', !digit_not_slash.
Qed.

Lemma digit_variant_refl s : digit_variant s s = true.
Proof.
  induction s as [|c s IH]; [done|]. cbn [digit_variant].
  by rewrite Ascii.eqb_refl, IH.
Qed.

Lemma digit_variant_drop n : forall s s',
  digit_variant s s' = true ->
  digit_variant (string_drop n s) (string_drop n s') = true.
Proof.
  induction n as [|n IH]; intros [|c s] [|c' s'] Hv; try done.
  cbn [digit_variant] in Hv. apply andb_prop in Hv as [_ Hv].
  cbn [string_drop]. by apply IH.
Qed.

Lemma digit_variant_prefix a :
  string_forallb (fun x => negb (is_digit x)) a = true ->
  forall s s', digit_variant s s' = true -> String.prefix a s = String.prefix a s'.
Proof.
  intros Ha. induction a as [|x a IH]; intros [|c s] [|c' s'] Hv; try done.
  cbn [string_forallb] in Ha. apply andb_prop in Ha as [Hx Ha].
  cbn [digit_variant] in Hv. apply andb_prop in Hv as [Hc Hv].
  cbn [String.prefix]. rewrite (IH Ha s s' Hv).
  destruct (Ascii.eqb_spec c c') as [->|_]; [done|]. cbn [orb] in Hc.
  apply andb_prop in Hc as [Hc Hc'].
  destruct (ascii_dec x c) as [->|_]; [by rewrite Hc in Hx|].
  destruct (ascii_dec x c') as [->|_]; [by rewrite Hc' in Hx|]. done.
Qed.

(** Changing digits into digits does not move the matches. *)
Lemma digit_variant_segment s s' :
  digit_variant s s' = true -> year_segment_at s = year_segment_at s'.
Proof.
  intros Hv. unfold year_segment_at.
  rewrite (digit_variant_prefix "/data/" eq_refl s s' Hv). f_equal.
  pose proof (digit_variant_drop 6 s s' Hv) as Hd.
  destruct (string_drop 6 s) as [|a1 [|a2 [|a3 [|a4 [|a5 t]]]]],
           (string_drop 6 s') as [|b1 [|b2 [|b3 [|b4 [|b5 t']]]]];
    cbn [digit_variant] in Hd; try done;
    repeat (apply andb_prop in Hd as [?%digit_variant_char Hd]);
    try discriminate.
  repeat match goal with H : _ /\ _ |- _ => destruct H as [? ?] end.
  congruence.
Qed.

(** A text that starts with a match is [/data/], four digits, a slash
    and the rest. *)
Lemma year_segment_shape s :
  year_segment_at s = true ->
  exists y after,
    s = "/data/" +:+ y +:+ "/" +:+ after
    /\ four_digits y = true
    /\ string_drop 11 s = after.
Proof.
  unfold year_segment_at. intros H. apply andb_prop in H as [Hpre Hrest].
  destruct s as [|c0 [|c1 [|c2 [|c3 [|c4 [|c5 t]]]]]];
    cbn [String.prefix] in Hpre;
    repeat (match type of Hpre with
            | context [ascii_dec ?a ?b] => destruct (ascii_dec a b) as [<-|]
            end; try discriminate Hpre); try discriminate Hpre.
  cbn [string_drop] in Hrest.
  destruct t as [|d1 [|d2 [|d3 [|d4 [|c after]]]]]; try discriminate Hrest.
  apply andb_prop in Hrest as [Hdigits Hc].
  apply Ascii.eqb_eq in Hc as ->.
  exists (String d1 (String d2 (String d3 (String d4 "")))), after.
  split; [reflexivity|]. split; [exact Hdigits|reflexivity].
Qed.

Lemma year_segment_at_replacement y after :
  four_digits y = true ->
  year_segment_at ("/data/" +:+ y +:+ "/" +:+ after) = true
  /\ string_drop 11 ("/data/" +:+ y +:+ "/" +:+ after) = after.
Proof.
  destruct y as [|d1 [|d2 [|d3 [|d4 [|]]]]]; try discriminate.
  cbn [four_digits]. intros Hd. split; [|reflexivity].
  unfold year_segment_at.
  change ("/data/" +:+ String d1 (String d2 (String d3 (String d4 ""))) +:+ "/" +:+ after)
    with (String "/" (String "d" (String "a" (String "t" (String "a" (String "/"
            (String d1 (String d2 (String d3 (String d4 (String "/" after))))))))))).
  cbn. by rewrite Hd.
Qed.

Lemma string_drop_length n : forall s,
  (String.length (string_drop n s) <= String.length s)%nat.
Proof.
  induction n as [|n IH]; intros [|c s]; cbn [string_drop]; try lia.
  specialize (IH s). simpl. lia.
Qed.

Lemma digit_variant_app a : forall a' b b',
  digit_variant a a' = true -> digit_variant b b' = true ->
  digit_variant (a +:+ b) (a' +:+ b') = true.
Proof.
  induction a as [|x a IH]; intros [|x' a'] b b' Ha Hb; try done.
  cbn [digit_variant] in Ha. apply andb_prop in Ha as [Hx Ha].
  rewrite !append_cons. cbn [digit_variant]. by rewrite Hx, (IH a' b b').
Qed.

Lemma four_digits_variant y y' :
  four_digits y = true -> four_digits y' = true ->
  digit_variant ("/data/" +:+ y +:+ "/") ("/data/" +:+ y' +:+ "/") = true.
Proof.
  destruct y as [|a1 [|a2 [|a3 [|a4 [|]]]]]; try discriminate.
  destruct y' as [|b1 [|b2 [|b3 [|b4 [|]]]]]; try discriminate.
  cbn [four_digits]. intros Hy Hy'.
  apply andb_prop in Hy as [Hy Ha4]. apply andb_prop in Hy as [Hy Ha3].
  apply andb_prop in Hy as [Ha1 Ha2].
  apply andb_prop in Hy' as [Hz Hb4]. apply andb_prop in Hz as [Hz Hb3].
  apply andb_prop in Hz as [Hb1 Hb2].
  change (digit_variant
            (String "/" (String "d" (String "a" (String "t" (String "a" (String "/"
               (String a1 (String a2 (String a3 (String a4 "/"))))))))))
            (String "/" (String "d" (String "a" (String "t" (String "a" (String "/"
               (String b1 (String b2 (String b3 (String b4 "/"))))))))))
          = true).
  cbn [digit_variant].
  by rewrite Ha1, Ha2, Ha3, Ha4, Hb1, Hb2, Hb3, Hb4, !orb_true_r.
Qed.

Section YearSegmentsTwice.

Variable y1 : string.
Hypothesis y1_digits : four_digits y1 = true.
Variable replacement2 : string.

Let replacement1 : string := "/data/" +:+ y1 +:+ "/".

(** Substituting a four-digit year changes digits into digits only. *)
Lemma sub_year_segments_variant n : forall s,
  (String.length s <= n)%nat ->
  digit_variant s (sub_year_segments 0 replacement1 s) = true.
Proof.
  induction n as [|n IH]; intros [|c s] Hlen; try done; [simpl in Hlen; lia|].
  destruct (year_segment_at (String c s)) eqn:Hm.
  - rewrite sub_year_segments_match by done.
    destruct (year_segment_shape _ Hm) as (y & after & Hs & Hy & Hdrop).
    rewrite Hdrop, Hs. unfold replacement1.
    assert (Hafter : digit_variant after
                       (sub_year_segments 0 ("/data/" +:+ y1 +:+ "/") after) = true).
    { apply IH. rewrite <- Hdrop.
      pose proof (string_drop_length 10 s) as Hshort.
      change (string_drop 11 (String c s)) with (string_drop 10 s).
      change (String.length (String c s)) with (S (String.length s)) in Hlen.
      lia. }
    replace ("/data/" +:+ y +:+ "/" +:+ after)
      with (("/data/" +:+ y +:+ "/") +:+ after)
      by (by rewrite !append_assoc).
    apply digit_variant_app; [|exact Hafter].
    by apply four_digits_variant.
  - rewrite sub_year_segments_other by done. cbn [digit_variant].
    rewrite Ascii.eqb_refl. apply IH.
    change (String.length (String c s)) with (S (String.length s)) in Hlen. lia.
Qed.

Lemma sub_year_segments_twice n : forall s,
  (String.length s <= n)%nat ->
  sub_year_segments 0 replacement2 (sub_year_segments 0 replacement1 s)
  = sub_year_segments 0 replacement2 s.
Proof.
  induction n as [|n IH]; intros [|c s] Hlen; try done; [simpl in Hlen; lia|].
  destruct (year_segment_at (String c s)) eqn:Hm.
  - rewrite !(sub_year_segments_match _ c s) by done.
    unfold replacement1 at 1. rewrite !append_assoc.
    destruct (year_segment_at_replacement y1
                (sub_year_segments 0 replacement1 (string_drop 11 (String c s)))
                y1_digits) as [Hm1 Hdrop1].
    destruct ("/data/" +:+ y1 +:+ "/" +:+
              sub_year_segments 0 replacement1 (string_drop 11 (String c s)))
      as [|c' s'] eqn:Hs'; [discriminate Hm1|].
    rewrite (sub_year_segments_match _ c' s') by done.
    rewrite Hdrop1, IH; [done|].
    pose proof (string_drop_length 10 s) as Hshort.
    change (string_drop 11 (String c s)) with (string_drop 10 s).
    change (String.length (String c s)) with (S (String.length s)) in Hlen.
    lia.
  - rewrite (sub_year_segments_other replacement1) by done.
    assert (Hm' : year_segment_at
                    (String c (sub_year_segments 0 replacement1 s)) = false).
    { rewrite <- Hm. symmetry. apply digit_variant_segment.
      cbn [digit_variant]. rewrite Ascii.eqb_refl.
      apply (sub_year_segments_variant (String.length s)). lia. }
    rewrite !sub_year_segments_other by done. f_equal.
    apply IH.
    change (String.length (String c s)) with (S (String.length s)) in Hlen. lia.
Qed.

End YearSegmentsTwice.

(** Substituting again overrides: once the year segments were replaced
    by a four-digit year, substituting another replacement gives what it
    gives on the original text. *)
Theorem sub_year_segments_override y1 replacement2 s :
  four_digits y1 = true ->
  sub_year_segments 0 replacement2
    (sub_year_segments 0 ("/data/" +:+ y1 +:+ "/") s)
  = sub_year_segments 0 replacement2 s.
Proof.
  intros Hy1. by apply (sub_year_segments_twice y1 Hy1 replacement2 (String.length s)).
Qed.

Lemma sub_year_segments_override_witness :
  sub_year_segments 0 "/data/2024/"
    (sub_year_segments 0 ("/data/" +:+ "2023" +:+ "/") census_population_id)
  = sub_year_segments 0 "/data/2024/" census_population_id.
Proof. apply (sub_year_segments_override "2023"). reflexivity. Defined.



(** ** From exhausted retries to the classification *)

(** What reaches the classifier when the retries are used up.  If every
    answer carries the same retried status, the error the wrapper raises
    after six requests is classified [rate_limited] for 429 and
    [upstream_server_error] for 500, 502, 503 and 504; if every request
    fails with a [RequestException], the sixth one is raised and
    classified [transient_retries_exhausted], its text being the message;
    the action is [retry_later] in all cases, for every source type, status
    code and payload. *)
Theorem exhausted_retries_classification (env : environment)
    (source_type method target : string) (w : world) :
  (forall code,
      In code RETRYABLE_STATUS_CODES ->
      (forall n, exists resp, server env n = Returns resp
                              /\ status_code resp = code) ->
      exists e w',
        _request_with_retries env source_type method target w = Some (Raises e, w')
        /\ sent w' = repeat (Request method target) 6 ++ sent w
        /\ forall st sc payload,
             classified (_classify_result st sc payload (Some e)) "error"
               (if code =? 429 then "rate_limited" else "upstream_server_error")
               "retry_later")
  /\ ((forall n, exists msg, server env n = Raises (RequestException msg)) ->
      exists msg w',
        _request_with_retries env source_type method target w
        = Some (Raises (RequestException msg), w')
        /\ sent w' = repeat (Request method target) 6 ++ sent w
        /\ server env (length (sent w) + 5) = Raises (RequestException msg)
        /\ forall st sc payload,
             _classify_result st sc payload (Some (RequestException msg))
             = Returns (Classification "error" "transient_retries_exhausted"
                          "retry_later" msg)).
Proof.
  split.
  - intros code Hcode Hall.
    destruct (retrying_exhausts env source_type method target) with (k := 5%nat) (w := w)
      as (resp & w' & Hrun & Hlast & Hsent).
    { intros n. destruct (Hall n) as (resp & Hreply & <-). eauto. }
    { unfold MAX_ATTEMPTS. lia. }
    destruct (Hall (length (sent w) + 5)%nat) as (resp' & Hreply & Hst).
    rewrite Hlast in Hreply. injection Hreply as <-.
    eexists _, w'. split; [exact Hrun|]. split; [exact Hsent|].
    intros st sc payload. rewrite Hst. simpl in Hcode.
    destruct Hcode as [<-|[<-|[<-|[<-|[<-|[]]]]]]; eexists; reflexivity.
  - intros Hall.
    destruct (request_with_retries_total env source_type method target w)
      as [[result w'] Hrun].
    destruct (retrying_trace _ _ _ _ _ _ _ _ _ Hrun)
      as (k & Hsent & _ & Hres & Hfit & Hlast).
    destruct (Hall (length (sent w) + k)%nat) as (msg & Hreply).
    rewrite Hreply in Hres, Hlast. specialize (Hlast eq_refl).
    unfold MAX_ATTEMPTS in *. assert (k = 5%nat) as -> by lia.
    exists msg, w'. subst result. done.
Qed.

Lemma exhausted_retries_classification_witness :
  exists e w',
    _request_with_retries always_503 "oecd" "GET" oecd_gdp_quarterly_id fresh_world
    = Some (Raises e, w')
    /\ classified (_classify_result "oecd" None JNull (Some e)) "error"
         "upstream_server_error" "retry_later".
Proof.
  destruct (proj1 (exhausted_retries_classification always_503 "oecd" "GET"
                     oecd_gdp_quarterly_id fresh_world) 503)
    as (e & w' & Hrun & _ & Hcls).
  - simpl. tauto.
  - intros n. eexists. split; reflexivity.
  - exists e, w'. split; [exact Hrun|]. apply (Hcls "oecd" None JNull).
Defined.


(** * The disk after a run *)

Lemma assoc_app {A} (k : string) (l1 l2 : list (string * A)) :
  assoc k (l1 ++ l2)
  = match assoc k l1 with Some v => Some v | None => assoc k l2 end.
Proof.
  induction l1 as [|[k' v'] l1 IH]; [done|].
  simpl. destruct (String.eqb k k'); [done|apply IH].
Qed.

Lemma write_all_app (fs1 fs2 : file_system) (disk : gmap string json) :
  write_all (fs1 ++ fs2) disk = write_all fs2 (write_all fs1 disk).
Proof. unfold write_all. apply fold_left_app. Qed.

(** A path holds what was written to it last, or what it held before. *)
Lemma write_all_lookup (fs : file_system) : forall (disk : gmap string json) path,
  write_all fs disk !! path
  = match assoc path (rev fs) with
    | Some data => Some data
    | None => disk !! path
    end.
Proof.
  induction fs as [|[p data] fs IH]; intros disk path; [done|].
  change (write_all ((p, data) :: fs) disk) with (write_all fs (<[p := data]> disk)).
  rewrite IH. cbn [rev]. rewrite assoc_app.
  destruct (assoc path (rev fs)); [done|].
  cbn [assoc]. destruct (String.eqb_spec path p) as [->|Hne].
  - by rewrite lookup_insert_eq.
  - by rewrite lookup_insert_ne.
Qed.

Lemma write_all_twice (fs : file_system) (disk : gmap string json) :
  write_all fs (write_all fs disk) = write_all fs disk.
Proof.
  apply map_eq. intros path. rewrite !write_all_lookup.
  by destruct (assoc path (rev fs)).
Qed.


(** A download appends its files to those already written and is
    otherwise blind to them. *)
Lemma download_dataset_appends adapter group dataset_name source_type dataset_id fs :
  download_dataset adapter group dataset_name source_type dataset_id fs
  = (fst (download_dataset adapter group dataset_name source_type dataset_id []),
     fs ++ snd (download_dataset adapter group dataset_name source_type dataset_id [])).
Proof.
  unfold download_dataset.
  destruct (handlers adapter source_type) as [handler|];
    [|simpl; by rewrite app_nil_r].
  rewrite download_years_frame.
  destruct (download_years _ _ _ _ _ _ _ []) as [[acc|e] fs1]; cbn [fst snd].
  - unfold _write_json. by rewrite app_assoc.
  - done.
Qed.


(** * The batch runner *)

Lemma run_group_app adapter group source_type : forall ds1 ds2 report fs,
  run_group adapter group source_type (ds1 ++ ds2) report fs
  = match run_group adapter group source_type ds1 report fs with
    | (Returns report, fs) => run_group adapter group source_type ds2 report fs
    | (Raises e, fs) => (Raises e, fs)
    end.
Proof.
  induction ds1 as [|[n id] ds1 IH]; intros ds2 report fs; [done|].
  cbn [app run_group].
  destruct (download_dataset_typed _ _ _ _ _ _) as [[s|e] fs1]; [apply IH|done].
Qed.

Lemma run_each_app adapter : forall todo1 todo2 report fs,
  run_each adapter (todo1 ++ todo2) report fs
  = match run_each adapter todo1 report fs with
    | (Returns report, fs) => run_each adapter todo2 report fs
    | (Raises e, fs) => (Raises e, fs)
    end.
Proof.
  induction todo1 as [|[[[g st] n] id] todo1 IH]; intros todo2 report fs; [done|].
  cbn [app run_each].
  destruct (run_group _ _ _ _ _ _) as [[r|e] fs1]; [apply IH|done].
Qed.

Lemma run_group_each adapter group source_type : forall ds report fs,
  run_group adapter group source_type ds report fs
  = run_each adapter
      (map (fun '(dataset_name, dataset_id) =>
              (group, source_type, dataset_name, dataset_id)) ds)
      report fs.
Proof.
  induction ds as [|[n id] ds IH]; intros report fs; [done|].
  change ((n, id) :: ds) with ([(n, id)] ++ ds). rewrite run_group_app.
  cbn [app map run_each].
  destruct (run_group _ _ _ [_] _ _) as [[r|e] fs1]; [apply IH|done].
Qed.

(** The nested loops visit the datasets in the order of [catalog_datasets]. *)
Lemma run_groups_each adapter : forall catalog report fs,
  run_groups adapter catalog report fs
  = run_each adapter (catalog_datasets catalog) report fs.
Proof.
  induction catalog as [|[group config] catalog IH]; intros report fs; [done|].
  cbn [run_groups catalog_datasets flat_map]. rewrite run_each_app.
  rewrite <- run_group_each.
  destruct (run_group _ _ _ _ _ _) as [[r|e] fs1]; [apply IH|done].
Qed.

Lemma download_dataset_typed_appends adapter group dataset_name source_type
    dataset_id fs :
  download_dataset_typed adapter group dataset_name source_type dataset_id fs
  = (download_outcome adapter (group, source_type, dataset_name, dataset_id),
     fs ++ snd (download_dataset_typed adapter group dataset_name source_type
                  dataset_id [])).
Proof.
  unfold download_outcome, download_dataset_typed.
  destruct source_type as [source_type|]; cbn [fst snd].
  - apply download_dataset_appends.
  - by rewrite app_nil_r.
Qed.

(** A finished download: 32 years counted, 33 files written. *)
Lemma download_dataset_counts adapter group dataset_name source_type dataset_id
    fs s fs' :
  download_dataset adapter group dataset_name source_type dataset_id fs
  = (Returns s, fs') ->
  0 <= totals_ok s /\ 0 <= totals_error s
  /\ totals_ok s + totals_error s = 32
  /\ length fs' = (length fs + 33)%nat.
Proof.
  unfold download_dataset. intros Hrun.
  destruct (handlers adapter source_type) as [handler|]; [|discriminate].
  destruct (download_years _ _ _ _ _ _ _ _) as [[acc|e] fs1] eqn:Hloop;
    [|discriminate].
  injection Hrun as -> <-.
  apply download_years_returns in Hloop
    as ((Hok & Herr & Herrs) & Hyears & _ & Hfiles).
  2:{ by repeat split. }
  cbn [years map app] in Hyears.
  assert (Hlen : length (years s) = 32%nat).
  { rewrite <- (length_map year_of), Hyears. reflexivity. }
  pose proof (ok_not_ok_length (years s)) as Hsplit.
  assert (Hcount : length (errors s) = length (List.filter not_ok (years s))).
  { rewrite <- (length_map error_year), Herrs. apply length_map. }
  assert (Hfs1 : length fs1 = (length fs + 32)%nat).
  { rewrite <- (length_map fst fs1), Hfiles, length_app, !length_map. reflexivity. }
  unfold _write_json. rewrite length_app. cbn [length].
  repeat split; lia.
Qed.

Lemma run_each_returns adapter : forall todo report fs report' fs',
  run_each adapter todo report fs = (Returns report', fs') ->
  run_started_at report' = run_started_at report
  /\ run_datasets report' = run_datasets report + Z.of_nat (length todo)
  /\ run_ok_years report' + run_error_years report'
     = run_ok_years report + run_error_years report + 32 * Z.of_nat (length todo)
  /\ run_ok_years report <= run_ok_years report'
  /\ run_error_years report <= run_error_years report'
  /\ (exists entries,
        run_entries report' = run_entries report ++ entries
        /\ map report_key entries = map dataset_key todo
        /\ Forall (fun r => report_ok r + report_error r = 32
                            /\ report_summary_path r
                               = path_join (dataset_dir (report_group r)
                                              (report_dataset_name r))
                                   "_summary.json") entries)
  /\ length fs' = (length fs + 33 * length todo)%nat
  /\ Forall (completes adapter) todo.
Proof.
  induction todo as [|[[[g st] n] id] todo IH]; intros report fs report' fs' Hrun.
  - injection Hrun as <- <-. cbn [length]. split_and!; try done; try lia.
    + exists (@nil dataset_report). rewrite app_nil_r.
      split; [done|]. split; [done|constructor].
  - cbn [run_each run_group] in Hrun.
    destruct (download_dataset_typed adapter g n st id fs) as [[s|e] fs1] eqn:Hd;
      [|discriminate].
    assert (Hdone : completes adapter (g, st, n, id)).
    { exists s. rewrite download_dataset_typed_appends in Hd. congruence. }
    destruct st as [st|]; [|discriminate]. cbn [download_dataset_typed] in Hd.
    apply download_dataset_counts in Hd as (Hok & Herr & Hsum & Hfs1).
    apply IH in Hrun
      as (Hstart & Hn & Htot & Hok' & Herr' & (entries & Hentries & Hkeys & Hall)
          & Hfs' & Hrest).
    cbn [run_started_at run_datasets run_ok_years run_error_years run_entries]
      in Hstart, Hn, Htot, Hok', Herr', Hentries.
    cbn [length]. split_and!; try lia; try done.
    + eexists (_ :: entries). split; [by rewrite Hentries, <- app_assoc|].
      split; [cbn [map]; by rewrite Hkeys|].
      constructor; [|done]. by split.
    + by constructor.
Qed.

(** When [main] finishes, its report counts every dataset of the
    catalogue once and 32 years for each of them, split between the two
    counters; it lists the datasets in catalogue order, each with its own
    32 years and the path of its summary file; 33 files per dataset are
    on disk, then the run report, written last; and every download of the
    catalogue has returned. *)
Theorem main_report adapter catalog started_at finished_at run_id fs report fs' :
  main adapter catalog started_at finished_at run_id fs = (Returns report, fs') ->
  let todo := catalog_datasets catalog in
  run_started_at report = started_at
  /\ run_datasets report = Z.of_nat (length todo)
  /\ run_ok_years report + run_error_years report = 32 * run_datasets report
  /\ 0 <= run_ok_years report /\ 0 <= run_error_years report
  /\ map report_key (run_entries report) = map dataset_key todo
  /\ Forall (fun r => report_ok r + report_error r = 32
                      /\ report_summary_path r
                         = path_join (dataset_dir (report_group r)
                                        (report_dataset_name r))
                             "_summary.json") (run_entries report)
  /\ length fs' = (length fs + 33 * length todo + 1)%nat
  /\ last fs' = Some (run_path run_id, json_of_run_report report finished_at)
  /\ Forall (completes adapter) todo.
Proof.
  intros Hrun todo. subst todo. unfold main in Hrun.
  rewrite run_groups_each in Hrun.
  destruct (run_each _ _ _ _) as [[r|e] fs1] eqn:Heach; [|discriminate].
  injection Hrun as -> <-.
  apply run_each_returns in Heach
    as (Hstart & Hn & Htot & Hok & Herr & (entries & Hentries & Hkeys & Hall)
        & Hfs1 & Hdone).
  cbn [run_started_at run_datasets run_ok_years run_error_years run_entries app]
    in Hstart, Hn, Htot, Hok, Herr, Hentries.
  subst entries.
  unfold _write_json. rewrite length_app, last_snoc. cbn [length].
  split_and!; try done; lia.
Qed.

Lemma main_report_witness :
  exists report fs',
    main sample_adapter sample_catalog "2026-01-05T09:00:00+00:00"
      "2026-01-05T09:40:00+00:00" "20260105T094000Z" [] = (Returns report, fs')
    /\ run_datasets report = 3
    /\ run_ok_years report + run_error_years report = 32 * run_datasets report
    /\ length fs' = 100%nat.
Proof.
  pose (run := main sample_adapter sample_catalog "2026-01-05T09:00:00+00:00"
                 "2026-01-05T09:40:00+00:00" "20260105T094000Z" []).
  assert (Hrun : run = (fst run, snd run)) by (by destruct run).
  assert (Hfst : exists report,
            fst (main sample_adapter sample_catalog "2026-01-05T09:00:00+00:00"
                   "2026-01-05T09:40:00+00:00" "20260105T094000Z" [])
            = Returns report).
  { eexists. vm_compute. reflexivity. }
  destruct Hfst as [report Hfst]. fold run in Hfst. rewrite Hfst in Hrun.
  destruct (main_report _ _ _ _ _ _ _ _ Hrun)
    as (_ & Hn & Htot & _ & _ & _ & _ & Hlen & _).
  exists report, (snd run).
  split; [exact Hrun|]. split; [exact Hn|]. split; [exact Htot|exact Hlen].
Defined.


Lemma run_each_raises adapter e : forall todo report fs,
  (exists fs', run_each adapter todo report fs = (Raises e, fs'))
  <-> exists before d after,
        todo = before ++ d :: after
        /\ Forall (completes adapter) before
        /\ download_outcome adapter d = Raises e.
Proof.
  induction todo as [|[[[g st] n] id] todo IH]; intros report fs.
  - split; [intros [fs' Hrun]; discriminate|].
    intros (before & d & after & Htodo & _). by destruct before.
  - cbn [run_each run_group]. rewrite download_dataset_typed_appends.
    destruct (download_outcome adapter (g, st, n, id)) as [s|e0] eqn:Hd.
    + rewrite IH. split.
      * intros (before & d & after & -> & Hbefore & Hraises).
        exists ((g, st, n, id) :: before), d, after.
        split; [done|]. split; [|done]. constructor; [by exists s|done].
      * intros (before & d & after & Htodo & Hbefore & Hraises).
        destruct before as [|d0 before]; cbn [app] in Htodo.
        -- injection Htodo as <- _. congruence.
        -- injection Htodo as <- ->. inversion Hbefore; subst.
           by exists before, d, after.
    + split.
      * intros [fs' Hrun]. injection Hrun as <- _.
        exists [], (g, st, n, id), todo. split; [done|]. split; [constructor|done].
      * intros (before & d & after & Htodo & Hbefore & Hraises).
        destruct before as [|d0 before]; cbn [app] in Htodo.
        -- injection Htodo as <- _. eexists. f_equal. congruence.
        -- injection Htodo as <- _. inversion Hbefore as [|? ? [s Hs] _]; subst.
           congruence.
Qed.

(** [main] calls [download_dataset] outside any [try]: it raises an
    exception exactly when some download of the catalogue raises it after
    all the downloads before it, in catalogue order, have returned.  The
    run then ends as the loop over those downloads alone ends: the
    downloads after it are not attempted and no run report is written. *)
Theorem main_raises adapter catalog started_at finished_at run_id fs e :
  (exists fs', main adapter catalog started_at finished_at run_id fs = (Raises e, fs'))
  <-> exists before d after,
        catalog_datasets catalog = before ++ d :: after
        /\ Forall (completes adapter) before
        /\ download_outcome adapter d = Raises e
        /\ main adapter catalog started_at finished_at run_id fs
           = run_each adapter (before ++ [d]) (RunReport started_at 0 0 0 []) fs.
Proof.
  unfold main. rewrite run_groups_each. split.
  - intros [fs' Hrun].
    destruct (run_each _ _ _ _) as [[r|e1] fs1] eqn:Heach; [discriminate|].
    injection Hrun as -> ->.
    destruct (proj1 (run_each_raises adapter e _ _ _) (ex_intro _ fs' Heach))
      as (before & d & after & Htodo & Hbefore & Hraises).
    exists before, d, after. split_and!; try done.
    rewrite Htodo in Heach.
    change (d :: after) with ([d] ++ after) in Heach.
    rewrite app_assoc, run_each_app in Heach.
    destruct (proj2 (run_each_raises adapter e (before ++ [d])
                       (RunReport started_at 0 0 0 []) fs)) as [fs2 Hstop].
    { by exists before, d, []. }
    rewrite Hstop in Heach. rewrite Hstop. by injection Heach as ->.
  - intros (before & d & after & Htodo & Hbefore & Hraises & _).
    destruct (proj2 (run_each_raises adapter e (catalog_datasets catalog)
                       (RunReport started_at 0 0 0 []) fs)) as [fs2 Hstop].
    { by exists before, d, after. }
    rewrite Hstop. by exists fs2.
Qed.

Lemma main_raises_witness :
  exists e fs',
    main sample_adapter sample_catalog_bls "2026-01-05T09:00:00+00:00"
      "2026-01-05T09:40:00+00:00" "20260105T094000Z" [] = (Raises e, fs')
    /\ length fs' = 35%nat.
Proof.
  pose (bls := ("BLS", Some "bls", "US CPI", "CUUR0000SA0")
               : string * option string * string * string).
  assert (Hbls : exists e, download_outcome sample_adapter bls = Raises e).
  { eexists. vm_compute. reflexivity. }
  destruct Hbls as [e Hbls]. exists e.
  destruct (proj2 (main_raises sample_adapter sample_catalog_bls
                     "2026-01-05T09:00:00+00:00" "2026-01-05T09:40:00+00:00"
                     "20260105T094000Z" [] e)) as [fs' Hrun].
  { exists [("ECB", Some "ecb", "USD/EUR", "EXR.D.USD.EUR.SP00.A")], bls,
      [("US Census", Some "census", "Poverty Rate by State", census_poverty_id)].
    split; [reflexivity|]. split.
    - constructor; [|constructor]. eexists. vm_compute. reflexivity.
    - split; [exact Hbls|]. vm_compute. reflexivity. }
  exists fs'. split; [exact Hrun|].
  assert (Hlen : length (snd (main sample_adapter sample_catalog_bls
                                "2026-01-05T09:00:00+00:00"
                                "2026-01-05T09:40:00+00:00"
                                "20260105T094000Z" [])) = 35%nat)
    by (vm_compute; reflexivity).
  rewrite Hrun in Hlen. exact Hlen.
Defined.
